(** * Hemmelig: creation of secrets, expiry sweeping and policy gates

    A shallow embedding of the server-side code of the repository that
    creates secrets (the routes of [encryptSecret] and two revisions of the
    routes of [password], [/api/password/generate]), sweeps expired secrets
    ([dbCleaner] and [main] of the bootstrap module) and gates sign-up by
    e-mail domain ([restrictOrganizationEmailHandler]), followed by the
    properties established about it.  The code that serves a view is not
    among these files; the module [ViewConsumer] models it from the
    specification.

    Conventions.
    - Instants are [Z] milliseconds since the epoch, as [Date.now()] and
      [new Date()] give them.
    - JavaScript numbers that the handlers compare or add are integers; they
      are modelled as [Z].  The configured bounds and the entries of
      [VALID_TTL] are taken to be below 2^53, so that every comparison the
      handlers make has the same outcome on [Z] as on JavaScript numbers.
    - Strings are [string]; a character is one code unit in 0..255.
    - The database is explicit state ([World]); a Prisma call that can throw
      takes the error it raises, if any, from the environment of the call. *)

From Stdlib Require Import String Ascii ZArith List Bool Lia Arith.
From Stdlib Require Import DecimalString.
Import ListNotations.
Open Scope string_scope.
Open Scope Z_scope.

(* ===================================================================== *)
(** * JavaScript string primitives used by the handlers                    *)
(* ===================================================================== *)

Module JS.

(** [String(n)] for an integer [n]. *)
Definition numToString (z : Z) : string :=
  NilZero.string_of_int (Z.to_int z).

(** [s.length > 0]. *)
Definition nonEmpty (s : string) : bool :=
  match s with EmptyString => false | String _ _ => true end.

(** Truthiness of a string: [!s] is [negb (truthy s)]. *)
Definition truthy (s : string) : bool := nonEmpty s.

(** [a || b] where [a] may be [undefined] and both are strings. *)
Definition orElse (a : option string) (b : string) : string :=
  match a with
  | Some s => if truthy s then s else b
  | None => b
  end.

(** [a || b] where both may be [undefined]. *)
Definition orElseOpt (a b : option string) : option string :=
  match a with
  | Some s => if truthy s then Some s else b
  | None => b
  end.

(** [s.startsWith(p)]. *)
Definition startsWith (p s : string) : bool := String.prefix p s.

(** [s.includes(p)]. *)
Fixpoint includes (p s : string) : bool :=
  String.prefix p s
  || match s with
     | EmptyString => false
     | String _ s' => includes p s'
     end.

(** [s.split(c)] for a one-character separator: always at least one
    piece, empty pieces kept. *)
Fixpoint split (c : ascii) (s : string) : list string :=
  match s with
  | EmptyString => [EmptyString]
  | String a s' =>
      if Ascii.eqb a c then EmptyString :: split c s'
      else match split c s' with
           | [] => [String a EmptyString]
           | piece :: rest => String a piece :: rest
           end
  end.

(** White space and line terminators among the code units 0..255:
    TAB, LF, VT, FF, CR, SPACE and NBSP. *)
Definition isWhiteSpace (a : ascii) : bool :=
  let n := nat_of_ascii a in
  (Nat.eqb n 9 || Nat.eqb n 10 || Nat.eqb n 11 || Nat.eqb n 12
   || Nat.eqb n 13 || Nat.eqb n 32 || Nat.eqb n 160)%bool.

Fixpoint trimStart (s : string) : string :=
  match s with
  | EmptyString => EmptyString
  | String a s' => if isWhiteSpace a then trimStart s' else s
  end.

Fixpoint trimEnd (s : string) : string :=
  match s with
  | EmptyString => EmptyString
  | String a s' =>
      let r := trimEnd s' in
      if isWhiteSpace a && negb (nonEmpty r) then EmptyString
      else String a r
  end.

(** [s.trim()]. *)
Definition trim (s : string) : string := trimEnd (trimStart s).

(** [xs.join(sep)]. *)
Fixpoint join (sep : string) (xs : list string) : string :=
  match xs with
  | [] => EmptyString
  | [x] => x
  | x :: rest => x ++ sep ++ join sep rest
  end.

(** The character class [\d]. *)
Definition isDigit (a : ascii) : bool :=
  let n := nat_of_ascii a in (Nat.leb 48 n && Nat.leb n 57)%bool.

Fixpoint allDigits (s : string) : bool :=
  match s with
  | EmptyString => true
  | String a s' => isDigit a && allDigits s'
  end.

(** The schema pattern [^\d+$]. *)
Definition matchesDigits (s : string) : bool := nonEmpty s && allDigits s.

Fixpoint parseDigits (acc : Z) (s : string) : Z :=
  match s with
  | EmptyString => acc
  | String a s' =>
      if isDigit a
      then parseDigits (10 * acc + (Z.of_nat (nat_of_ascii a) - 48)) s'
      else acc
  end.

(** [parseInt(s, 10)] on a string; [None] is [NaN].  The handlers apply it
    to query parameters that already matched [^\d+$], so neither a sign
    nor leading blanks occur; digits are read up to the first non-digit.
    The result is exact; JavaScript rounds above 2^53, to a number that is
    still above every bound and unequal to every lifetime it is compared
    with. *)
Definition parseInt (s : string) : option Z :=
  match s with
  | EmptyString => None
  | String a _ => if isDigit a then Some (parseDigits 0 s) else None
  end.

(** ASCII lower-casing, the canonicalisation the [i] flag applies to the
    letters of an ASCII pattern. *)
Definition lowerAscii (a : ascii) : ascii :=
  let n := nat_of_ascii a in
  if (Nat.leb 65 n && Nat.leb n 90)%bool then ascii_of_nat (n + 32) else a.

(** [.] in a regular expression without the [s] flag: anything but a line
    terminator (LF, CR among the code units 0..255). *)
Definition isLineTerminator (a : ascii) : bool :=
  let n := nat_of_ascii a in (Nat.eqb n 10 || Nat.eqb n 13)%bool.

Fixpoint noLineTerminator (s : string) : bool :=
  match s with
  | EmptyString => true
  | String a s' => negb (isLineTerminator a) && noLineTerminator s'
  end.

(** [/^p.*$/i.test(s)] for a pattern [p] of lower-case literal
    characters: [s] starts with [p] up to case, and what follows holds no
    line terminator. *)
Fixpoint testPrefixCI (p s : string) : bool :=
  match p with
  | EmptyString => noLineTerminator s
  | String c p' =>
      match s with
      | EmptyString => false
      | String a s' => Ascii.eqb (lowerAscii a) c && testPrefixCI p' s'
      end
  end.

End JS.

(* ===================================================================== *)
(** * Values that cross the HTTP boundary                                  *)
(* ===================================================================== *)

(** A JSON value as a handler reads it from [request.body] when the route
    schema says nothing about the property. *)
Inductive jsval : Type :=
| JUndefined
| JNull
| JBool (b : bool)
| JNum (n : Z)
| JStr (s : string)
| JObject.

(** [v === false]. *)
Definition strictlyFalse (v : jsval) : bool :=
  match v with JBool false => true | _ => false end.

(** Destructuring default: [const { x = d } = obj] replaces only
    [undefined]. *)
Definition orDefault (d : jsval) (v : jsval) : jsval :=
  match v with JUndefined => d | _ => v end.

Definition withDefault {A} (d : A) (o : option A) : A :=
  match o with Some a => a | None => d end.

(** The schema keyword [type: 'boolean'] on a property of the body, as
    Fastify's validator applies it when the server leaves its options as
    they are (the file that creates the server is not among the embedded
    ones): a property the request leaves out passes (the inner [None]); a
    boolean stays; the texts "true" and "false", the numbers 1 and 0 and
    [null] are converted ([coerceTypes]); any other value fails validation
    (the outer [None]). *)
Definition coerceBoolean (v : jsval) : option (option bool) :=
  match v with
  | JUndefined => Some None
  | JNull => Some (Some false)
  | JBool b => Some (Some b)
  | JNum n =>
      if n =? 1 then Some (Some true)
      else if n =? 0 then Some (Some false) else None
  | JStr s =>
      if String.eqb s "true" then Some (Some true)
      else if String.eqb s "false" then Some (Some false) else None
  | JObject => None
  end.

(* ===================================================================== *)
(** * Data model (Prisma migration, table "Secret")                        *)
(* ===================================================================== *)

Record Secret : Type := mkSecret {
  id : string;
  data : string;
  title : option string;
  maxViews : Z;
  password : option string;
  allowed_ip : option string;
  preventBurn : bool;
  createdAt : Z;
  expiresAt : Z;
  user_id : option string;
  isPublic : bool;
  ipAddress : string
}.

(** An error object; only [message] is read by the code. *)
Record Err : Type := mkErr { message : string }.

(** The part of the process state the embedded code reads or writes: the
    "Secret" table, the row [secrets_created] of "Statistic" (absent until
    first upsert), and the lines written with [console.error] or
    [fastify.log.error]. *)
Record World : Type := mkWorld {
  secrets : list Secret;
  secrets_created : option Z;
  logged : list string
}.

Definition setSecrets (w : World) (l : list Secret) : World :=
  mkWorld l (secrets_created w) (logged w).

Definition setStatistic (w : World) (v : option Z) : World :=
  mkWorld (secrets w) v (logged w).

Definition addLog (w : World) (line : string) : World :=
  mkWorld (secrets w) (secrets_created w) (logged w ++ [line]).

(* ===================================================================== *)
(** * Computations that read and write the world and may throw             *)
(* ===================================================================== *)

Inductive outcome (A : Type) : Type :=
| Returned (a : A)
| Threw (e : Err).
Arguments Returned {A} a.
Arguments Threw {A} e.

Definition M (A : Type) : Type := World -> outcome A * World.

Definition ret {A} (a : A) : M A := fun w => (Returned a, w).

Definition throw {A} (e : Err) : M A := fun w => (Threw e, w).

Definition bind {A B} (m : M A) (k : A -> M B) : M B :=
  fun w =>
    match m w with
    | (Returned a, w') => k a w'
    | (Threw e, w') => (Threw e, w')
    end.

(** [try { m } catch (e) { h e }]. *)
Definition tryCatch {A} (m : M A) (h : Err -> M A) : M A :=
  fun w =>
    match m w with
    | (Returned a, w') => (Returned a, w')
    | (Threw e, w') => h e w'
    end.

Definition logError (line : string) : M unit :=
  fun w => (Returned tt, addLog w line).

Notation "x <- m ;; k" := (bind m (fun x => k))
  (at level 61, m at next level, right associativity).
Notation "m ;;; k" := (bind m (fun _ => k))
  (at level 61, right associativity).

(* ===================================================================== *)
(** * Store primitives (Prisma client)                                     *)
(* ===================================================================== *)

(** Range of a column of SQL type INTEGER. *)
Definition fitsInteger (z : Z) : bool :=
  (-2147483648 <=? z) && (z <=? 2147483647).

(** The [data] argument of [prisma.secret.create].  [in_preventBurn] is
    [None] when the property is not passed at all. *)
Record SecretInput : Type := mkSecretInput {
  in_title : option string;
  in_maxViews : Z;
  in_preventBurn : option jsval;
  in_data : string;
  in_user_id : option string;
  in_expiresAt : Z;
  in_ipAddress : string
}.

(** What the database side contributes to one [create]: the generated
    primary key, [CURRENT_TIMESTAMP], and the error the call raises when the
    store is unavailable. *)
Record CreateEnv : Type := mkCreateEnv {
  newId : string;
  dbNow : Z;
  createFault : option Err
}.

Definition hasId (i : string) (l : list Secret) : bool :=
  existsb (fun s => String.eqb (id s) i) l.

(** How Prisma reads the [preventBurn] it is given for a column of type
    BOOLEAN NOT NULL DEFAULT false: the default when nothing is passed, the
    boolean when one is passed, a validation error otherwise. *)
Definition preventBurnColumn (v : option jsval) : option bool :=
  match v with
  | None => Some false
  | Some (JBool b) => Some b
  | Some _ => None
  end.

(** The row [create] inserts: columns not passed take the defaults of the
    table. *)
Definition rowOf (ce : CreateEnv) (d : SecretInput) (pb : bool) : Secret :=
  mkSecret (newId ce) (in_data d) (in_title d) (in_maxViews d) None None pb
    (dbNow ce) (in_expiresAt d) (in_user_id d) false (in_ipAddress d).

(** [prisma.secret.create({ data })].  A value of the wrong type for
    [preventBurn], a [maxViews] outside INTEGER, and a primary key already
    present make the call throw and leave the table as it was. *)
Definition secretCreate (ce : CreateEnv) (d : SecretInput) : M Secret :=
  fun w =>
    match createFault ce with
    | Some e => (Threw e, w)
    | None =>
        match preventBurnColumn (in_preventBurn d) with
        | None => (Threw (mkErr "Invalid value provided. Expected Boolean."), w)
        | Some b =>
            if negb (fitsInteger (in_maxViews d))
            then (Threw (mkErr "Unable to fit integer value into an INT4"), w)
            else if hasId (newId ce) (secrets w)
            then (Threw (mkErr "Unique constraint failed on the fields: (`id`)"), w)
            else
              let s := rowOf ce d b in
              (Returned s, setSecrets w (secrets w ++ [s]))
        end
    end.

(** [prisma.statistic.upsert] on the row [secrets_created]: increment by one,
    or create the row with the column default 1. *)
Definition statisticUpsert (fault : option Err) : M unit :=
  fun w =>
    match fault with
    | Some e => (Threw e, w)
    | None =>
        let v := match secrets_created w with
                 | Some n => n + 1
                 | None => 1
                 end in
        (Returned tt, setStatistic w (Some v))
    end.

(** [prisma.secret.deleteMany({ where: { expiresAt: { lte: now } } })]:
    returns the number of rows deleted. *)
Definition expired (now : Z) (s : Secret) : bool := expiresAt s <=? now.

Definition secretDeleteManyExpired (fault : option Err) (now : Z) : M Z :=
  fun w =>
    match fault with
    | Some e => (Threw e, w)
    | None =>
        let gone := filter (expired now) (secrets w) in
        let kept := filter (fun s => negb (expired now s)) (secrets w) in
        (Returned (Z.of_nat (List.length gone)), setSecrets w kept)
    end.

(* ===================================================================== *)
(** * bootstrap.js: the expiry sweeper                                     *)
(* ===================================================================== *)

(** One run of the sweeper reads the clock once ([new Date()]) and makes
    one store call. *)
Record TickEnv : Type := mkTickEnv {
  tickNow : Z;
  tickFault : option Err
}.

(** [async function dbCleaner()]. *)
Definition dbCleaner (te : TickEnv) : M unit :=
  tryCatch
    (_ <- secretDeleteManyExpired (tickFault te) (tickNow te) ;; ret tt)
    (fun err =>
       logError (message err ++ " Nothing to delete from the database")).

(** Callbacks the process registers with [setInterval]. *)
Inductive Callback : Type := CallDbCleaner.

Record Timer : Type := mkTimer {
  callback : Callback;
  periodMs : Z
}.

(** [(async function main() { ... })()].  [createAdminSettings] and
    [createRootUser] work on the tables "Settings" and "User" only; what
    matters here is whether one of them throws. *)
Definition main (adminSettingsFault rootUserFault : option Err)
  : M (list Timer) :=
  tryCatch
    (_ <- (match adminSettingsFault with
           | Some e => throw e | None => ret tt end) ;;
     _ <- (match rootUserFault with
           | Some e => throw e | None => ret tt end) ;;
     ret [mkTimer CallDbCleaner (20 * 1000)])
    (fun error =>
       _ <- logError ("Failed to initialize application: " ++ message error) ;;
       ret []).

(** Running a registered callback. *)
Definition fire (t : Timer) (te : TickEnv) : M unit :=
  match callback t with
  | CallDbCleaner => dbCleaner te
  end.

(** The instant at which the [i]-th call (counting from 0) of a timer
    registered at [t0] falls due. *)
Definition dueAt (t : Timer) (t0 : Z) (i : nat) : Z :=
  t0 + (Z.of_nat i + 1) * periodMs t.

(** Successive runs of the sweeper, one per element of [envs]; a run that
    throws would end the sequence with that error. *)
Fixpoint runTicks (t : Timer) (envs : list TickEnv) : M unit :=
  match envs with
  | [] => ret tt
  | te :: rest => _ <- fire t te ;; runTicks t rest
  end.

(* ===================================================================== *)
(** * Collaborators and configuration                                      *)
(* ===================================================================== *)

(** Code the handlers import from modules outside the embedded files, and
    the one local function whose result depends on the time-zone database
    of the JavaScript engine.  The properties below hold for every
    implementation of them.
    - [encrypt text key] and [generateKey] come from
      [shared/helpers/crypto.js] (the key being fresh per request, it is
      part of [ReqEnv]);
    - [base64 k] is [Buffer.from(k).toString('base64')];
    - [formatDateToSydney d] renders an instant in the zone
      Australia/Sydney through [Intl.DateTimeFormat];
    - [getEmailDomain] is [shared/helpers/get-email-domain.js];
    - [VALID_TTL] is the array exported by [server/helpers/validate-ttl.js],
      lifetimes in seconds. *)
Class Collaborators : Type := mkCollaborators {
  encrypt : string -> string -> string;
  base64 : string -> string;
  formatDateToSydney : Z -> string;
  getEmailDomain : string -> string;
  VALID_TTL : list Z
}.

(** The options read with [config.get]. *)
Record Config : Type := mkConfig {
  host : string;
  maxViewsLimit : Z;
  enableBurnAfterTime : bool
}.

(** [const DEFAULT_EXPIRATION = 60 * 60 * 24 * 1000]. *)
Definition DEFAULT_EXPIRATION : Z := 60 * 60 * 24 * 1000.

(** The options object passed to [generate] of [generate-password]. *)
Record GenOptions : Type := mkGenOptions {
  g_length : Z;
  g_numbers : bool;
  g_symbols : bool;
  g_uppercase : bool;
  g_lowercase : bool;
  g_excludeSimilarCharacters : bool;
  g_strict : bool
}.

(** What one request draws from outside the handler: the clock, the random
    key and password generators, and the database side of the two store
    calls. *)
Record ReqEnv : Type := mkReqEnv {
  dateNow : Z;
  generateKey : string;
  generate : GenOptions -> string;
  createEnv : CreateEnv;
  upsertFault : option Err
}.

(** Parts of the Fastify request other than body and query. *)
Record Conn : Type := mkConn {
  userId : option string;
  secure : bool;
  hostname : option string;
  forwardedProto : option string;
  forwardedSsl : option string;
  hostHeader : option string
}.

(** [expiresAt] as it appears in a response: a [Date], which JSON renders
    in ISO form, or the text [formatDateToSydney] made of it. *)
Inductive RespDate : Type :=
| DateValue (ms : Z)
| DateText (s : string).

Record SuccessBody : Type := mkSuccessBody {
  url : string;
  secretId : string;
  shownPassword : option string;
  shownExpiresAt : RespDate
}.

(** [SchemaRejected] is the reply Fastify sends itself, with status 400,
    when the route schema does not validate. *)
Inductive Reply : Type :=
| SchemaRejected
| Reply400 (error : string)
| Reply500 (error : string) (msg : string)
| Reply200 (body : SuccessBody).

Definition status (r : Reply) : Z :=
  match r with
  | SchemaRejected => 400
  | Reply400 _ => 400
  | Reply500 _ _ => 500
  | Reply200 _ => 200
  end.

Definition optEq (a : option string) (b : string) : bool :=
  match a with Some s => String.eqb s b | None => false end.

(** "Build the shareable URL": the block every handler repeats. *)
Definition baseUrl (cfg : Config) (c : Conn) : string :=
  let hostConfig := host cfg in
  if negb (JS.truthy hostConfig)
     || String.eqb hostConfig "localhost"
     || String.eqb hostConfig "!changeme!"
     || JS.includes "changeme" hostConfig
  then
    let isSecure :=
      secure c || optEq (forwardedSsl c) "on"
      || optEq (forwardedProto c) "https" in
    let protocol :=
      JS.orElse (forwardedProto c) (if isSecure then "https" else "http") in
    let h := JS.orElse (JS.orElseOpt (hostHeader c) (hostname c))
               "localhost:3000" in
    protocol ++ "://" ++ h
  else if JS.startsWith "http" hostConfig then hostConfig
  else "https://" ++ hostConfig.

Definition includesZ (l : list Z) (x : Z) : bool := existsb (Z.eqb x) l.

Definition lengthLe (n : nat) (o : option string) : bool :=
  match o with
  | Some s => Nat.leb (String.length s) n
  | None => true
  end.

(** [title ? encrypt(title, encryptionKey) : undefined]. *)
Definition encryptTitle `{Collaborators} (t : option string) (key : string)
  : option string :=
  match t with
  | Some s => if JS.truthy s then Some (encrypt s key) else None
  | None => None
  end.

(** [Date.now() + (parseInt(ttl) ? parseInt(ttl) * 1000 : DEFAULT_EXPIRATION)]
    for an integer [ttl]. *)
Definition expiryOfBodyTtl (now ttl : Z) : Z :=
  now + (if ttl =? 0 then DEFAULT_EXPIRATION else ttl * 1000).

Definition shareableUrl `{Collaborators} (cfg : Config) (c : Conn)
  (s : Secret) (key : string) : string :=
  baseUrl cfg c ++ "/secret/" ++ id s ++ "#" ++ base64 key.

Definition noCharacterSet (numbers symbols uppercase lowercase : bool) : bool :=
  negb numbers && negb symbols && negb uppercase && negb lowercase.

Definition msgNoCharacterSet : string :=
  "At least one character set must be enabled (numbers, symbols, uppercase, or lowercase)".

Definition msgMaxViews (limit : Z) : string :=
  "maxViews must be a number between 1 and " ++ JS.numToString limit.

Definition msgBurnDisabled : string :=
  "Burn after time feature is disabled for this instance".

Definition msgPasswordRequired : string :=
  "Password is required and must be a non-empty string".

Definition msgTtl `{Collaborators} : string :=
  "TTL must be one of: " ++ JS.join ", " (map JS.numToString VALID_TTL).

Definition msgGenerateFailed : string :=
  "Failed to generate password and create secret".

Definition msgEncryptFailed : string :=
  "Failed to encrypt secret and create shareable link".

(** [isNaN(n) || n < lo || n > hi] for the result of [parseInt]: [None]
    when the test holds, the number otherwise. *)
Definition inRange (n : option Z) (lo hi : Z) : option Z :=
  match n with
  | None => None
  | Some z => if (z <? lo) || (z >? hi) then None else Some z
  end.

(** The [catch] block of every handler. *)
Definition replyFailure (what : string) (error : Err) : M Reply :=
  _ <- logError (message error) ;;
  ret (Reply500 what (message error)).

(* ===================================================================== *)
(** * controllers/password.js, first revision                              *)
(* ===================================================================== *)

(** Body of [POST /api/password/generate] after Fastify has checked the
    types the schema names; a property the request leaves out is [None].
    [b_preventBurn] is named by neither revision's schema and arrives as
    sent.  [b_showPassword] is named by the schema of the second revision
    only: it is kept as sent, the first revision never reads it and the
    schema of the second decides on it. *)
Record GenerateBody : Type := mkGenerateBody {
  b_length : option Z;
  b_numbers : option bool;
  b_symbols : option bool;
  b_uppercase : option bool;
  b_lowercase : option bool;
  b_excludeSimilarCharacters : option bool;
  b_strict : option bool;
  b_ttl : option Z;
  b_maxViews : option Z;
  b_preventBurn : jsval;
  b_title : option string;
  b_showPassword : jsval
}.

(** Query of [GET /api/password/generate]: every parameter is a string. *)
Record GenerateQuery : Type := mkGenerateQuery {
  q_length : option string;
  q_numbers : option string;
  q_symbols : option string;
  q_uppercase : option string;
  q_lowercase : option string;
  q_excludeSimilarCharacters : option string;
  q_strict : option string;
  q_ttl : option string;
  q_maxViews : option string;
  q_preventBurn : option string;
  q_showPassword : option string
}.

Section Handlers.
Context `{Collaborators}.


(** The numeric and length keywords of the body schema shared by both
    revisions, with the bound on [maxViews] as a parameter. *)
Definition generateBodySchema (maxViewsMaximum : Z) (b : GenerateBody)
  : bool :=
  let length := withDefault 16 (b_length b) in
  let ttl := withDefault 86400 (b_ttl b) in
  let maxViews := withDefault 1 (b_maxViews b) in
  (4 <=? length) && (length <=? 128)
  && (1 <=? ttl) && includesZ VALID_TTL ttl
  && (1 <=? maxViews) && (maxViews <=? maxViewsMaximum)
  && lengthLe 255 (b_title b).

(** First revision of [fastify.post('/generate', ...)]. *)
Definition passwordPostV1 (cfg : Config) (env : ReqEnv) (c : Conn)
  (b : GenerateBody) : M Reply :=
  if negb (generateBodySchema 999 b) then ret SchemaRejected else
  let length := withDefault 16 (b_length b) in
  let numbers := withDefault true (b_numbers b) in
  let symbols := withDefault true (b_symbols b) in
  let uppercase := withDefault true (b_uppercase b) in
  let lowercase := withDefault true (b_lowercase b) in
  let excludeSimilarCharacters :=
    withDefault false (b_excludeSimilarCharacters b) in
  let strict := withDefault false (b_strict b) in
  let ttl := withDefault 86400 (b_ttl b) in
  let maxViews := withDefault 1 (b_maxViews b) in
  let title := b_title b in
  if noCharacterSet numbers symbols uppercase lowercase
  then ret (Reply400 msgNoCharacterSet)
  else if (length <? 4) || (length >? 128)
  then ret (Reply400 "Password length must be between 4 and 128 characters")
  else
    tryCatch
      (let generatedPassword :=
         generate env (mkGenOptions length numbers symbols uppercase
                         lowercase excludeSimilarCharacters strict) in
       let encryptionKey := generateKey env in
       let encryptedPassword := encrypt generatedPassword encryptionKey in
       let encryptedTitle := encryptTitle title encryptionKey in
       secret <- secretCreate (createEnv env)
                   (mkSecretInput encryptedTitle maxViews None
                      encryptedPassword (userId c)
                      (expiryOfBodyTtl (dateNow env) ttl) "") ;;
       _ <- statisticUpsert (upsertFault env) ;;
       ret (Reply200
              (mkSuccessBody
                 (shareableUrl cfg c secret encryptionKey)
                 (id secret)
                 (Some generatedPassword)
                 (DateValue (expiresAt secret)))))
      (replyFailure msgGenerateFailed).

Definition isBoolText (o : option string) : bool :=
  match o with
  | Some s => String.eqb s "true" || String.eqb s "false"
  | None => true
  end.

Definition isDigitsText (o : option string) : bool :=
  match o with
  | Some s => JS.matchesDigits s
  | None => true
  end.

(** The query-string schema of the first revision. *)
Definition generateQuerySchemaV1 (q : GenerateQuery) : bool :=
  isDigitsText (q_length q)
  && isBoolText (q_numbers q) && isBoolText (q_symbols q)
  && isBoolText (q_uppercase q) && isBoolText (q_lowercase q)
  && isBoolText (q_excludeSimilarCharacters q) && isBoolText (q_strict q)
  && isDigitsText (q_ttl q) && isDigitsText (q_maxViews q).

Definition isTrue (d : string) (o : option string) : bool :=
  String.eqb (withDefault d o) "true".

(** First revision of [fastify.get('/generate', ...)]. *)
Definition passwordGetV1 (cfg : Config) (env : ReqEnv) (c : Conn)
  (q : GenerateQuery) : M Reply :=
  if negb (generateQuerySchemaV1 q) then ret SchemaRejected else
  match inRange (JS.parseInt (withDefault "16" (q_length q))) 4 128 with
  | None =>
      ret (Reply400 "Password length must be a number between 4 and 128")
  | Some lengthNum =>
  match JS.parseInt (withDefault "86400" (q_ttl q)) with
  | None => ret (Reply400 msgTtl)
  | Some ttlNum =>
  if negb (includesZ VALID_TTL ttlNum) then ret (Reply400 msgTtl) else
  match inRange (JS.parseInt (withDefault "1" (q_maxViews q))) 1 999 with
  | None => ret (Reply400 "maxViews must be a number between 1 and 999")
  | Some maxViewsNum =>
  let numbers := isTrue "true" (q_numbers q) in
  let symbols := isTrue "true" (q_symbols q) in
  let uppercase := isTrue "true" (q_uppercase q) in
  let lowercase := isTrue "true" (q_lowercase q) in
  let excludeSimilarCharacters :=
    isTrue "false" (q_excludeSimilarCharacters q) in
  let strict := isTrue "false" (q_strict q) in
  if noCharacterSet numbers symbols uppercase lowercase
  then ret (Reply400 msgNoCharacterSet)
  else
    tryCatch
      (let generatedPassword :=
         generate env (mkGenOptions lengthNum numbers symbols uppercase
                         lowercase excludeSimilarCharacters strict) in
       let encryptionKey := generateKey env in
       let encryptedPassword := encrypt generatedPassword encryptionKey in
       secret <- secretCreate (createEnv env)
                   (mkSecretInput None maxViewsNum None
                      encryptedPassword (userId c)
                      (dateNow env + ttlNum * 1000) "") ;;
       _ <- statisticUpsert (upsertFault env) ;;
       ret (Reply200
              (mkSuccessBody
                 (shareableUrl cfg c secret encryptionKey)
                 (id secret)
                 (Some generatedPassword)
                 (DateValue (expiresAt secret)))))
      (replyFailure msgGenerateFailed)
  end end end.

(* =================================================================== *)
(** ** controllers/password.js, second revision                          *)
(* =================================================================== *)

(** "If feature is disabled, force preventBurn to true":
    [enableBurnAfterTime ? preventBurn : true]. *)
Definition finalPreventBurn (cfg : Config) (preventBurn : jsval) : jsval :=
  if enableBurnAfterTime cfg then preventBurn else JBool true.

(** [showPassword: { type: 'boolean', default: false }], the keyword the
    body schema of the second revision adds. *)
Definition showPasswordSchema (b : GenerateBody) : bool :=
  match coerceBoolean (b_showPassword b) with
  | Some _ => true
  | None => false
  end.

(** [showPassword] as the handler of the second revision reads it from a
    body that passed the schema. *)
Definition showPasswordOf (b : GenerateBody) : bool :=
  match coerceBoolean (b_showPassword b) with
  | Some (Some s) => s
  | _ => false
  end.

(** Second revision of [fastify.post('/generate', ...)]. *)
Definition passwordPostV2 (cfg : Config) (env : ReqEnv) (c : Conn)
  (b : GenerateBody) : M Reply :=
  if negb (generateBodySchema (maxViewsLimit cfg) b
           && showPasswordSchema b)
  then ret SchemaRejected else
  let length := withDefault 16 (b_length b) in
  let numbers := withDefault true (b_numbers b) in
  let symbols := withDefault true (b_symbols b) in
  let uppercase := withDefault true (b_uppercase b) in
  let lowercase := withDefault true (b_lowercase b) in
  let excludeSimilarCharacters :=
    withDefault false (b_excludeSimilarCharacters b) in
  let strict := withDefault false (b_strict b) in
  let ttl := withDefault 86400 (b_ttl b) in
  let maxViews := withDefault 1 (b_maxViews b) in
  let preventBurn := orDefault (JBool false) (b_preventBurn b) in
  let title := b_title b in
  let showPassword := showPasswordOf b in
  if noCharacterSet numbers symbols uppercase lowercase
  then ret (Reply400 msgNoCharacterSet)
  else if (length <? 4) || (length >? 128)
  then ret (Reply400 "Password length must be between 4 and 128 characters")
  else
  match inRange (Some maxViews) 1 (maxViewsLimit cfg) with
  | None => ret (Reply400 (msgMaxViews (maxViewsLimit cfg)))
  | Some maxViewsNum =>
  if negb (enableBurnAfterTime cfg) && strictlyFalse preventBurn
  then ret (Reply400 msgBurnDisabled)
  else
    tryCatch
      (let generatedPassword :=
         generate env (mkGenOptions length numbers symbols uppercase
                         lowercase excludeSimilarCharacters strict) in
       let encryptionKey := generateKey env in
       let encryptedPassword := encrypt generatedPassword encryptionKey in
       let encryptedTitle := encryptTitle title encryptionKey in
       secret <- secretCreate (createEnv env)
                   (mkSecretInput encryptedTitle maxViewsNum
                      (Some (finalPreventBurn cfg preventBurn))
                      encryptedPassword (userId c)
                      (expiryOfBodyTtl (dateNow env) ttl) "") ;;
       _ <- statisticUpsert (upsertFault env) ;;
       ret (Reply200
              (mkSuccessBody
                 (shareableUrl cfg c secret encryptionKey)
                 (id secret)
                 (if showPassword then Some generatedPassword else None)
                 (DateText (formatDateToSydney (expiresAt secret))))))
      (replyFailure msgGenerateFailed)
  end.

(** The query-string schema of the second revision. *)
Definition generateQuerySchemaV2 (q : GenerateQuery) : bool :=
  generateQuerySchemaV1 q
  && isBoolText (q_preventBurn q) && isBoolText (q_showPassword q).

(** Second revision of [fastify.get('/generate', ...)]. *)
Definition passwordGetV2 (cfg : Config) (env : ReqEnv) (c : Conn)
  (q : GenerateQuery) : M Reply :=
  if negb (generateQuerySchemaV2 q) then ret SchemaRejected else
  match inRange (JS.parseInt (withDefault "16" (q_length q))) 4 128 with
  | None =>
      ret (Reply400 "Password length must be a number between 4 and 128")
  | Some lengthNum =>
  match JS.parseInt (withDefault "86400" (q_ttl q)) with
  | None => ret (Reply400 msgTtl)
  | Some ttlNum =>
  if negb (includesZ VALID_TTL ttlNum) then ret (Reply400 msgTtl) else
  match inRange (JS.parseInt (withDefault "1" (q_maxViews q)))
          1 (maxViewsLimit cfg) with
  | None => ret (Reply400 (msgMaxViews (maxViewsLimit cfg)))
  | Some maxViewsNum =>
  let preventBurnBool := isTrue "false" (q_preventBurn q) in
  if negb (enableBurnAfterTime cfg) && negb preventBurnBool
  then ret (Reply400 msgBurnDisabled)
  else
  let numbers := isTrue "true" (q_numbers q) in
  let symbols := isTrue "true" (q_symbols q) in
  let uppercase := isTrue "true" (q_uppercase q) in
  let lowercase := isTrue "true" (q_lowercase q) in
  let excludeSimilarCharacters :=
    isTrue "false" (q_excludeSimilarCharacters q) in
  let strict := isTrue "false" (q_strict q) in
  if noCharacterSet numbers symbols uppercase lowercase
  then ret (Reply400 msgNoCharacterSet)
  else
    tryCatch
      (let generatedPassword :=
         generate env (mkGenOptions lengthNum numbers symbols uppercase
                         lowercase excludeSimilarCharacters strict) in
       let encryptionKey := generateKey env in
       let encryptedPassword := encrypt generatedPassword encryptionKey in
       secret <- secretCreate (createEnv env)
                   (mkSecretInput None maxViewsNum
                      (Some (finalPreventBurn cfg (JBool preventBurnBool)))
                      encryptedPassword (userId c)
                      (dateNow env + ttlNum * 1000) "") ;;
       _ <- statisticUpsert (upsertFault env) ;;
       ret (Reply200
              (mkSuccessBody
                 (shareableUrl cfg c secret encryptionKey)
                 (id secret)
                 (if isTrue "false" (q_showPassword q)
                  then Some generatedPassword else None)
                 (DateText (formatDateToSydney (expiresAt secret))))))
      (replyFailure msgGenerateFailed)
  end end end.

(* =================================================================== *)
(** ** controllers/encrypt.js                                            *)
(* =================================================================== *)

(** Body of [POST /api/encrypt] after the type checks of the schema. *)
Record EncryptBody : Type := mkEncryptBody {
  e_password : option string;
  e_ttl : option Z;
  e_maxViews : option Z;
  e_preventBurn : option bool;
  e_title : option string
}.

(** Query of [GET /api/encrypt]. *)
Record EncryptQuery : Type := mkEncryptQuery {
  eq_password : option string;
  eq_ttl : option string;
  eq_maxViews : option string;
  eq_preventBurn : option string;
  eq_title : option string
}.

Definition encryptBodySchema (cfg : Config) (b : EncryptBody) : bool :=
  let ttl := withDefault 86400 (e_ttl b) in
  let maxViews := withDefault 1 (e_maxViews b) in
  match e_password b with
  | None => false
  | Some p =>
      Nat.leb 1 (String.length p)
      && (1 <=? ttl) && includesZ VALID_TTL ttl
      && (1 <=? maxViews) && (maxViews <=? maxViewsLimit cfg)
      && lengthLe 255 (e_title b)
  end.

(** [!password || typeof password !== 'string'
     || password.trim().length === 0] for a string. *)
Definition blankPassword (p : string) : bool :=
  negb (JS.truthy p) || negb (JS.nonEmpty (JS.trim p)).

(** [fastify.post('/', ...)] of [encryptSecret]. *)
Definition encryptPost (cfg : Config) (env : ReqEnv) (c : Conn)
  (b : EncryptBody) : M Reply :=
  if negb (encryptBodySchema cfg b) then ret SchemaRejected else
  let password := withDefault "" (e_password b) in
  let ttl := withDefault 86400 (e_ttl b) in
  let maxViews := withDefault 1 (e_maxViews b) in
  let preventBurn := withDefault false (e_preventBurn b) in
  let title := e_title b in
  if blankPassword password then ret (Reply400 msgPasswordRequired) else
  match inRange (Some maxViews) 1 (maxViewsLimit cfg) with
  | None => ret (Reply400 (msgMaxViews (maxViewsLimit cfg)))
  | Some maxViewsNum =>
  if negb (enableBurnAfterTime cfg) && strictlyFalse (JBool preventBurn)
  then ret (Reply400 msgBurnDisabled)
  else
    tryCatch
      (let encryptionKey := generateKey env in
       let encryptedPassword := encrypt password encryptionKey in
       let encryptedTitle := encryptTitle title encryptionKey in
       secret <- secretCreate (createEnv env)
                   (mkSecretInput encryptedTitle maxViewsNum
                      (Some (finalPreventBurn cfg (JBool preventBurn)))
                      encryptedPassword (userId c)
                      (expiryOfBodyTtl (dateNow env) ttl) "") ;;
       _ <- statisticUpsert (upsertFault env) ;;
       ret (Reply200
              (mkSuccessBody
                 (shareableUrl cfg c secret encryptionKey)
                 (id secret)
                 None
                 (DateText (formatDateToSydney (expiresAt secret))))))
      (replyFailure msgEncryptFailed)
  end.

Definition encryptQuerySchema (q : EncryptQuery) : bool :=
  match eq_password q with
  | None => false
  | Some _ =>
      isDigitsText (eq_ttl q) && isDigitsText (eq_maxViews q)
      && isBoolText (eq_preventBurn q)
  end.

(** [fastify.get('/', ...)] of [encryptSecret]. *)
Definition encryptGet (cfg : Config) (env : ReqEnv) (c : Conn)
  (q : EncryptQuery) : M Reply :=
  if negb (encryptQuerySchema q) then ret SchemaRejected else
  let password := withDefault "" (eq_password q) in
  let title := eq_title q in
  if blankPassword password then ret (Reply400 msgPasswordRequired) else
  match JS.parseInt (withDefault "86400" (eq_ttl q)) with
  | None => ret (Reply400 msgTtl)
  | Some ttlNum =>
  if negb (includesZ VALID_TTL ttlNum) then ret (Reply400 msgTtl) else
  match inRange (JS.parseInt (withDefault "1" (eq_maxViews q)))
          1 (maxViewsLimit cfg) with
  | None => ret (Reply400 (msgMaxViews (maxViewsLimit cfg)))
  | Some maxViewsNum =>
  let preventBurnBool := isTrue "false" (eq_preventBurn q) in
  if negb (enableBurnAfterTime cfg) && negb preventBurnBool
  then ret (Reply400 msgBurnDisabled)
  else
    tryCatch
      (let encryptionKey := generateKey env in
       let encryptedPassword := encrypt password encryptionKey in
       let encryptedTitle := encryptTitle title encryptionKey in
       secret <- secretCreate (createEnv env)
                   (mkSecretInput encryptedTitle maxViewsNum
                      (Some (finalPreventBurn cfg (JBool preventBurnBool)))
                      encryptedPassword (userId c)
                      (dateNow env + ttlNum * 1000) "") ;;
       _ <- statisticUpsert (upsertFault env) ;;
       ret (Reply200
              (mkSuccessBody
                 (shareableUrl cfg c secret encryptionKey)
                 (id secret)
                 None
                 (DateText (formatDateToSydney (expiresAt secret))))))
      (replyFailure msgEncryptFailed)
  end end.

(* =================================================================== *)
(** ** decorators: restrictOrganizationEmailHandler                      *)
(* =================================================================== *)

(** [const authenticationRegex = /^\/api\/authentication\/signup.*$/i]. *)
Definition authenticationRegexTest (u : string) : bool :=
  JS.testPrefixCI "/api/authentication/signup" u.

(** The text ends with an emoji, here in its UTF-8 bytes. *)
Definition errorMessage : string :=
  "Access denied. You are not allowed create a user. 🥲".

(** What a [preHandler] hook does with a request: fall through to the
    route, or answer itself. *)
Inductive HookResult : Type :=
| Continue
| Replied (code : Z) (msg : string).

(** The entries of the setting: split at commas, trimmed, empty ones
    dropped. *)
Definition allowedDomains (restrict : string) : list string :=
  filter JS.nonEmpty (map JS.trim (JS.split "," restrict)).

(** [restrictOrganizationEmailHandler(request, reply)].  [restrict] is
    [adminSettings.get('restrict_organization_email')], [None] while the
    key is unset; [email] is [request?.body?.email], [None] when the
    request has no such property. *)
Definition restrictOrganizationEmailHandler (restrict : option string)
  (u : string) (bodyEmail : option string) : HookResult :=
  let email := withDefault "" bodyEmail in
  if negb (JS.truthy (withDefault "" restrict))
     || negb (authenticationRegexTest u)
  then Continue
  else
    let userDomain := getEmailDomain email in
    let isAllowed :=
      existsb (fun domain => String.eqb (getEmailDomain domain) userDomain)
        (allowedDomains (withDefault "" restrict)) in
    if negb isAllowed then Replied 403 errorMessage else Continue.

(* =================================================================== *)
(** ** The operations of the process on the table "Secret"               *)
(* =================================================================== *)

(** A request on one of the six routes that create a secret. *)
Inductive CreateReq : Type :=
| ToEncryptPost (c : Conn) (b : EncryptBody)
| ToEncryptGet (c : Conn) (q : EncryptQuery)
| ToPasswordPostV1 (c : Conn) (b : GenerateBody)
| ToPasswordGetV1 (c : Conn) (q : GenerateQuery)
| ToPasswordPostV2 (c : Conn) (b : GenerateBody)
| ToPasswordGetV2 (c : Conn) (q : GenerateQuery).

Definition handle (cfg : Config) (env : ReqEnv) (r : CreateReq) : M Reply :=
  match r with
  | ToEncryptPost c b => encryptPost cfg env c b
  | ToEncryptGet c q => encryptGet cfg env c q
  | ToPasswordPostV1 c b => passwordPostV1 cfg env c b
  | ToPasswordGetV1 c q => passwordGetV1 cfg env c q
  | ToPasswordPostV2 c b => passwordPostV2 cfg env c b
  | ToPasswordGetV2 c q => passwordGetV2 cfg env c q
  end.

Definition connOf (r : CreateReq) : Conn :=
  match r with
  | ToEncryptPost c _ | ToEncryptGet c _
  | ToPasswordPostV1 c _ | ToPasswordGetV1 c _
  | ToPasswordPostV2 c _ | ToPasswordGetV2 c _ => c
  end.

(** The lifetime a request asks for, in seconds: the [ttl] property or
    parameter, 86400 when left out; [None] when a query parameter is not a
    number. *)
Definition requestedTtl (r : CreateReq) : option Z :=
  match r with
  | ToEncryptPost _ b => Some (withDefault 86400 (e_ttl b))
  | ToEncryptGet _ q => JS.parseInt (withDefault "86400" (eq_ttl q))
  | ToPasswordPostV1 _ b | ToPasswordPostV2 _ b =>
      Some (withDefault 86400 (b_ttl b))
  | ToPasswordGetV1 _ q | ToPasswordGetV2 _ q =>
      JS.parseInt (withDefault "86400" (q_ttl q))
  end.

(** The view budget a request asks for, 1 when left out. *)
Definition requestedMaxViews (r : CreateReq) : option Z :=
  match r with
  | ToEncryptPost _ b => Some (withDefault 1 (e_maxViews b))
  | ToEncryptGet _ q => JS.parseInt (withDefault "1" (eq_maxViews q))
  | ToPasswordPostV1 _ b | ToPasswordPostV2 _ b =>
      Some (withDefault 1 (b_maxViews b))
  | ToPasswordGetV1 _ q | ToPasswordGetV2 _ q =>
      JS.parseInt (withDefault "1" (q_maxViews q))
  end.

(** The routes that read [secret.enableBurnAfterTime]. *)
Definition consultsBurnPolicy (r : CreateReq) : bool :=
  match r with
  | ToPasswordPostV1 _ _ | ToPasswordGetV1 _ _ => false
  | _ => true
  end.

(** The request asks for [preventBurn] false, by saying so or by leaving
    the property out. *)
Definition asksToBurn (r : CreateReq) : bool :=
  match r with
  | ToEncryptPost _ b => negb (withDefault false (e_preventBurn b))
  | ToEncryptGet _ q => negb (isTrue "false" (eq_preventBurn q))
  | ToPasswordPostV1 _ b | ToPasswordPostV2 _ b =>
      strictlyFalse (orDefault (JBool false) (b_preventBurn b))
  | ToPasswordGetV1 _ q | ToPasswordGetV2 _ q =>
      negb (isTrue "false" (q_preventBurn q))
  end.

(** The options with which a password route calls [generate]. *)
Definition genOptionsOfBody (b : GenerateBody) : GenOptions :=
  mkGenOptions (withDefault 16 (b_length b))
    (withDefault true (b_numbers b)) (withDefault true (b_symbols b))
    (withDefault true (b_uppercase b)) (withDefault true (b_lowercase b))
    (withDefault false (b_excludeSimilarCharacters b))
    (withDefault false (b_strict b)).

Definition genOptionsOfQuery (q : GenerateQuery) : GenOptions :=
  mkGenOptions
    (withDefault 0 (JS.parseInt (withDefault "16" (q_length q))))
    (isTrue "true" (q_numbers q)) (isTrue "true" (q_symbols q))
    (isTrue "true" (q_uppercase q)) (isTrue "true" (q_lowercase q))
    (isTrue "false" (q_excludeSimilarCharacters q))
    (isTrue "false" (q_strict q)).

(** The text a route encrypts: the [password] it received, or the password
    it generated. *)
Definition plaintextOf (env : ReqEnv) (r : CreateReq) : string :=
  match r with
  | ToEncryptPost _ b => withDefault "" (e_password b)
  | ToEncryptGet _ q => withDefault "" (eq_password q)
  | ToPasswordPostV1 _ b | ToPasswordPostV2 _ b =>
      generate env (genOptionsOfBody b)
  | ToPasswordGetV1 _ q | ToPasswordGetV2 _ q =>
      generate env (genOptionsOfQuery q)
  end.

(** The title a route encrypts, if any. *)
Definition titleOf (r : CreateReq) : option string :=
  match r with
  | ToEncryptPost _ b => e_title b
  | ToEncryptGet _ q => eq_title q
  | ToPasswordPostV1 _ b | ToPasswordPostV2 _ b => b_title b
  | ToPasswordGetV1 _ _ | ToPasswordGetV2 _ _ => None
  end.

(** Whether the success response of a route carries the plaintext. *)
Definition showsPlaintext (r : CreateReq) : bool :=
  match r with
  | ToEncryptPost _ _ | ToEncryptGet _ _ => false
  | ToPasswordPostV1 _ _ | ToPasswordGetV1 _ _ => true
  | ToPasswordPostV2 _ b => showPasswordOf b
  | ToPasswordGetV2 _ q => isTrue "false" (q_showPassword q)
  end.

(** Everything in the embedded files that writes the table "Secret". *)
Inductive Op : Type :=
| Create (env : ReqEnv) (r : CreateReq)
| Sweep (te : TickEnv).

Definition exec (cfg : Config) (o : Op) (w : World) : World :=
  match o with
  | Create env r => snd (handle cfg env r w)
  | Sweep te => snd (dbCleaner te w)
  end.

(** The worlds a sequence of operations goes through, the first one
    included. *)
Fixpoint states (cfg : Config) (ops : list Op) (w : World) : list World :=
  w :: match ops with
       | [] => []
       | o :: rest => states cfg rest (exec cfg o w)
       end.

(** A row with key [i] exists in each of the worlds. *)
Definition alive (i : string) (ws : list World) : bool :=
  forallb (fun w => hasId i (secrets w)) ws.

End Handlers.

(* ===================================================================== *)
(** * ViewConsumer                                                         *)
(* ===================================================================== *)

Module ViewConsumer.

(** Modelled from the spec: the code that serves a view ([viewSecret],
    [consume]) is not among the embedded files, and the table "Secret" of
    the migration has no column [remainingViews].  The row below is the
    Secret of section 3 of the specification, reduced to the fields
    [consume] reads or writes. *)
Record Row : Type := mkRow {
  rowId : string;
  ciphertext : string;
  maxViews : nat;
  remainingViews : nat;
  preventBurn : bool;
  expiresAt : Z
}.

Definition Store : Type := list Row.

Definition hasKey (i : string) (r : Row) : bool := String.eqb (rowId r) i.

(** Modelled from the spec: [getSecret(id) -> record | NotFound]. *)
Definition getSecret (i : string) (st : Store) : option Row :=
  find (hasKey i) st.

Fixpoint replaceRow (i : string) (r' : Row) (st : Store) : Store :=
  match st with
  | [] => []
  | r :: rest =>
      if hasKey i r then r' :: rest else r :: replaceRow i r' rest
  end.

Inductive Consumed : Type :=
| Record_ (r : Row)
| Exhausted
| NotFound.

Definition decremented (r : Row) : Row :=
  mkRow (rowId r) (ciphertext r) (maxViews r) (Nat.pred (remainingViews r))
    (preventBurn r) (expiresAt r).

(** Modelled from the spec: [atomicConsumeView(id) -> record | Exhausted |
    NotFound], "decrement remainingViews by 1 and return the payload only if
    remainingViews > 0, in the same atomic step as the check".  One call is
    one transition of the store. *)
Definition atomicConsumeView (i : string) (st : Store) : Consumed * Store :=
  match getSecret i st with
  | None => (NotFound, st)
  | Some r =>
      if Nat.ltb 0 (remainingViews r)
      then (Record_ (decremented r), replaceRow i (decremented r) st)
      else (Exhausted, st)
  end.

(** Modelled from the spec: [deleteIfExists(id) -> bool], "a missing row is
    not an error". *)
Definition deleteIfExists (i : string) (st : Store) : bool * Store :=
  (existsb (hasKey i) st, filter (fun r => negb (hasKey i r)) st).

Definition isExpired (now : Z) (r : Row) : bool := expiresAt r <=? now.

(** Modelled from the spec: [deleteExpiredBatch(now) -> count]. *)
Definition deleteExpiredBatch (now : Z) (st : Store) : nat * Store :=
  (List.length (filter (isExpired now) st),
   filter (fun r => negb (isExpired now r)) st).

Inductive DenyReason : Type :=
| DenyNotFound
| DenyExhausted.

Inductive Outcome : Type :=
| Payload (c : string)
| Deny (why : DenyReason).

(** Modelled from the spec: [consume(id) -> SecretPayload | Deny(reason)]
    as section 4.2 designs it, the atomic conditional update followed, when
    it brought [remainingViews] to 0 and [preventBurn] is not set, by "an
    immediately following conditional delete".  A caller is at one of three
    points: before the update, between the update and the delete (holding
    the payload), or returned. *)
Inductive Caller : Type :=
| Ready
| Burning (c : string)
| Finished (o : Outcome).

(** One store call of a caller: the new point of the caller, the new store,
    and whether the call physically deleted the row. *)
Definition stepCaller (i : string) (c : Caller) (st : Store)
  : Caller * Store * nat :=
  match c with
  | Ready =>
      match atomicConsumeView i st with
      | (NotFound, st') => (Finished (Deny DenyNotFound), st', 0%nat)
      | (Exhausted, st') => (Finished (Deny DenyExhausted), st', 0%nat)
      | (Record_ r, st') =>
          if Nat.eqb (remainingViews r) 0 && negb (preventBurn r)
          then (Burning (ciphertext r), st', 0%nat)
          else (Finished (Payload (ciphertext r)), st', 0%nat)
      end
  | Burning p =>
      let (existed, st') := deleteIfExists i st in
      (Finished (Payload p), st', if existed then 1%nat else 0%nat)
  | Finished o => (c, st, 0%nat)
  end.

(** [k] callers of [consume] on the key [i], the store they share, and two
    counters of physical deletions of a row with key [i]: by a caller
    ([burned]) and by the expiry sweeper ([swept]). *)
Record System : Type := mkSystem {
  store : Store;
  callers : list Caller;
  burned : nat;
  swept : nat
}.

Fixpoint setNth {A} (n : nat) (x : A) (l : list A) : list A :=
  match l, n with
  | [], _ => []
  | _ :: rest, O => x :: rest
  | y :: rest, S m => y :: setNth m x rest
  end.

(** What the scheduler may do next: let caller [t] make its next store
    call, or let the expiry sweeper run with clock [now]. *)
Inductive Action : Type :=
| Run (t : nat)
| Tick (now : Z).

Definition act (i : string) (a : Action) (s : System) : System :=
  match a with
  | Run t =>
      match nth_error (callers s) t with
      | None => s
      | Some c =>
          let '(c', st', d) := stepCaller i c (store s) in
          mkSystem st' (setNth t c' (callers s)) (burned s + d) (swept s)
      end
  | Tick now =>
      let (_, st') := deleteExpiredBatch now (store s) in
      mkSystem st' (callers s) (burned s)
        (swept s
         + List.length
             (filter (fun r => hasKey i r && isExpired now r) (store s)))
  end.

(** An interleaving is a list of actions. *)
Fixpoint run (i : string) (sched : list Action) (s : System) : System :=
  match sched with
  | [] => s
  | a :: rest => run i rest (act i a s)
  end.

Definition start (st : Store) (k : nat) : System :=
  mkSystem st (repeat Ready k) 0 0.

Definition gotPayload (c : Caller) : bool :=
  match c with
  | Burning _ | Finished (Payload _) => true
  | _ => false
  end.

Definition isBurning (c : Caller) : bool :=
  match c with Burning _ => true | _ => false end.

Definition isDenied (c : Caller) : bool :=
  match c with Finished (Deny _) => true | _ => false end.

Definition isFinished (c : Caller) : bool :=
  match c with Finished _ => true | _ => false end.

Definition returnedPayload (c : Caller) : bool :=
  match c with Finished (Payload _) => true | _ => false end.

Definition count (p : Caller -> bool) (l : list Caller) : nat :=
  List.length (filter p l).

(** Calls that were handed the payload. *)
Definition successes (s : System) : nat := count gotPayload (callers s).

(** Physical deletions of the row so far. *)
Definition deletions (s : System) : nat := (burned s + swept s)%nat.

Definition allFinished (s : System) : bool := forallb isFinished (callers s).

(** No run of the sweeper in the interleaving finds the row expired. *)
Definition beforeExpiry (expiry : Z) (a : Action) : bool :=
  match a with
  | Run _ => true
  | Tick now => now <? expiry
  end.

(** Primary key of the store. *)
Definition oneRowPerKey (st : Store) : Prop := NoDup (map rowId st).

(** The rows stored under the key [i]. *)
Definition rowsOf (i : string) (st : Store) : list Row := filter (hasKey i) st.

Definition b2n (b : bool) : nat := if b then 1%nat else 0%nat.

(** What holds of every system reachable from a row with [n] remaining
    views, [preventBurn] equal to [pb] and [expiresAt] equal to [expiry]:
    while the row exists nobody has deleted it, views handed out and views
    remaining add up to [n], a caller is about to delete it exactly when the
    budget is spent and burning is allowed, and nobody was denied while
    views remained; once it is gone it was deleted once, and unless the
    sweeper did it the whole budget was handed out. *)
Definition Inv (i : string) (n : nat) (pb : bool) (expiry : Z) (s : System)
  : Prop :=
  match rowsOf i (store s) with
  | [r] =>
      preventBurn r = pb /\ expiresAt r = expiry
      /\ burned s = 0%nat /\ swept s = 0%nat
      /\ (successes s + remainingViews r = n)%nat
      /\ count isBurning (callers s)
         = b2n (Nat.eqb (remainingViews r) 0 && negb pb)
      /\ ((0 < remainingViews r)%nat -> count isDenied (callers s) = 0%nat)
  | [] =>
      (burned s + swept s = 1)%nat
      /\ (successes s <= n)%nat
      /\ (count isBurning (callers s) <= 1)%nat
      /\ (swept s = 0%nat ->
          successes s = n /\ pb = false
          /\ count isBurning (callers s) = 0%nat)
  | _ => False
  end.

(** How far a caller has got: 0 before the update, 1 before the delete,
    2 once returned. *)
Definition rank (c : Caller) : nat :=
  match c with
  | Ready => 0%nat
  | Burning _ => 1%nat
  | Finished _ => 2%nat
  end.

(** How many times an interleaving lets caller [t] run. *)
Fixpoint turns (t : nat) (sched : list Action) : nat :=
  match sched with
  | [] => 0%nat
  | Run t' :: rest => (b2n (Nat.eqb t' t) + turns t rest)%nat
  | Tick _ :: rest => turns t rest
  end.

(** Every caller in turn, twice over. *)
Definition twoRounds (k : nat) : list Action :=
  (map Run (seq 0 k) ++ map Run (seq 0 k))%list.

End ViewConsumer.

(* ===================================================================== *)
(** * Concrete collaborators and requests                                  *)
(* ===================================================================== *)

(** A stand-in for the imported modules, so that the handlers can be run on
    concrete requests.  [sampleDomain] keeps what follows the first at-sign,
    or the whole text when there is none. *)
Fixpoint sampleDomain (s : string) : string :=
  match s with
  | EmptyString => EmptyString
  | String a rest =>
      if Ascii.eqb a "@" then rest
      else if JS.includes "@" rest then sampleDomain rest
           else String a rest
  end.

Definition sampleCollaborators : Collaborators :=
  mkCollaborators
    (fun text key => "enc[" ++ key ++ "](" ++ text ++ ")")
    (fun k => "b64(" ++ k ++ ")")
    (fun ms => "Sydney " ++ JS.numToString ms)
    sampleDomain
    [300; 3600; 86400; 604800; 1209600; 2419200].

Definition sampleConn : Conn :=
  mkConn None false None None None (Some "hemmelig.example").

Definition sampleEnv : ReqEnv :=
  mkReqEnv 1700000000000 "k3y" (fun _ => "Tr0ub4dor&3")
    (mkCreateEnv "s1" 1700000000001 None) None.

Definition emptyWorld : World := mkWorld [] None [].

(** The body [{}]. *)
Definition emptyGenerateBody : GenerateBody :=
  mkGenerateBody None None None None None None None None None JUndefined
    None JUndefined.

(** The query without parameters. *)
Definition emptyGenerateQuery : GenerateQuery :=
  mkGenerateQuery None None None None None None None None None None None.

(** The instance defaults of the README: [SECRET_HOST] empty,
    [SECRET_MAX_VIEWS_LIMIT] 100, [SECRET_ENABLE_BURN_AFTER_TIME] true. *)
Definition defaultConfig : Config := mkConfig "" 100 true.

(** The same instance with "burn after time" switched off. *)
Definition noBurnConfig : Config := mkConfig "" 100 false.

(** [{ "password": "hunter2" }] and [{ "password": "hunter2",
    "preventBurn": true }]. *)
Definition hunterBody : EncryptBody :=
  mkEncryptBody (Some "hunter2") None None None None.

Definition hunterKeepBody : EncryptBody :=
  mkEncryptBody (Some "hunter2") None None (Some true) None.

(** [?password=hunter2&ttl=3600]. *)
Definition hunterQuery : EncryptQuery :=
  mkEncryptQuery (Some "hunter2") (Some "3600") None None None.

(** [{ "maxViews": 500 }]. *)
Definition views500Body : GenerateBody :=
  mkGenerateBody None None None None None None None None (Some 500)
    JUndefined None JUndefined.

(** [{ "showPassword": "yes" }]. *)
Definition showYesBody : GenerateBody :=
  mkGenerateBody None None None None None None None None None JUndefined
    None (JStr "yes").

(** A secret with three views, burnt when they are spent, expiring at
    instant 5000. *)
Definition sampleRow : ViewConsumer.Row :=
  ViewConsumer.mkRow "s1" "ciphertext" 3 3 false 5000.

Definition sampleSecret (i : string) (views : Z) (keep : bool) (expiry : Z)
  : Secret :=
  mkSecret i "ciphertext" None views None None keep 0 expiry None false "".

(* ===================================================================== *)
(** * Notions used in the statements                                       *)
(* ===================================================================== *)

(** The records a run of the sweeper at clock [now] leaves in place. *)
Definition kept (now : Z) (l : list Secret) : list Secret :=
  filter (fun s => negb (expired now s)) l.

(** The statistic after one more upsert. *)
Definition bumped (v : option Z) : option Z :=
  Some (match v with Some n => n + 1 | None => 1 end).

(** The world after a row was inserted. *)
Definition inserted (w : World) (s : Secret) : World :=
  setSecrets w (secrets w ++ [s]).

(** ASCII lower-casing of a whole string. *)
Fixpoint lowerString (s : string) : string :=
  match s with
  | EmptyString => EmptyString
  | String a rest => String (JS.lowerAscii a) (lowerString rest)
  end.

(** Two worlds hold the same tables; their logs may differ. *)
Definition sameTables (w1 w2 : World) : Prop :=
  secrets w1 = secrets w2 /\ secrets_created w1 = secrets_created w2.

(** A computation whose result and effect on the tables do not depend on
    the log. *)
Definition respects {A} (m : M A) : Prop :=
  forall w1 w2,
    sameTables w1 w2 ->
    fst (m w1) = fst (m w2) /\ sameTables (snd (m w1)) (snd (m w2)).

(** The timer [main] registers. *)
Definition sweeperTimer : Timer := mkTimer CallDbCleaner (20 * 1000).

Section Notions.
Context `{Collaborators}.

(** The bound a route puts on [maxViews]. *)
Definition viewsBound (cfg : Config) (r : CreateReq) : Z :=
  match r with
  | ToPasswordPostV1 _ _ | ToPasswordGetV1 _ _ => 999
  | _ => maxViewsLimit cfg
  end.

(** The [preventBurn] a route stores. *)
Definition storedPreventBurn (cfg : Config) (r : CreateReq) : bool :=
  if consultsBurnPolicy r
  then (if enableBurnAfterTime cfg then negb (asksToBurn r) else true)
  else false.

(** The checks on lifetime, view budget and burn policy that a request has
    passed when its route reaches the store. *)
Definition accepts (cfg : Config) (r : CreateReq) (ttl mv : Z) : Prop :=
  requestedTtl r = Some ttl
  /\ In ttl VALID_TTL
  /\ requestedMaxViews r = Some mv
  /\ 1 <= mv <= viewsBound cfg r
  /\ (consultsBurnPolicy r = true -> enableBurnAfterTime cfg = false ->
      asksToBurn r = false).

(** The row a route stores for a request of lifetime [ttl] and view budget
    [mv]. *)
Definition storedRow (cfg : Config) (env : ReqEnv) (r : CreateReq)
  (ttl mv : Z) : Secret :=
  mkSecret (newId (createEnv env))
    (encrypt (plaintextOf env r) (generateKey env))
    (encryptTitle (titleOf r) (generateKey env))
    mv None None (storedPreventBurn cfg r)
    (dbNow (createEnv env)) (dateNow env + ttl * 1000)
    (userId (connOf r)) false "".

(** The body of the success response of a route. *)
Definition successBody (cfg : Config) (env : ReqEnv) (r : CreateReq)
  (s : Secret) : SuccessBody :=
  mkSuccessBody
    (baseUrl cfg (connOf r) ++ "/secret/" ++ id s ++ "#"
     ++ base64 (generateKey env))
    (id s)
    (if showsPlaintext r then Some (plaintextOf env r) else None)
    (match r with
     | ToPasswordPostV1 _ _ | ToPasswordGetV1 _ _ => DateValue (expiresAt s)
     | _ => DateText (formatDateToSydney (expiresAt s))
     end).

(** What a route may do with a request, as a property of the result [res]
    of the call: it answers 400 and touches nothing; or the request passed
    the checks and the insertion failed (500, nothing stored), the insertion
    succeeded and the statistic failed (500, row stored), or both succeeded
    (200, row stored). *)
Definition resultCases (cfg : Config) (env : ReqEnv) (r : CreateReq)
  (w : World) (res : outcome Reply * World) : Prop :=
  (exists reply, res = (Returned reply, w) /\ status reply = 400)
  \/ (exists ttl mv,
        accepts cfg r ttl mv
        /\ ((exists what e,
               res = (Returned (Reply500 what (message e)),
                      addLog w (message e)))
            \/ (hasId (newId (createEnv env)) (secrets w) = false
                /\ exists what e,
                  res = (Returned (Reply500 what (message e)),
                         addLog (inserted w (storedRow cfg env r ttl mv))
                           (message e)))
            \/ (hasId (newId (createEnv env)) (secrets w) = false
                /\ res = (Returned
                            (Reply200
                               (successBody cfg env r
                                  (storedRow cfg env r ttl mv))),
                          setStatistic
                            (inserted w (storedRow cfg env r ttl mv))
                            (bumped (secrets_created w)))))).

Definition handleCases (cfg : Config) (env : ReqEnv) (r : CreateReq)
  (w : World) : Prop :=
  resultCases cfg env r w (handle cfg env r w).

(** How far the replies of the two revisions of
    [POST /api/password/generate] coincide: same status and error texts; on
    success the same URL and key of the secret, the password in the first
    revision and, when [showPassword] is set, in the second, and the same
    instant of expiry, as a date in the first revision and as text in the
    second. *)
Definition repliesAgree (showPassword : bool) (o1 o2 : outcome Reply) : Prop :=
  match o1, o2 with
  | Returned SchemaRejected, Returned SchemaRejected => True
  | Returned (Reply400 e1), Returned (Reply400 e2) => e1 = e2
  | Returned (Reply500 e1 m1), Returned (Reply500 e2 m2) => e1 = e2 /\ m1 = m2
  | Returned (Reply200 b1), Returned (Reply200 b2) =>
      url b1 = url b2
      /\ secretId b1 = secretId b2
      /\ exists p e,
          shownPassword b1 = Some p
          /\ shownPassword b2 = (if showPassword then Some p else None)
          /\ shownExpiresAt b1 = DateValue e
          /\ shownExpiresAt b2 = DateText (formatDateToSydney e)
  | _, _ => False
  end.

(** Primary key of "Secret". *)
Definition keysUnique (w : World) : Prop := NoDup (map id (secrets w)).

End Notions.

(* ===================================================================== *)
(** * The allow-list of the gate, stated apart from its parsing           *)
(* ===================================================================== *)

(** The character [c] occurs in [s]. *)
Fixpoint hasChar (c : ascii) (s : string) : bool :=
  match s with
  | EmptyString => false
  | String a rest => Ascii.eqb a c || hasChar c rest
  end.

(** Every character is white space. *)
Fixpoint allWhiteSpace (s : string) : bool :=
  match s with
  | EmptyString => true
  | String a rest => JS.isWhiteSpace a && allWhiteSpace rest
  end.

(** "Comma-separated", stated without the way the code parses the setting:
    [items] are the texts the commas of [r] separate when none of them
    holds a comma and, written one after the other with a comma between
    neighbours, they are [r]. *)
Definition commaSeparated (r : string) (items : list string) : Prop :=
  items <> []
  /\ (forall item, In item items -> hasChar "," item = false)
  /\ JS.join "," items = r.

(** [d] does not begin with white space. *)
Definition startsClean (d : string) : bool :=
  match d with
  | EmptyString => true
  | String a _ => negb (JS.isWhiteSpace a)
  end.

(** [d] does not end with white space. *)
Fixpoint endsClean (d : string) : bool :=
  match d with
  | EmptyString => true
  | String a EmptyString => negb (JS.isWhiteSpace a)
  | String _ rest => endsClean rest
  end.

(** [d] is [item] without the white space around it: [item] is white
    space, then [d], then white space, and [d] neither begins nor ends with
    white space. *)
Definition stripped (item d : string) : Prop :=
  exists l t,
    item = l ++ d ++ t
    /\ allWhiteSpace l = true /\ allWhiteSpace t = true
    /\ startsClean d = true /\ endsClean d = true.

(** [d] is an entry of the comma-separated list [r]: what is left of one of
    its items without the white space around it, when something is left. *)
Definition listedEntry (r d : string) : Prop :=
  d <> ""
  /\ exists items item,
       commaSeparated r items /\ In item items /\ stripped item d.

Section AllowList.
Context `{Collaborators}.

(** The domain [x] is among the allowed domains of the setting [r]: it is
    the domain of one of the entries. *)
Definition allowedBy (r x : string) : Prop :=
  exists d, listedEntry r d /\ getEmailDomain d = x.

End AllowList.

(* ===================================================================== *)
(** * Further notions: the shape of a route                                *)
(* ===================================================================== *)

Section Shape.
Context `{Collaborators}.

(** The same request arriving over another connection. *)
Definition withConn (c : Conn) (r : CreateReq) : CreateReq :=
  match r with
  | ToEncryptPost _ b => ToEncryptPost c b
  | ToEncryptGet _ q => ToEncryptGet c q
  | ToPasswordPostV1 _ b => ToPasswordPostV1 c b
  | ToPasswordGetV1 _ q => ToPasswordGetV1 c q
  | ToPasswordPostV2 _ b => ToPasswordPostV2 c b
  | ToPasswordGetV2 _ q => ToPasswordGetV2 c q
  end.

(** The [preventBurn] a route passes to [prisma.secret.create]: nothing in
    the first revision of [password.js], [finalPreventBurn] elsewhere. *)
Definition burnInput (cfg : Config) (r : CreateReq) : option jsval :=
  match r with
  | ToEncryptPost _ b =>
      Some (finalPreventBurn cfg (JBool (withDefault false (e_preventBurn b))))
  | ToEncryptGet _ q =>
      Some (finalPreventBurn cfg (JBool (isTrue "false" (eq_preventBurn q))))
  | ToPasswordPostV1 _ _ | ToPasswordGetV1 _ _ => None
  | ToPasswordPostV2 _ b =>
      Some (finalPreventBurn cfg (orDefault (JBool false) (b_preventBurn b)))
  | ToPasswordGetV2 _ q =>
      Some (finalPreventBurn cfg (JBool (isTrue "false" (q_preventBurn q))))
  end.

(** The [data] object a route passes to [prisma.secret.create]. *)
Definition inputOf (cfg : Config) (env : ReqEnv) (r : CreateReq)
  (ttl mv : Z) : SecretInput :=
  mkSecretInput
    (encryptTitle (titleOf r) (generateKey env))
    mv
    (burnInput cfg r)
    (encrypt (plaintextOf env r) (generateKey env))
    (userId (connOf r))
    (dateNow env + ttl * 1000)
    "".

(** The [try] block every route ends with, and its [catch]. *)
Definition storeAndReply (ce : CreateEnv) (upsert : option Err)
  (inp : SecretInput) (mk : Secret -> SuccessBody) (what : string)
  : M Reply :=
  tryCatch
    (secret <- secretCreate ce inp ;;
     _ <- statisticUpsert upsert ;;
     ret (Reply200 (mk secret)))
    (replyFailure what).

(** The same request environment with other outcomes of the store calls. *)
Definition withUpsertFault (f : option Err) (env : ReqEnv) : ReqEnv :=
  mkReqEnv (dateNow env) (generateKey env) (generate env) (createEnv env) f.

Definition withCreateFault (f : option Err) (env : ReqEnv) : ReqEnv :=
  mkReqEnv (dateNow env) (generateKey env) (generate env)
    (mkCreateEnv (newId (createEnv env)) (dbNow (createEnv env)) f)
    (upsertFault env).

(** The host option names a real host: it is set and is none of the
    placeholders the routes test for. *)
Definition hostConfigured (cfg : Config) : bool :=
  JS.truthy (host cfg)
  && negb (String.eqb (host cfg) "localhost")
  && negb (String.eqb (host cfg) "!changeme!")
  && negb (JS.includes "changeme" (host cfg)).

(** The worlds the process can be in: the empty tables, and whatever an
    operation makes of a world it can be in. *)
Inductive reachable (cfg : Config) : World -> Prop :=
| reach_empty : reachable cfg emptyWorld
| reach_exec (o : Op) (w : World) :
    reachable cfg w -> reachable cfg (exec cfg o w).

(** The clocks of the runs of the sweeper whose store call succeeds. *)
Fixpoint successfulClocks (envs : list TickEnv) : list Z :=
  match envs with
  | [] => []
  | te :: rest =>
      match tickFault te with
      | None => tickNow te :: successfulClocks rest
      | Some _ => successfulClocks rest
      end
  end.

(** The runs of the sweeper whose store call throws. *)
Definition failedRuns (envs : list TickEnv) : list TickEnv :=
  filter (fun te => match tickFault te with Some _ => true | None => false end)
    envs.

(** The latest of a non-empty list of clocks. *)
Definition latest (c : Z) (cs : list Z) : Z := fold_left Z.max cs c.

(** The world after a sequence of operations. *)
Definition execAll (cfg : Config) (ops : list Op) (w : World) : World :=
  fold_left (fun v o => exec cfg o v) ops w.

(** What a stored secret looks like when one of the six routes made it: no
    password, no address restriction, not public, no recorded address, and
    a view budget between 1 and the larger of the two bounds. *)
Definition madeByRoute (cfg : Config) (s : Secret) : Prop :=
  password s = None /\ allowed_ip s = None /\ isPublic s = false
  /\ ipAddress s = ""
  /\ 1 <= maxViews s <= Z.max 999 (maxViewsLimit cfg).

(** The body that says what a query of [GET /api/encrypt] says: the numbers
    [parseInt] reads from [ttl] and [maxViews] (from the defaults "86400"
    and "1" when the parameter is absent) and the boolean the route reads
    from [preventBurn]. *)
Definition bodyOfQuery (q : EncryptQuery) : EncryptBody :=
  mkEncryptBody (eq_password q)
    (JS.parseInt (withDefault "86400" (eq_ttl q)))
    (JS.parseInt (withDefault "1" (eq_maxViews q)))
    (Some (isTrue "false" (eq_preventBurn q)))
    (eq_title q).

(** The body that says what a query of [GET /api/password/generate] says,
    as the second revision reads it: numbers through [parseInt] (from the
    defaults "16", "86400" and "1" when a parameter is absent), and each
    switch on exactly when its text, or its default when absent ("true"
    for the four character sets, "false" for the others), is "true"; a
    query carries no title. *)
Definition generateBodyOfQuery (q : GenerateQuery) : GenerateBody :=
  mkGenerateBody
    (JS.parseInt (withDefault "16" (q_length q)))
    (Some (isTrue "true" (q_numbers q)))
    (Some (isTrue "true" (q_symbols q)))
    (Some (isTrue "true" (q_uppercase q)))
    (Some (isTrue "true" (q_lowercase q)))
    (Some (isTrue "false" (q_excludeSimilarCharacters q)))
    (Some (isTrue "false" (q_strict q)))
    (JS.parseInt (withDefault "86400" (q_ttl q)))
    (JS.parseInt (withDefault "1" (q_maxViews q)))
    (JBool (isTrue "false" (q_preventBurn q)))
    None
    (JBool (isTrue "false" (q_showPassword q))).

(** A JavaScript string as the sequence of its UTF-16 code units. *)
Definition CodeUnits : Type := list Z.

(** WhiteSpace and LineTerminator of ECMAScript, the code units
    [String.prototype.trim] removes: TAB, LF, VT, FF, CR, SPACE, NBSP,
    U+1680, U+2000 to U+200A, U+2028, U+2029, U+202F, U+205F, U+3000 and
    U+FEFF. *)
Definition isWhiteSpaceUnit (c : Z) : bool :=
  (c =? 9) || (c =? 10) || (c =? 11) || (c =? 12) || (c =? 13)
  || (c =? 32) || (c =? 160) || (c =? 5760)
  || ((8192 <=? c) && (c <=? 8202))
  || (c =? 8232) || (c =? 8233) || (c =? 8239) || (c =? 8287)
  || (c =? 12288) || (c =? 65279).

Fixpoint trimStartUnits (p : CodeUnits) : CodeUnits :=
  match p with
  | [] => []
  | c :: rest => if isWhiteSpaceUnit c then trimStartUnits rest else p
  end.

Fixpoint trimEndUnits (p : CodeUnits) : CodeUnits :=
  match p with
  | [] => []
  | c :: rest =>
      let r := trimEndUnits rest in
      if isWhiteSpaceUnit c && match r with [] => true | _ :: _ => false end
      then [] else c :: r
  end.

(** [p.trim()] on code units. *)
Definition trimUnits (p : CodeUnits) : CodeUnits :=
  trimEndUnits (trimStartUnits p).

(** [!password || typeof password !== 'string'
     || password.trim().length === 0] for a string of any code units. *)
Definition blankUnits (p : CodeUnits) : bool :=
  match p with [] => true | _ :: _ => false end
  || Nat.eqb (List.length (trimUnits p)) 0.

(** The code units of a string of the model. *)
Definition unitsOf (s : string) : CodeUnits :=
  map (fun a => Z.of_nat (nat_of_ascii a)) (list_ascii_of_string s).

(** What a route is, once its checks are decided: either one fixed reply
    with status 400, whatever the connection, the environment and the world;
    or, for a request that passed the checks, the block that stores and
    replies, applied to the input and the response of the route. *)
Definition routeShape (cfg : Config) (r : CreateReq) : Prop :=
  (exists reply,
      status reply = 400
      /\ forall c env w,
           handle cfg env (withConn c r) w = (Returned reply, w))
  \/ (exists ttl mv what,
         accepts cfg r ttl mv
         /\ forall c env w,
              handle cfg env (withConn c r) w
              = storeAndReply (createEnv env) (upsertFault env)
                  (inputOf cfg env (withConn c r) ttl mv)
                  (successBody cfg env (withConn c r)) what w).

End Shape.

(** [?length=24&numbers=true&symbols=false&excludeSimilarCharacters=true
    &ttl=3600&maxViews=3&preventBurn=true&showPassword=true]. *)
Definition fullGenerateQuery : GenerateQuery :=
  mkGenerateQuery (Some "24") (Some "true") (Some "false") None None
    (Some "true") None (Some "3600") (Some "3") (Some "true") (Some "true").

(** An instance whose configuration names its host. *)
Definition hostedConfig : Config := mkConfig "secrets.example.org" 100 true.

(** A connection as whoever writes the headers presents it. *)
Definition forwardedConn : Conn :=
  mkConn None false None (Some "https") None (Some "mirror.example").

(** An error of the database client. *)
Definition storeDown : Err := mkErr "Can't reach database server".

(** [?password=hunter2&ttl=3600&maxViews=5&preventBurn=true&title=wifi]. *)
Definition fullQuery : EncryptQuery :=
  mkEncryptQuery (Some "hunter2") (Some "3600") (Some "5") (Some "true")
    (Some "wifi").

(* ===================================================================== *)
(** * bootstrap.js: admin settings and root user                           *)
(* ===================================================================== *)

Module Bootstrap.

(** [config.get('instance')], as far as [createAdminSettings] reads it.
    [restrictOrganizationEmail] may be unset. *)
Record InstanceConfig : Type := mkInstanceConfig {
  disableUsers : bool;
  disableUserAccountCreation : bool;
  readOnly : bool;
  disableFileUpload : bool;
  disableIpRestriction : bool;
  restrictOrganizationEmail : option string
}.

(** [config.get('account.root.user')], [...email'] and [...password']: the
    constants [username], [email] and [password] of the module. *)
Record RootAccount : Type := mkRootAccount {
  account_user : string;
  account_email : string;
  account_password : string
}.

(** A row of the table "Settings". *)
Record Settings : Type := mkSettings {
  settings_id : string;
  disable_users : bool;
  disable_user_account_creation : bool;
  read_only : bool;
  disable_file_upload : bool;
  hide_allowed_ip_input : bool;
  restrict_organization_email : string
}.

(** A row of the table "User". *)
Record User : Type := mkUser {
  u_id : string;
  u_username : string;
  u_email : string;
  u_password : string;
  u_role : string;
  u_generated : bool;
  u_createdAt : Z
}.

(** A value of a property of a settings object. *)
Inductive SettingValue : Type :=
| SBool (b : bool)
| SText (s : string).

(** Modelled from the spec: [adminSettings.js] is not among the embedded
    files; it is the PolicyCache of section 4.4, a process-local map with
    [get(key)] and [set(key, value)], "updated in place". *)
Definition Cache : Type := string -> option SettingValue.

Definition emptyCache : Cache := fun _ => None.

Definition cacheGet (k : string) (c : Cache) : option SettingValue := c k.

Definition cacheSet (k : string) (v : SettingValue) (c : Cache) : Cache :=
  fun k' => if String.eqb k' k then Some v else c k'.

(** A settings object: its own properties in order, each key once. *)
Definition SettingsObject : Type := list (string * SettingValue).

(** [export function updateAdminSettings(settings = {})]. *)
Definition updateAdminSettings (settings : SettingsObject) (c : Cache)
  : Cache :=
  fold_left (fun acc kv => cacheSet (fst kv) (snd kv) acc) settings c.

(** The object Prisma returns for a row of "Settings". *)
Definition settingsObject (s : Settings) : SettingsObject :=
  [ ("id", SText (settings_id s));
    ("disable_users", SBool (disable_users s));
    ("disable_user_account_creation",
     SBool (disable_user_account_creation s));
    ("read_only", SBool (read_only s));
    ("disable_file_upload", SBool (disable_file_upload s));
    ("hide_allowed_ip_input", SBool (hide_allowed_ip_input s));
    ("restrict_organization_email", SText (restrict_organization_email s)) ].

(** The state [main] works on: the tables "Settings" and "User", the
    settings cache, and the rest of the process. *)
Record State : Type := mkState {
  settingsTable : list Settings;
  users : list User;
  adminSettings : Cache;
  process : World
}.

(** Computations on [State] that may throw. *)
Definition MB (A : Type) : Type := State -> outcome A * State.

Definition retB {A} (a : A) : MB A := fun st => (Returned a, st).

Definition bindB {A B} (m : MB A) (k : A -> MB B) : MB B :=
  fun st =>
    match m st with
    | (Returned a, st') => k a st'
    | (Threw e, st') => (Threw e, st')
    end.

Definition tryCatchB {A} (m : MB A) (h : Err -> MB A) : MB A :=
  fun st =>
    match m st with
    | (Returned a, st') => (Returned a, st')
    | (Threw e, st') => h e st'
    end.

Notation "x <~ m ;; k" := (bindB m (fun x => k))
  (at level 61, m at next level, right associativity).

(** What the database and the hashing library contribute to one start of
    the process: the errors the three store calls raise, if any, the key and
    the timestamp of a created user, and the hash of a password (salted,
    hence not a function of the password alone). *)
Record Env : Type := mkEnv {
  upsertFault : option Err;
  findFault : option Err;
  createFault : option Err;
  newUserId : string;
  userNow : Z;
  hash : string -> string
}.

Definition isAdminRow (s : Settings) : bool :=
  String.eqb (settings_id s) "admin_settings".

Fixpoint replaceFirst (p : Settings -> bool) (row : Settings)
  (l : list Settings) : list Settings :=
  match l with
  | [] => []
  | x :: rest => if p x then row :: rest else x :: replaceFirst p row rest
  end.

(** [prisma.settings.upsert({ where: { id: 'admin_settings' }, update,
    create })] where [update] and [create] carry the same six values: the
    row found keeps its key and takes the values, or a row with the key is
    created. *)
Definition settingsUpsert (fault : option Err) (values : Settings)
  : MB Settings :=
  fun st =>
    match fault with
    | Some e => (Threw e, st)
    | None =>
        match find isAdminRow (settingsTable st) with
        | Some old =>
            let row :=
              mkSettings (settings_id old) (disable_users values)
                (disable_user_account_creation values) (read_only values)
                (disable_file_upload values) (hide_allowed_ip_input values)
                (restrict_organization_email values) in
            (Returned row,
             mkState (replaceFirst isAdminRow row (settingsTable st))
               (users st) (adminSettings st) (process st))
        | None =>
            (Returned values,
             mkState (settingsTable st ++ [values]) (users st)
               (adminSettings st) (process st))
        end
    end.

Section WithCollaborators.
Context `{Collaborators}.

(** "Process restrict_organization_email: support comma-separated list":
    the value of [restrictEmailDomains]. *)
Definition restrictEmailDomains (ic : InstanceConfig) : string :=
  match restrictOrganizationEmail ic with
  | Some s =>
      if JS.truthy s
      then JS.join ","
             (map getEmailDomain
                (filter JS.nonEmpty (map JS.trim (JS.split "," s))))
      else ""
  | None => ""
  end.

(** The domains [createAdminSettings] joins into [restrictEmailDomains]. *)
Definition configuredDomains (ic : InstanceConfig) : list string :=
  match restrictOrganizationEmail ic with
  | Some s =>
      if JS.truthy s then map getEmailDomain (allowedDomains s) else []
  | None => []
  end.

(** The six values [createAdminSettings] passes as [update] and, with the
    key, as [create]. *)
Definition configuredSettings (ic : InstanceConfig) : Settings :=
  mkSettings "admin_settings" (disableUsers ic)
    (disableUserAccountCreation ic) (readOnly ic) (disableFileUpload ic)
    (disableIpRestriction ic) (restrictEmailDomains ic).

(** [async function createAdminSettings()]. *)
Definition createAdminSettings (ic : InstanceConfig) (env : Env) : MB unit :=
  settings <~ settingsUpsert (upsertFault env) (configuredSettings ic) ;;
  fun st =>
    (Returned tt,
     mkState (settingsTable st) (users st)
       (updateAdminSettings (settingsObject settings) (adminSettings st))
       (process st)).

End WithCollaborators.

(** [prisma.user.findFirst({ where: { username, email } })]. *)
Definition userFindFirst (fault : option Err) (username email : string)
  : MB (option User) :=
  fun st =>
    match fault with
    | Some e => (Threw e, st)
    | None =>
        (Returned
           (find (fun u => String.eqb (u_username u) username
                           && String.eqb (u_email u) email) (users st)),
         st)
    end.

(** [prisma.user.create({ data })]: the key, the user name and the e-mail
    are unique in "User" (primary key and the two unique indexes of the
    migration); the messages stand for the error Prisma raises when a
    unique constraint fails. *)
Definition userCreate (env : Env) (username email hashed role : string)
  (generated : bool) : MB User :=
  fun st =>
    match createFault env with
    | Some e => (Threw e, st)
    | None =>
        if existsb (fun u => String.eqb (u_id u) (newUserId env)) (users st)
        then (Threw (mkErr "Unique constraint failed on the fields: (`id`)"),
              st)
        else if existsb (fun u => String.eqb (u_username u) username)
                  (users st)
        then (Threw
                (mkErr "Unique constraint failed on the fields: (`username`)"),
              st)
        else if existsb (fun u => String.eqb (u_email u) email) (users st)
        then (Threw
                (mkErr "Unique constraint failed on the fields: (`email`)"),
              st)
        else
          let u := mkUser (newUserId env) username email hashed role
                     generated (userNow env) in
          (Returned u,
           mkState (settingsTable st) (users st ++ [u]) (adminSettings st)
             (process st))
    end.

(** [async function createRootUser()]. *)
Definition createRootUser (acct : RootAccount) (env : Env) : MB unit :=
  rootUser <~ userFindFirst (findFault env) (account_user acct)
                (account_email acct) ;;
  match rootUser with
  | Some _ => retB tt
  | None =>
      _ <~ userCreate env (account_user acct) (account_email acct)
             (hash env (account_password acct)) "admin" true ;;
      retB tt
  end.

Definition consoleError (line : string) : MB unit :=
  fun st =>
    (Returned tt,
     mkState (settingsTable st) (users st) (adminSettings st)
       (addLog (process st) line)).

Section Main.
Context `{Collaborators}.

(** [(async function main() { ... })()], with the two steps spelt out. *)
Definition main (ic : InstanceConfig) (acct : RootAccount) (env : Env)
  : MB (list Timer) :=
  tryCatchB
    (_ <~ createAdminSettings ic env ;;
     _ <~ createRootUser acct env ;;
     retB [mkTimer CallDbCleaner (20 * 1000)])
    (fun error =>
       _ <~ consoleError
              ("Failed to initialize application: " ++ message error) ;;
       retB []).

(** [adminSettings.get('restrict_organization_email')] as the gate reads
    it: the text [createAdminSettings] or a caller of [updateAdminSettings]
    put there, [None] while the key holds no text. *)
Definition restrictSetting (c : Cache) : option string :=
  match cacheGet "restrict_organization_email" c with
  | Some (SText s) => Some s
  | _ => None
  end.

End Main.

(** The error a computation ends with, if it throws. *)
Definition thrownBy {A} (o : outcome A) : option Err :=
  match o with
  | Returned _ => None
  | Threw e => Some e
  end.

(** The value of the last property named [k] of a settings object. *)
Fixpoint lastValue (k : string) (o : SettingsObject) : option SettingValue :=
  match o with
  | [] => None
  | (k', v) :: rest =>
      match lastValue k rest with
      | Some v' => Some v'
      | None => if String.eqb k k' then Some v else None
      end
  end.

(** A domain as [createAdminSettings] expects [getEmailDomain] to return
    it: not empty, free of commas and of surrounding white space. *)
Definition plainDomain (d : string) : bool :=
  JS.nonEmpty d && negb (hasChar "," d) && String.eqb (JS.trim d) d.

(** Concrete configurations and states. *)
Definition sampleInstance : InstanceConfig :=
  mkInstanceConfig false true false false false
    (Some "alice@example.org, corp.example").

(** An instance whose restriction is set, yet names no domain. *)
Definition blankInstance : InstanceConfig :=
  mkInstanceConfig false false false false false (Some " , ").

Definition sampleAccount : RootAccount :=
  mkRootAccount "root" "root@example.org" "s3cret".

Definition sampleBootEnv : Env :=
  mkEnv None None None "u1" 1700000000000 (fun p => "argon2(" ++ p ++ ")").

Definition emptyState : State := mkState [] [] emptyCache emptyWorld.

(** The user name of the root account is held by somebody else. *)
Definition takenUser : User :=
  mkUser "u0" "root" "someone@example.org" "argon2(x)" "user" false 0.

Definition takenState : State :=
  mkState [] [takenUser] emptyCache emptyWorld.

End Bootstrap.

(* ===================================================================== *)
(** * formatDateToSydney                                                   *)
(* ===================================================================== *)

Module Sydney.

(** What [Intl.DateTimeFormat] and [toLocaleString] give for one date: the
    six parts [formatDateToSydney] looks up, and the instants obtained by
    reading the date's wall-clock text in the zone of Sydney and in UTC back
    as a local date. *)
Record IntlView : Type := mkIntlView {
  year : string;
  month : string;
  day : string;
  hour : string;
  minute : string;
  second : string;
  sydneyTime : Z;
  utcTime : Z
}.

(** [s.padStart(2, '0')]. *)
Definition padStart2 (s : string) : string :=
  match String.length s with
  | O => "00"
  | S O => "0" ++ s
  | _ => s
  end.

(** [Math.round(offsetMs / (1000 * 60))]: the nearest integer, halves
    upwards. *)
Definition offsetMinutesOf (offsetMs : Z) : Z := (offsetMs + 30000) / 60000.

(** [offsetString]. *)
Definition offsetString (offsetMinutes : Z) : string :=
  let offsetHours := Z.abs offsetMinutes / 60 in
  let offsetMins := Z.abs offsetMinutes mod 60 in
  let offsetSign := if 0 <=? offsetMinutes then "+" else "-" in
  offsetSign ++ padStart2 (JS.numToString offsetHours) ++ ":"
  ++ padStart2 (JS.numToString offsetMins).

(** [function formatDateToSydney(date)], given what [Intl] answers for
    [date]. *)
Definition formatDateToSydneyWith (v : IntlView) : string :=
  let offsetMs := sydneyTime v - utcTime v in
  let offsetMinutes := offsetMinutesOf offsetMs in
  year v ++ "-" ++ month v ++ "-" ++ day v ++ "T" ++ hour v ++ ":"
  ++ minute v ++ ":" ++ second v ++ offsetString offsetMinutes.

(** Reading an offset [+hh:mm] or [-hh:mm] back as minutes. *)
Definition readOffset (s : string) : option Z :=
  match s with
  | String sign (String h1 (String h2 (String colon (String m1 (String m2
      EmptyString))))) =>
      if Ascii.eqb colon ":"
         && JS.isDigit h1 && JS.isDigit h2 && JS.isDigit m1 && JS.isDigit m2
      then
        let hh := JS.parseDigits 0 (String h1 (String h2 EmptyString)) in
        let mm := JS.parseDigits 0 (String m1 (String m2 EmptyString)) in
        if Ascii.eqb sign "+" then Some (hh * 60 + mm)
        else if Ascii.eqb sign "-" then Some (- (hh * 60 + mm))
        else None
      else None
  | _ => None
  end.

(** 3 November 2026, 09:30:00 in Sydney, eleven hours ahead of UTC. *)
Definition sampleView : IntlView :=
  mkIntlView "2026" "11" "03" "09" "30" "00" 1793698200000 1793658600000.

End Sydney.

(* ===================================================================== *)
(** * The string primitives on examples                                    *)
(* ===================================================================== *)

Example split_keeps_empty_pieces :
  JS.split "," "a, b,,c " = ["a"; " b"; ""; "c "].
Proof. reflexivity. Qed.

Example split_of_empty : JS.split "," "" = [""].
Proof. reflexivity. Qed.

Example trim_both_ends : JS.trim "  a b	 " = "a b".
Proof. reflexivity. Qed.

Example parseInt_leading_zeros : JS.parseInt "0123" = Some 123%Z.
Proof. reflexivity. Qed.

Example parseInt_of_empty : JS.parseInt "" = None.
Proof. reflexivity. Qed.

Example includes_inside : JS.includes "changeme" "!changeme!" = true.
Proof. reflexivity. Qed.

Example startsWith_scheme : JS.startsWith "http" "https://hemmelig.app" = true.
Proof. reflexivity. Qed.

Example numToString_limit : JS.numToString 100 = "100".
Proof. reflexivity. Qed.

Example allowedDomains_entries :
  allowedDomains "example.com, corp.org ,," = ["example.com"; "corp.org"].
Proof. reflexivity. Qed.

Example signup_url_matches :
  authenticationRegexTest "/API/Authentication/signup?next=1" = true.
Proof. reflexivity. Qed.

Example view_url_does_not_match :
  authenticationRegexTest "/api/secret/abc123" = false.
Proof. reflexivity. Qed.

Example gate_denies_foreign_domain :
  restrictOrganizationEmailHandler (H := sampleCollaborators)
    (Some "example.com, corp.org") "/api/authentication/signup"
    (Some "eve@evil.test")
  = Replied 403 errorMessage.
Proof. reflexivity. Qed.

Example gate_ignores_view_path :
  restrictOrganizationEmailHandler (H := sampleCollaborators)
    (Some "example.com, corp.org") "/api/secret/abc123"
    (Some "eve@evil.test")
  = Continue.
Proof. reflexivity. Qed.

Example default_url_uses_request_host :
  baseUrl defaultConfig sampleConn = "http://hemmelig.example".
Proof. reflexivity. Qed.

(* ===================================================================== *)
(** * Properties: the expiry sweeper                                       *)
(* ===================================================================== *)

Lemma dbCleaner_ok (te : TickEnv) (w : World) :
  tickFault te = None ->
  dbCleaner te w = (Returned tt, setSecrets w (kept (tickNow te) (secrets w))).
Proof.
  intros Hf. unfold dbCleaner, tryCatch, bind, secretDeleteManyExpired, ret.
  rewrite Hf. reflexivity.
Qed.

Lemma dbCleaner_fault (te : TickEnv) (w : World) (e : Err) :
  tickFault te = Some e ->
  dbCleaner te w
  = (Returned tt,
     addLog w (message e ++ " Nothing to delete from the database")).
Proof.
  intros Hf. unfold dbCleaner, tryCatch, bind, secretDeleteManyExpired.
  rewrite Hf. reflexivity.
Qed.

Lemma dbCleaner_returns (te : TickEnv) (w : World) :
  fst (dbCleaner te w) = Returned tt.
Proof.
  destruct (tickFault te) as [e|] eqn:Hf.
  - rewrite (dbCleaner_fault te w e Hf). reflexivity.
  - rewrite (dbCleaner_ok te w Hf). reflexivity.
Qed.

Lemma in_kept (now : Z) (l : list Secret) (s : Secret) :
  In s (kept now l) <-> In s l /\ now < expiresAt s.
Proof.
  unfold kept, expired. rewrite filter_In.
  rewrite negb_true_iff, Z.leb_gt. reflexivity.
Qed.

Lemma kept_all (now : Z) (l : list Secret) :
  (forall s, In s l -> now < expiresAt s) -> kept now l = l.
Proof.
  induction l as [|a l IH]; intros Hall; [reflexivity|].
  unfold kept in *. simpl.
  assert (Ha : negb (expired now a) = true).
  { unfold expired. rewrite negb_true_iff, Z.leb_gt.
    apply Hall. now left. }
  rewrite Ha. f_equal. apply IH. intros s Hs. apply Hall. now right.
Qed.

Lemma runTicks_returns (t : Timer) (envs : list TickEnv) (w : World) :
  fst (runTicks t envs w) = Returned tt.
Proof.
  revert w. induction envs as [|te rest IH]; intros w; [reflexivity|].
  simpl. unfold bind. destruct t as [[] p]. unfold fire. simpl.
  pose proof (dbCleaner_returns te w) as Hr.
  destruct (dbCleaner te w) as [o w1]. simpl in Hr. subst o.
  apply IH.
Qed.

(** C5.  [main] registers the sweeper with a period of 20 seconds, and a run
    of the sweeper whose store call succeeds leaves in the table exactly the
    records with [expiresAt] later than the clock, each as it was and in the
    same order, whatever their [maxViews] and [preventBurn]. *)
Theorem sweeper_deletes_exactly_the_expired :
  forall (te : TickEnv) (w : World),
    tickFault te = None ->
    (forall w0, main None None w0 = (Returned [sweeperTimer], w0))
    /\ fire sweeperTimer = dbCleaner
    /\ periodMs sweeperTimer = 20000
    /\ (forall t0 i,
          dueAt sweeperTimer t0 (S i) - dueAt sweeperTimer t0 i = 20000)
    /\ secrets (snd (dbCleaner te w)) = kept (tickNow te) (secrets w)
    /\ (forall s, In s (secrets (snd (dbCleaner te w)))
                  <-> In s (secrets w) /\ tickNow te < expiresAt s)
    /\ (forall s, In s (secrets w) -> expiresAt s <= tickNow te ->
                  ~ In s (secrets (snd (dbCleaner te w)))).
Proof.
  intros te w Hf. rewrite (dbCleaner_ok te w Hf). cbn [snd secrets setSecrets].
  split; [reflexivity|]. split; [reflexivity|]. split; [reflexivity|].
  split; [unfold dueAt; cbn [periodMs sweeperTimer]; intros; lia|].
  split; [reflexivity|].
  split; [intro s; apply in_kept|].
  intros s _ Hexp Hin. apply in_kept in Hin. lia.
Qed.

Lemma sweeper_deletes_exactly_the_expired_witness :
  secrets
    (snd (dbCleaner (mkTickEnv 1000 None)
            (mkWorld [sampleSecret "a" 5 true 1000;
                      sampleSecret "b" 1 false 1001;
                      sampleSecret "c" 0 false 999] None [])))
  = [sampleSecret "b" 1 false 1001].
Proof.
  exact (proj1 (proj2 (proj2 (proj2 (proj2
    (sweeper_deletes_exactly_the_expired (mkTickEnv 1000 None)
       (mkWorld [sampleSecret "a" 5 true 1000;
                 sampleSecret "b" 1 false 1001;
                 sampleSecret "c" 0 false 999] None [])
       eq_refl)))))).
Defined.

(** C9.  Two runs of the sweeper in succession, with no record expiring
    between the clock of the first and the clock of the second: both return
    normally and log nothing, and the second deletes no row and leaves the
    world as the first left it. *)
Theorem sweeper_idempotent :
  forall (te1 te2 : TickEnv) (w : World),
    tickFault te1 = None ->
    tickFault te2 = None ->
    (forall s, In s (secrets w) ->
               ~ (tickNow te1 < expiresAt s <= tickNow te2)) ->
    let w1 := snd (dbCleaner te1 w) in
    let w2 := snd (dbCleaner te2 w1) in
    fst (dbCleaner te1 w) = Returned tt
    /\ fst (dbCleaner te2 w1) = Returned tt
    /\ fst (secretDeleteManyExpired (tickFault te2) (tickNow te2) w1)
       = Returned 0
    /\ w2 = w1
    /\ logged w2 = logged w.
Proof.
  intros te1 te2 w H1 H2 Hnone. cbv zeta.
  rewrite (dbCleaner_ok te1 w H1). cbn [snd fst].
  rewrite (dbCleaner_ok te2 _ H2). cbn [snd fst].
  assert (Hall : forall s, In s (kept (tickNow te1) (secrets w)) ->
                           tickNow te2 < expiresAt s).
  { intros s Hs. apply in_kept in Hs. destruct Hs as [Hin Hlt].
    specialize (Hnone s Hin). lia. }
  assert (Hk : kept (tickNow te2) (kept (tickNow te1) (secrets w))
               = kept (tickNow te1) (secrets w)) by (apply kept_all, Hall).
  repeat split.
  - unfold secretDeleteManyExpired. rewrite H2. cbn [fst secrets setSecrets].
    assert (Hnil : filter (expired (tickNow te2))
                     (kept (tickNow te1) (secrets w)) = []).
    { clear Hk. induction (kept (tickNow te1) (secrets w)) as [|a l IH];
        [reflexivity|].
      simpl. assert (Ha : expired (tickNow te2) a = false).
      { unfold expired. apply Z.leb_gt. apply Hall. now left. }
      rewrite Ha. apply IH. intros s Hs. apply Hall. now right. }
    rewrite Hnil. reflexivity.
  - unfold setSecrets. cbn [secrets secrets_created logged]. rewrite Hk.
    reflexivity.
Qed.

Lemma sweeper_idempotent_witness :
  snd (dbCleaner (mkTickEnv 1005 None)
         (snd (dbCleaner (mkTickEnv 1000 None)
                 (mkWorld [sampleSecret "a" 5 true 1000;
                           sampleSecret "b" 1 false 2000] None []))))
  = snd (dbCleaner (mkTickEnv 1000 None)
           (mkWorld [sampleSecret "a" 5 true 1000;
                     sampleSecret "b" 1 false 2000] None [])).
Proof.
  refine (proj1 (proj2 (proj2 (proj2
    (sweeper_idempotent (mkTickEnv 1000 None) (mkTickEnv 1005 None)
       (mkWorld [sampleSecret "a" 5 true 1000;
                 sampleSecret "b" 1 false 2000] None [])
       eq_refl eq_refl _))))).
  intros s Hin. simpl in Hin.
  destruct Hin as [<-|[<-|[]]]; simpl; lia.
Defined.

(* ===================================================================== *)
(** * Properties: the routes that create secrets                           *)
(* ===================================================================== *)

Section Creation.
Context `{Collaborators}.

Lemma store_and_reply_cases (ce : CreateEnv) (f : option Err)
  (inp : SecretInput) (mk : Secret -> SuccessBody) (what : string) (w : World) :
  let m := tryCatch
             (bind (secretCreate ce inp)
                (fun secret =>
                   bind (statisticUpsert f)
                     (fun _ => ret (Reply200 (mk secret)))))
             (replyFailure what) in
  (exists e, m w = (Returned (Reply500 what (message e)), addLog w (message e)))
  \/ (exists b,
        preventBurnColumn (in_preventBurn inp) = Some b
        /\ hasId (newId ce) (secrets w) = false
        /\ ((exists e,
               m w = (Returned (Reply500 what (message e)),
                      addLog (inserted w (rowOf ce inp b)) (message e)))
            \/ m w = (Returned (Reply200 (mk (rowOf ce inp b))),
                      setStatistic (inserted w (rowOf ce inp b))
                        (bumped (secrets_created w))))).
Proof.
  cbv zeta. unfold tryCatch, bind, secretCreate, statisticUpsert, replyFailure,
    logError, ret.
  destruct (createFault ce) as [e|]; [left; exists e; reflexivity|].
  destruct (preventBurnColumn (in_preventBurn inp)) as [b|];
    [|left; eexists; reflexivity].
  destruct (negb (fitsInteger (in_maxViews inp)));
    [left; eexists; reflexivity|].
  destruct (hasId (newId ce) (secrets w)) eqn:Hid;
    [left; eexists; reflexivity|].
  right. exists b. split; [reflexivity|]. split; [reflexivity|].
  destruct f as [e|]; [left; exists e; reflexivity | right; reflexivity].
Qed.

Lemma finish_cases (cfg : Config) (env : ReqEnv) (r : CreateReq) (w : World)
  (ttl mv : Z) (inp : SecretInput) (mk : Secret -> SuccessBody)
  (what : string) :
  accepts cfg r ttl mv ->
  (forall b0, preventBurnColumn (in_preventBurn inp) = Some b0 ->
              rowOf (createEnv env) inp b0 = storedRow cfg env r ttl mv) ->
  mk (storedRow cfg env r ttl mv)
  = successBody cfg env r (storedRow cfg env r ttl mv) ->
  resultCases cfg env r w
    (tryCatch
       (bind (secretCreate (createEnv env) inp)
          (fun secret =>
             bind (statisticUpsert (upsertFault env))
               (fun _ => ret (Reply200 (mk secret)))))
       (replyFailure what) w).
Proof.
  intros Hacc Hrow Hbody. unfold resultCases. right. exists ttl, mv.
  split; [assumption|].
  destruct (store_and_reply_cases (createEnv env) (upsertFault env) inp mk
              what w) as [[e He] | [b0 [Hb [Hid [[e He] | He]]]]];
    cbv zeta in He.
  - left. exists what, e. exact He.
  - right; left. split; [assumption|]. exists what, e.
    rewrite <- (Hrow b0 Hb). exact He.
  - right; right. split; [assumption|].
    rewrite <- Hbody, <- (Hrow b0 Hb). exact He.
Qed.

Lemma includesZ_In (l : list Z) (x : Z) : includesZ l x = true <-> In x l.
Proof.
  unfold includesZ. rewrite existsb_exists. split.
  - intros [y [Hy He]]. apply Z.eqb_eq in He. now subst.
  - intros Hx. exists x. split; [assumption | apply Z.eqb_refl].
Qed.

Lemma inRange_Some (n : option Z) (lo hi z : Z) :
  inRange n lo hi = Some z -> n = Some z /\ lo <= z <= hi.
Proof.
  unfold inRange. destruct n as [v|]; [|discriminate].
  destruct ((v <? lo) || (v >? hi)) eqn:Hb; [discriminate|].
  intros [= <-]. apply orb_false_iff in Hb. destruct Hb as [H1 H2].
  apply Z.ltb_ge in H1. rewrite Z.gtb_ltb in H2. apply Z.ltb_ge in H2.
  split; [reflexivity | lia].
Qed.

Lemma expiryOfBodyTtl_pos (now ttl : Z) :
  (1 <=? ttl) = true -> expiryOfBodyTtl now ttl = now + ttl * 1000.
Proof.
  intros Hp. apply Z.leb_le in Hp. unfold expiryOfBodyTtl.
  destruct (ttl =? 0) eqn:Hz; [apply Z.eqb_eq in Hz; lia | reflexivity].
Qed.

Ltac reject400 :=
  unfold resultCases; left; eexists; split; [reflexivity | reflexivity].

Ltac split_andb H :=
  repeat match type of H with
         | (_ && _)%bool = true =>
             let H1 := fresh "Hc" in
             apply andb_true_iff in H; destruct H as [H H1]
         end.

Lemma encryptPost_cases (cfg : Config) (env : ReqEnv) (c : Conn)
  (b : EncryptBody) (w : World) :
  handleCases cfg env (ToEncryptPost c b) w.
Proof.
  unfold handleCases. cbn [handle]. unfold encryptPost.
  destruct (encryptBodySchema cfg b) eqn:Hs; cbn [negb]; [|reject400].
  unfold encryptBodySchema in Hs.
  destruct (e_password b) as [p|] eqn:Hp; [|discriminate].
  split_andb Hs. cbn [withDefault].
  destruct (blankPassword p); [reject400|].
  destruct (inRange (Some (withDefault 1 (e_maxViews b))) 1 (maxViewsLimit cfg))
    as [mv|] eqn:Hmv; [|reject400].
  apply inRange_Some in Hmv. destruct Hmv as [Hmv Hr]. injection Hmv as Hmv.
  destruct (negb (enableBurnAfterTime cfg)
            && strictlyFalse (JBool (withDefault false (e_preventBurn b))))
    eqn:Hburn; [reject400|].
  cbv zeta.
  apply finish_cases with (ttl := withDefault 86400 (e_ttl b)) (mv := mv).
  - unfold accepts. cbn [requestedTtl requestedMaxViews viewsBound
                          consultsBurnPolicy asksToBurn].
    split; [reflexivity|]. split; [now apply includesZ_In|].
    split; [now rewrite Hmv|]. split; [assumption|].
    intros _ He. rewrite He in Hburn. cbn in Hburn.
    destruct (withDefault false (e_preventBurn b)); [reflexivity|discriminate].
  - intros b0 Hb0. unfold rowOf, storedRow, storedPreventBurn.
    cbn [in_data in_title in_maxViews in_expiresAt in_user_id in_ipAddress
         plaintextOf titleOf connOf consultsBurnPolicy asksToBurn].
    rewrite Hp. cbn [withDefault].
    rewrite (expiryOfBodyTtl_pos _ _ Hc3).
    cbn [in_preventBurn preventBurnColumn] in Hb0. unfold finalPreventBurn in Hb0.
    destruct (enableBurnAfterTime cfg); injection Hb0 as <-;
      rewrite ?negb_involutive; reflexivity.
  - unfold successBody, shareableUrl. reflexivity.
Qed.


Lemma encryptGet_cases (cfg : Config) (env : ReqEnv) (c : Conn)
  (q : EncryptQuery) (w : World) :
  handleCases cfg env (ToEncryptGet c q) w.
Proof.
  unfold handleCases. cbn [handle]. unfold encryptGet.
  destruct (encryptQuerySchema q) eqn:Hs; cbn [negb]; [|reject400].
  unfold encryptQuerySchema in Hs.
  destruct (eq_password q) as [p|] eqn:Hp; [|discriminate].
  cbn [withDefault].
  destruct (blankPassword p); [reject400|].
  destruct (JS.parseInt (withDefault "86400" (eq_ttl q))) as [ttlNum|] eqn:Httl;
    [|reject400].
  destruct (includesZ VALID_TTL ttlNum) eqn:Hin; cbn [negb]; [|reject400].
  destruct (inRange (JS.parseInt (withDefault "1" (eq_maxViews q))) 1
              (maxViewsLimit cfg)) as [mv|] eqn:Hmv; [|reject400].
  apply inRange_Some in Hmv. destruct Hmv as [Hmv Hr].
  destruct (negb (enableBurnAfterTime cfg)
            && negb (isTrue "false" (eq_preventBurn q))) eqn:Hburn;
    [reject400|].
  cbv zeta.
  apply finish_cases with (ttl := ttlNum) (mv := mv).
  - unfold accepts. cbn [requestedTtl requestedMaxViews viewsBound
                          consultsBurnPolicy asksToBurn].
    split; [assumption|]. split; [now apply includesZ_In|].
    split; [assumption|]. split; [assumption|].
    intros _ He. rewrite He in Hburn. exact Hburn.
  - intros b0 Hb0. unfold rowOf, storedRow, storedPreventBurn.
    cbn [in_data in_title in_maxViews in_expiresAt in_user_id in_ipAddress
         plaintextOf titleOf connOf consultsBurnPolicy asksToBurn].
    rewrite Hp. cbn [withDefault].
    cbn [in_preventBurn preventBurnColumn] in Hb0. unfold finalPreventBurn in Hb0.
    destruct (enableBurnAfterTime cfg); injection Hb0 as <-;
      rewrite ?negb_involutive; reflexivity.
  - unfold successBody, shareableUrl. reflexivity.
Qed.

Lemma passwordPostV1_cases (cfg : Config) (env : ReqEnv) (c : Conn)
  (b : GenerateBody) (w : World) :
  handleCases cfg env (ToPasswordPostV1 c b) w.
Proof.
  unfold handleCases. cbn [handle]. unfold passwordPostV1.
  destruct (generateBodySchema 999 b) eqn:Hs; cbn [negb]; [|reject400].
  unfold generateBodySchema in Hs. cbv zeta in Hs. split_andb Hs.
  cbv zeta.
  destruct (noCharacterSet _ _ _ _); [reject400|].
  destruct (_ || _); [reject400|].
  apply finish_cases with (ttl := withDefault 86400 (b_ttl b))
                          (mv := withDefault 1 (b_maxViews b)).
  - unfold accepts. cbn [requestedTtl requestedMaxViews viewsBound
                          consultsBurnPolicy asksToBurn].
    split; [reflexivity|]. split; [now apply includesZ_In|].
    split; [reflexivity|]. split; [lia|].
    intros Hc'. discriminate.
  - intros b0 Hb0. unfold rowOf, storedRow, storedPreventBurn.
    cbn [in_data in_title in_maxViews in_expiresAt in_user_id in_ipAddress
         plaintextOf titleOf connOf consultsBurnPolicy asksToBurn].
    rewrite (expiryOfBodyTtl_pos _ _ Hc3).
    cbn [in_preventBurn preventBurnColumn] in Hb0.
    injection Hb0 as <-. reflexivity.
  - unfold successBody, shareableUrl. reflexivity.
Qed.

Lemma passwordPostV2_cases (cfg : Config) (env : ReqEnv) (c : Conn)
  (b : GenerateBody) (w : World) :
  handleCases cfg env (ToPasswordPostV2 c b) w.
Proof.
  unfold handleCases. cbn [handle]. unfold passwordPostV2.
  destruct (generateBodySchema (maxViewsLimit cfg) b) eqn:Hs;
    cbn [negb andb]; [|reject400].
  destruct (showPasswordSchema b); cbn [negb]; [|reject400].
  unfold generateBodySchema in Hs. cbv zeta in Hs. split_andb Hs.
  cbv zeta.
  destruct (noCharacterSet _ _ _ _); [reject400|].
  destruct ((_ <? 4) || _); [reject400|].
  destruct (inRange (Some (withDefault 1 (b_maxViews b))) 1 (maxViewsLimit cfg))
    as [mv|] eqn:Hmv; [|reject400].
  apply inRange_Some in Hmv. destruct Hmv as [Hmv Hr]. injection Hmv as Hmv.
  destruct (negb (enableBurnAfterTime cfg)
            && strictlyFalse (orDefault (JBool false) (b_preventBurn b)))
    eqn:Hburn; [reject400|].
  apply finish_cases with (ttl := withDefault 86400 (b_ttl b)) (mv := mv).
  - unfold accepts. cbn [requestedTtl requestedMaxViews viewsBound
                          consultsBurnPolicy asksToBurn].
    split; [reflexivity|]. split; [now apply includesZ_In|].
    split; [now rewrite Hmv|]. split; [assumption|].
    intros _ He. rewrite He in Hburn. exact Hburn.
  - intros b0 Hb0. unfold rowOf, storedRow, storedPreventBurn.
    cbn [in_data in_title in_maxViews in_expiresAt in_user_id in_ipAddress
         plaintextOf titleOf connOf consultsBurnPolicy asksToBurn].
    rewrite (expiryOfBodyTtl_pos _ _ Hc3).
    cbn [in_preventBurn preventBurnColumn] in Hb0. unfold finalPreventBurn in Hb0.
    destruct (enableBurnAfterTime cfg).
    + destruct (orDefault (JBool false) (b_preventBurn b)) as [| |pb| | |];
        try discriminate.
      injection Hb0 as <-. destruct pb; reflexivity.
    + injection Hb0 as <-. reflexivity.
  - unfold successBody, shareableUrl. reflexivity.
Qed.

Lemma passwordGetV1_cases (cfg : Config) (env : ReqEnv) (c : Conn)
  (q : GenerateQuery) (w : World) :
  handleCases cfg env (ToPasswordGetV1 c q) w.
Proof.
  unfold handleCases. cbn [handle]. unfold passwordGetV1.
  destruct (generateQuerySchemaV1 q) eqn:Hs; cbn [negb]; [|reject400].
  destruct (inRange (JS.parseInt (withDefault "16" (q_length q))) 4 128)
    as [lengthNum|] eqn:Hlen; [|reject400].
  apply inRange_Some in Hlen. destruct Hlen as [Hlen _].
  destruct (JS.parseInt (withDefault "86400" (q_ttl q))) as [ttlNum|] eqn:Httl;
    [|reject400].
  destruct (includesZ VALID_TTL ttlNum) eqn:Hin; cbn [negb]; [|reject400].
  destruct (inRange (JS.parseInt (withDefault "1" (q_maxViews q))) 1 999)
    as [mv|] eqn:Hmv; [|reject400].
  apply inRange_Some in Hmv. destruct Hmv as [Hmv Hr].
  cbv zeta.
  destruct (noCharacterSet _ _ _ _); [reject400|].
  apply finish_cases with (ttl := ttlNum) (mv := mv).
  - unfold accepts. cbn [requestedTtl requestedMaxViews viewsBound
                          consultsBurnPolicy asksToBurn].
    split; [assumption|]. split; [now apply includesZ_In|].
    split; [assumption|]. split; [assumption|].
    intros Hc'. discriminate.
  - intros b0 Hb0. unfold rowOf, storedRow, storedPreventBurn.
    cbn [in_data in_title in_maxViews in_expiresAt in_user_id in_ipAddress
         plaintextOf titleOf connOf consultsBurnPolicy asksToBurn].
    unfold genOptionsOfQuery. rewrite Hlen. cbn [withDefault].
    cbn [in_preventBurn preventBurnColumn] in Hb0.
    injection Hb0 as <-. reflexivity.
  - unfold successBody, shareableUrl.
    cbn [plaintextOf showsPlaintext connOf].
    unfold genOptionsOfQuery. rewrite Hlen. reflexivity.
Qed.

Lemma passwordGetV2_cases (cfg : Config) (env : ReqEnv) (c : Conn)
  (q : GenerateQuery) (w : World) :
  handleCases cfg env (ToPasswordGetV2 c q) w.
Proof.
  unfold handleCases. cbn [handle]. unfold passwordGetV2.
  destruct (generateQuerySchemaV2 q) eqn:Hs; cbn [negb]; [|reject400].
  destruct (inRange (JS.parseInt (withDefault "16" (q_length q))) 4 128)
    as [lengthNum|] eqn:Hlen; [|reject400].
  apply inRange_Some in Hlen. destruct Hlen as [Hlen _].
  destruct (JS.parseInt (withDefault "86400" (q_ttl q))) as [ttlNum|] eqn:Httl;
    [|reject400].
  destruct (includesZ VALID_TTL ttlNum) eqn:Hin; cbn [negb]; [|reject400].
  destruct (inRange (JS.parseInt (withDefault "1" (q_maxViews q))) 1
              (maxViewsLimit cfg)) as [mv|] eqn:Hmv; [|reject400].
  apply inRange_Some in Hmv. destruct Hmv as [Hmv Hr].
  cbv zeta.
  destruct (negb (enableBurnAfterTime cfg)
            && negb (isTrue "false" (q_preventBurn q))) eqn:Hburn;
    [reject400|].
  destruct (noCharacterSet _ _ _ _); [reject400|].
  apply finish_cases with (ttl := ttlNum) (mv := mv).
  - unfold accepts. cbn [requestedTtl requestedMaxViews viewsBound
                          consultsBurnPolicy asksToBurn].
    split; [assumption|]. split; [now apply includesZ_In|].
    split; [assumption|]. split; [assumption|].
    intros _ He. rewrite He in Hburn. exact Hburn.
  - intros b0 Hb0. unfold rowOf, storedRow, storedPreventBurn.
    cbn [in_data in_title in_maxViews in_expiresAt in_user_id in_ipAddress
         plaintextOf titleOf connOf consultsBurnPolicy asksToBurn].
    unfold genOptionsOfQuery. rewrite Hlen. cbn [withDefault].
    cbn [in_preventBurn preventBurnColumn] in Hb0. unfold finalPreventBurn in Hb0.
    destruct (enableBurnAfterTime cfg); injection Hb0 as <-;
      rewrite ?negb_involutive; reflexivity.
  - unfold successBody, shareableUrl.
    cbn [plaintextOf showsPlaintext connOf].
    unfold genOptionsOfQuery. rewrite Hlen. reflexivity.
Qed.

(** Each of the six routes falls under [handleCases]. *)
Lemma handle_cases (cfg : Config) (env : ReqEnv) (r : CreateReq) (w : World) :
  handleCases cfg env r w.
Proof.
  destruct r.
  - apply encryptPost_cases.
  - apply encryptGet_cases.
  - apply passwordPostV1_cases.
  - apply passwordGetV1_cases.
  - apply passwordPostV2_cases.
  - apply passwordGetV2_cases.
Qed.

(** Every route returns a reply; none lets an exception escape. *)
Lemma handle_returns (cfg : Config) (env : ReqEnv) (r : CreateReq)
  (w : World) :
  exists reply w', handle cfg env r w = (Returned reply, w').
Proof.
  destruct (handle_cases cfg env r w)
    as [[reply [E _]] | [ttl [mv [_ [[what [e E]] | [[_ [what [e E]]] | [_ E]]]]]]];
    rewrite E; eauto.
Qed.

(** A reply with status 200 means that the request passed the checks and
    that the row of [storedRow] was appended under a fresh key. *)
Lemma handle_200 (cfg : Config) (env : ReqEnv) (r : CreateReq)
  (w w' : World) (reply : Reply) :
  handle cfg env r w = (Returned reply, w') ->
  status reply = 200 ->
  exists ttl mv,
    accepts cfg r ttl mv
    /\ hasId (newId (createEnv env)) (secrets w) = false
    /\ secrets w' = (secrets w ++ [storedRow cfg env r ttl mv])%list
    /\ reply = Reply200 (successBody cfg env r (storedRow cfg env r ttl mv)).
Proof.
  intros E Hst.
  destruct (handle_cases cfg env r w)
    as [[reply0 [E0 Hs0]] | [ttl [mv [Hacc [[what [e E0]] | [[Hid [what [e E0]]] | [Hid E0]]]]]]];
    rewrite E0 in E; injection E as <- <-; try (cbn in Hst; lia).
  exists ttl, mv. split; [assumption|]. split; [assumption|].
  split; reflexivity.
Qed.

(** Whatever the reply, the table is left as it was or has grown by the
    row of [storedRow], under a fresh key, for a request that passed the
    checks. *)
Lemma handle_secrets (cfg : Config) (env : ReqEnv) (r : CreateReq)
  (w : World) :
  secrets (snd (handle cfg env r w)) = secrets w
  \/ exists ttl mv,
       accepts cfg r ttl mv
       /\ hasId (newId (createEnv env)) (secrets w) = false
       /\ secrets (snd (handle cfg env r w))
          = (secrets w ++ [storedRow cfg env r ttl mv])%list.
Proof.
  destruct (handle_cases cfg env r w)
    as [[reply0 [E0 Hs0]] | [ttl [mv [Hacc [[what [e E0]] | [[Hid [what [e E0]]] | [Hid E0]]]]]]];
    rewrite E0; cbn [snd].
  - now left.
  - now left.
  - right. exists ttl, mv. split; [assumption|]. split; [assumption|].
    reflexivity.
  - right. exists ttl, mv. split; [assumption|]. split; [assumption|].
    reflexivity.
Qed.

(** A request that fails the checks on lifetime, view budget or burn policy
    is answered 400 and changes nothing. *)
Lemma handle_rejects (cfg : Config) (env : ReqEnv) (r : CreateReq)
  (w : World) :
  (forall ttl mv, ~ accepts cfg r ttl mv) ->
  exists reply, handle cfg env r w = (Returned reply, w) /\ status reply = 400.
Proof.
  intros Hno.
  destruct (handle_cases cfg env r w)
    as [[reply0 [E0 Hs0]] | [ttl [mv [Hacc _]]]].
  - exists reply0. split; assumption.
  - exfalso. exact (Hno ttl mv Hacc).
Qed.

(* --------------------------------------------------------------------- *)
(** ** No operation rewrites a stored row                                  *)
(* --------------------------------------------------------------------- *)

Lemma hasId_true_in (i : string) (l : list Secret) :
  hasId i l = true -> exists s, In s l /\ id s = i.
Proof.
  unfold hasId. intros Ht. apply existsb_exists in Ht.
  destruct Ht as [s [Hin He]]. apply String.eqb_eq in He. eauto.
Qed.

Lemma unique_by_id (l : list Secret) (s s' : Secret) :
  NoDup (map id l) -> In s l -> In s' l -> id s = id s' -> s = s'.
Proof.
  induction l as [|a l IH]; intros Hnd Hs Hs' He; [contradiction|].
  cbn [map] in Hnd. inversion Hnd as [|x xs Hnot Hnd']; subst.
  destruct Hs as [<-|Hs]; destruct Hs' as [<-|Hs'].
  - reflexivity.
  - exfalso. apply Hnot. rewrite He. apply in_map. assumption.
  - exfalso. apply Hnot. rewrite <- He. apply in_map. assumption.
  - apply IH; assumption.
Qed.

(** Sweeping keeps the primary key a key. *)
Lemma kept_keys_unique (now : Z) (l : list Secret) :
  NoDup (map id l) -> NoDup (map id (kept now l)).
Proof.
  unfold kept. induction l as [|a l IH]; intros Hnd; [constructor|].
  cbn [map] in Hnd. apply NoDup_cons_iff in Hnd. destruct Hnd as [Hnot Hnd].
  cbn [filter]. destruct (negb (expired now a)); [|apply IH; assumption].
  cbn [map]. apply NoDup_cons; [|apply IH; assumption].
  intros Hin. apply Hnot. apply in_map_iff in Hin.
  destruct Hin as [y [Hy Hin]]. apply filter_In in Hin.
  apply in_map_iff. exists y. tauto.
Qed.

Lemma NoDup_map_snoc (l : list Secret) (s : Secret) :
  NoDup (map id l) -> hasId (id s) l = false -> NoDup (map id (l ++ [s])%list).
Proof.
  intros Hnd Hid. rewrite map_app. cbn [map].
  induction l as [|a l IH]; cbn [map app].
  - constructor; [intros []|constructor].
  - cbn [map] in Hnd. inversion Hnd as [|x xs Hnot Hnd']; subst.
    unfold hasId in Hid. cbn [existsb] in Hid.
    apply orb_false_iff in Hid. destruct Hid as [Ha Hl].
    constructor.
    + intros Hin. apply in_app_or in Hin. destruct Hin as [Hin|[Hin|[]]].
      * contradiction.
      * apply String.eqb_neq in Ha. congruence.
    + apply IH; assumption.
Qed.

Lemma dbCleaner_secrets (te : TickEnv) (w : World) :
  secrets (snd (dbCleaner te w)) = secrets w
  \/ secrets (snd (dbCleaner te w)) = kept (tickNow te) (secrets w).
Proof.
  destruct (tickFault te) as [e|] eqn:Hf.
  - left. rewrite (dbCleaner_fault te w e Hf). reflexivity.
  - right. rewrite (dbCleaner_ok te w Hf). reflexivity.
Qed.

(** The primary key stays a key. *)
Lemma exec_keysUnique (cfg : Config) (o : Op) (w : World) :
  keysUnique w -> keysUnique (exec cfg o w).
Proof.
  unfold keysUnique. intros Hnd. destruct o as [env r | te]; cbn [exec].
  - destruct (handle_secrets cfg env r w) as [E | [ttl [mv [_ [Hid E]]]]];
      rewrite E; [assumption|].
    apply NoDup_map_snoc; assumption.
  - destruct (dbCleaner_secrets te w) as [E | E]; rewrite E; [assumption|].
    apply kept_keys_unique. assumption.
Qed.

(** One operation leaves a stored row in place, or removes it together with
    its key. *)
Lemma exec_keeps_or_deletes (cfg : Config) (o : Op) (w : World) (s : Secret) :
  keysUnique w ->
  In s (secrets w) ->
  In s (secrets (exec cfg o w))
  \/ hasId (id s) (secrets (exec cfg o w)) = false.
Proof.
  unfold keysUnique. intros Hnd Hin. destruct o as [env r | te]; cbn [exec].
  - left.
    destruct (handle_secrets cfg env r w) as [E | [ttl [mv [_ [_ E]]]]];
      rewrite E; [assumption|].
    apply in_or_app. now left.
  - destruct (dbCleaner_secrets te w) as [E | E]; rewrite E;
      [now left|].
    destruct (expired (tickNow te) s) eqn:Hexp.
    + right. destruct (hasId (id s) (kept (tickNow te) (secrets w))) eqn:Hh;
        [|reflexivity].
      exfalso. apply hasId_true_in in Hh. destruct Hh as [s' [Hin' He]].
      apply filter_In in Hin'. destruct Hin' as [Hin' Hk].
      assert (s' = s) by (apply (unique_by_id (secrets w)); assumption).
      subst s'. rewrite Hexp in Hk. discriminate.
    + left. apply filter_In. split; [assumption|]. now rewrite Hexp.
Qed.

(** Whatever operations follow, as long as a row with the key of [s] exists
    the row under that key is [s], field for field. *)
Lemma stored_row_never_changes (cfg : Config) (ops : list Op) (w : World)
  (s : Secret) :
  keysUnique w ->
  In s (secrets w) ->
  alive (id s) (states cfg ops w) = true ->
  forall u s',
    In u (states cfg ops w) -> In s' (secrets u) -> id s' = id s -> s' = s.
Proof.
  revert w. induction ops as [|o rest IH]; intros w Hk Hin Halive u s' Hu Hs' He.
  - cbn [states] in Hu. destruct Hu as [<-|[]].
    apply (unique_by_id (secrets w)); assumption.
  - cbn [states] in Hu, Halive. unfold alive in Halive. cbn [forallb] in Halive.
    apply andb_true_iff in Halive. destruct Halive as [_ Hrest].
    destruct Hu as [<-|Hu].
    + apply (unique_by_id (secrets w)); assumption.
    + assert (Hnext : In s (secrets (exec cfg o w))).
      { destruct (exec_keeps_or_deletes cfg o w s Hk Hin) as [Hi|Hgone];
          [assumption|].
        exfalso. destruct rest; cbn [states forallb] in Hrest;
          apply andb_true_iff in Hrest; destruct Hrest as [Hh _]; congruence. }
      apply (IH (exec cfg o w) (exec_keysUnique cfg o w Hk) Hnext Hrest u);
        assumption.
Qed.

(* --------------------------------------------------------------------- *)
(** ** Lifetime                                                            *)
(* --------------------------------------------------------------------- *)

(** C6.  On each of the six routes: the call returns a reply; a request
    whose TTL is not in [VALID_TTL] is answered 400 and stores nothing; a row
    the call adds to the table, and in particular the row of a request
    answered 200, has [expiresAt] equal to [Date.now()] plus the TTL in
    milliseconds, the TTL being in [VALID_TTL]; and whatever operations of
    the process follow, as long as a row with that key exists its
    [expiresAt] is that same instant. *)
Theorem expiry_is_creation_plus_allowed_ttl :
  forall (cfg : Config) (env : ReqEnv) (r : CreateReq) (w : World),
    keysUnique w ->
    exists reply w',
      handle cfg env r w = (Returned reply, w')
      /\ ((forall ttl, requestedTtl r = Some ttl -> ~ In ttl VALID_TTL) ->
          status reply = 400 /\ w' = w)
      /\ (forall s, In s (secrets w') -> ~ In s (secrets w) ->
            exists ttl,
              requestedTtl r = Some ttl /\ In ttl VALID_TTL
              /\ expiresAt s = dateNow env + ttl * 1000)
      /\ (status reply = 200 ->
          exists ttl s,
            requestedTtl r = Some ttl /\ In ttl VALID_TTL
            /\ secrets w' = (secrets w ++ [s])%list
            /\ expiresAt s = dateNow env + ttl * 1000
            /\ forall ops u s',
                alive (id s) (states cfg ops w') = true ->
                In u (states cfg ops w') ->
                In s' (secrets u) -> id s' = id s ->
                expiresAt s' = dateNow env + ttl * 1000).
Proof.
  intros cfg env r w Hk.
  destruct (handle_cases cfg env r w)
    as [[reply0 [E0 Hs0]] | [ttl [mv [Hacc [[what [e E0]] | [[Hid [what [e E0]]] | [Hid E0]]]]]]];
    rewrite E0; eexists; eexists; (split; [reflexivity|]).
  - split; [intros _; split; [assumption|reflexivity]|].
    split; [intros s Hin Hnot; contradiction|].
    intros Hst. rewrite Hs0 in Hst. discriminate.
  - destruct Hacc as [Httl [Hin _]].
    split; [intros Hbad; exfalso; exact (Hbad ttl Httl Hin)|].
    split; [intros s Hs Hnot; contradiction|].
    intros Hst. discriminate.
  - destruct Hacc as [Httl [Hin _]].
    split; [intros Hbad; exfalso; exact (Hbad ttl Httl Hin)|].
    split; [|intros Hst; discriminate].
    intros s Hs Hnot. cbn [secrets addLog inserted setSecrets] in Hs.
    apply in_app_or in Hs. destruct Hs as [Hs|[<-|[]]]; [contradiction|].
    exists ttl. repeat split; assumption.
  - destruct Hacc as [Httl [Hin _]].
    split; [intros Hbad; exfalso; exact (Hbad ttl Httl Hin)|].
    split.
    + intros s Hs Hnot.
      cbn [secrets setStatistic inserted setSecrets] in Hs.
      apply in_app_or in Hs. destruct Hs as [Hs|[<-|[]]]; [contradiction|].
      exists ttl. repeat split; assumption.
    + intros _. exists ttl, (storedRow cfg env r ttl mv).
      split; [assumption|]. split; [assumption|].
      split; [reflexivity|]. split; [reflexivity|].
      intros ops u s' Halive Hu Hs' He.
      set (w1 := setStatistic (inserted w (storedRow cfg env r ttl mv))
                   (bumped (secrets_created w))) in *.
      assert (Hk1 : keysUnique w1).
      { unfold keysUnique, w1. cbn [secrets setStatistic inserted setSecrets].
        apply NoDup_map_snoc; assumption. }
      assert (Hin1 : In (storedRow cfg env r ttl mv) (secrets w1)).
      { unfold w1. cbn [secrets setStatistic inserted setSecrets].
        apply in_or_app. right. now left. }
      rewrite (stored_row_never_changes cfg ops w1 _ Hk1 Hin1 Halive u s'
                 Hu Hs' He).
      reflexivity.
Qed.

(* --------------------------------------------------------------------- *)
(** ** View budget                                                         *)
(* --------------------------------------------------------------------- *)

(** A row a route adds carries the view budget the request asked for, and
    that budget lies between 1 and the bound of the route: [maxViewsLimit]
    on the routes of [encrypt.js] and of the second revision of
    [password.js], the constant 999 on those of the first revision. *)
Lemma stored_maxViews_within_route_bound (cfg : Config) (env : ReqEnv)
  (r : CreateReq) (w : World) (s : Secret) :
  In s (secrets (snd (handle cfg env r w))) -> ~ In s (secrets w) ->
  requestedMaxViews r = Some (maxViews s)
  /\ 1 <= maxViews s <= viewsBound cfg r.
Proof.
  intros Hs Hnot.
  destruct (handle_secrets cfg env r w) as [E | [ttl [mv [Hacc [_ E]]]]];
    rewrite E in Hs; [contradiction|].
  apply in_app_or in Hs. destruct Hs as [Hs|[<-|[]]]; [contradiction|].
  destruct Hacc as [_ [_ [Hmv [Hr _]]]]. cbn [maxViews storedRow].
  split; assumption.
Qed.

End Creation.

(** C4 (fails on the first revision of [POST /api/password/generate]).  On
    an instance whose [maxViewsLimit] is 100, the body [{ "maxViews": 500 }]
    is answered 200 and a secret with [maxViews] 500 is stored; the second
    revision of the same route rejects that body. *)
Theorem passwordPostV1_exceeds_maxViewsLimit :
  maxViewsLimit defaultConfig = 100
  /\ (let res := handle (H := sampleCollaborators) defaultConfig sampleEnv
                   (ToPasswordPostV1 sampleConn views500Body) emptyWorld in
      (exists body, fst res = Returned (Reply200 body))
      /\ map maxViews (secrets (snd res)) = [500])
  /\ handle (H := sampleCollaborators) defaultConfig sampleEnv
        (ToPasswordPostV2 sampleConn views500Body) emptyWorld
     = (Returned SchemaRejected, emptyWorld).
Proof.
  split; [reflexivity|]. split; [|vm_compute; reflexivity].
  cbv zeta. split; [eexists|]; vm_compute; reflexivity.
Qed.

Lemma expiry_is_creation_plus_allowed_ttl_witness :
  keysUnique emptyWorld
  /\ exists reply w',
      handle (H := sampleCollaborators) defaultConfig sampleEnv
        (ToEncryptGet sampleConn hunterQuery) emptyWorld
      = (Returned reply, w')
      /\ forall s, In s (secrets w') -> ~ In s (secrets emptyWorld) ->
           exists ttl,
             requestedTtl (ToEncryptGet sampleConn hunterQuery) = Some ttl
             /\ In ttl (VALID_TTL (Collaborators := sampleCollaborators))
             /\ expiresAt s = dateNow sampleEnv + ttl * 1000.
Proof.
  split; [constructor|].
  destruct (expiry_is_creation_plus_allowed_ttl (H := sampleCollaborators)
              defaultConfig sampleEnv (ToEncryptGet sampleConn hunterQuery)
              emptyWorld (NoDup_nil _))
    as [reply [w' [E [_ [Hrow _]]]]].
  exists reply, w'. split; [exact E | exact Hrow].
Defined.

(* ===================================================================== *)
(** * Properties: burn policy                                              *)
(* ===================================================================== *)

Section BurnPolicy.
Context `{Collaborators}.

(** C3, as the code has it.  While [enableBurnAfterTime] is off, on the
    routes that read the policy: a request that asks for [preventBurn]
    false, in so many words or by leaving the property out, is answered 400
    and stores nothing; every row a call adds has [preventBurn] true; and a
    request answered 200 did not ask for [preventBurn] false. *)
Theorem burn_policy_off_rejects_or_coerces :
  forall (cfg : Config) (env : ReqEnv) (r : CreateReq) (w : World),
    enableBurnAfterTime cfg = false ->
    consultsBurnPolicy r = true ->
    exists reply w',
      handle cfg env r w = (Returned reply, w')
      /\ (asksToBurn r = true -> status reply = 400 /\ w' = w)
      /\ (forall s, In s (secrets w') -> ~ In s (secrets w) ->
                    preventBurn s = true)
      /\ (status reply = 200 ->
          asksToBurn r = false
          /\ exists s, secrets w' = (secrets w ++ [s])%list
                       /\ preventBurn s = true).
Proof.
  intros cfg env r w Hoff Hpol.
  assert (Hpb : forall ttl mv,
             preventBurn (storedRow cfg env r ttl mv) = true).
  { intros. cbn [preventBurn storedRow]. unfold storedPreventBurn.
    rewrite Hpol, Hoff. reflexivity. }
  destruct (handle_cases cfg env r w)
    as [[reply0 [E0 Hs0]] | [ttl [mv [Hacc [[what [e E0]] | [[Hid [what [e E0]]] | [Hid E0]]]]]]];
    rewrite E0; eexists; eexists; (split; [reflexivity|]).
  - split; [intros _; split; [assumption|reflexivity]|].
    split; [intros s Hin Hnot; contradiction|].
    intros Hst. rewrite Hs0 in Hst. discriminate.
  - destruct Hacc as [_ [_ [_ [_ Hask]]]]. specialize (Hask Hpol Hoff).
    split; [intros Hb; congruence|].
    split; [intros s Hs Hnot; contradiction|].
    intros Hst. discriminate.
  - destruct Hacc as [_ [_ [_ [_ Hask]]]]. specialize (Hask Hpol Hoff).
    split; [intros Hb; congruence|].
    split; [|intros Hst; discriminate].
    intros s Hs Hnot. cbn [secrets addLog inserted setSecrets] in Hs.
    apply in_app_or in Hs. destruct Hs as [Hs|[<-|[]]]; [contradiction|].
    apply Hpb.
  - destruct Hacc as [_ [_ [_ [_ Hask]]]]. specialize (Hask Hpol Hoff).
    split; [intros Hb; congruence|].
    split.
    + intros s Hs Hnot.
      cbn [secrets setStatistic inserted setSecrets] in Hs.
      apply in_app_or in Hs. destruct Hs as [Hs|[<-|[]]]; [contradiction|].
      apply Hpb.
    + intros _. split; [assumption|].
      exists (storedRow cfg env r ttl mv). split; [reflexivity | apply Hpb].
Qed.

End BurnPolicy.

(** C3 as stated does not hold: with the policy off, the request
    [{ "password": "hunter2" }], which the same instance accepts with the
    policy on, is answered 400 and nothing is stored. *)
Lemma burn_policy_off_rejects_default_request :
  enableBurnAfterTime noBurnConfig = false
  /\ status
       (match fst (handle (H := sampleCollaborators) defaultConfig sampleEnv
                     (ToEncryptPost sampleConn hunterBody) emptyWorld) with
        | Returned reply => reply
        | Threw _ => SchemaRejected
        end) = 200
  /\ handle (H := sampleCollaborators) noBurnConfig sampleEnv
       (ToEncryptPost sampleConn hunterBody) emptyWorld
     = (Returned (Reply400 msgBurnDisabled), emptyWorld).
Proof.
  split; [reflexivity|]. split; vm_compute; reflexivity.
Qed.

Lemma burn_policy_off_rejects_or_coerces_witness :
  exists reply w',
    handle (H := sampleCollaborators) noBurnConfig sampleEnv
      (ToEncryptPost sampleConn hunterKeepBody) emptyWorld
    = (Returned reply, w')
    /\ forall s, In s (secrets w') -> ~ In s (secrets emptyWorld) ->
                 preventBurn s = true.
Proof.
  destruct (burn_policy_off_rejects_or_coerces (H := sampleCollaborators)
              noBurnConfig sampleEnv
              (ToEncryptPost sampleConn hunterKeepBody) emptyWorld
              eq_refl eq_refl)
    as [reply [w' [E [_ [Hrow _]]]]].
  exists reply, w'. split; [exact E | exact Hrow].
Defined.

(* ===================================================================== *)
(** * Properties: what the server sees, stores and returns                 *)
(* ===================================================================== *)

Section Disclosure.
Context `{Collaborators}.


End Disclosure.



(* ===================================================================== *)
(** * Properties: the two revisions of POST /api/password/generate         *)
(* ===================================================================== *)

Section Revisions.
Context `{Collaborators}.

Lemma strictlyFalse_inv (v : jsval) : strictlyFalse v = true -> v = JBool false.
Proof. destruct v as [| |[|]| | |]; cbn; intros; congruence. Qed.

(** C10, as the code has it.  With "burn after time" enabled, a view budget
    within both bounds (999 and [maxViewsLimit]), [preventBurn] false or
    left out, and [showPassword] left out or a boolean, the two revisions
    decide alike,
    leave the same world behind, and answer with the same URL and key of
    the secret; the first always returns the password and the expiry as a
    date, the second returns the password only when [showPassword] is true
    and the expiry as text in the zone of Sydney. *)
Theorem password_revisions_agree_within_common_bounds :
  forall (cfg : Config) (env : ReqEnv) (c : Conn) (b : GenerateBody)
         (w : World),
    enableBurnAfterTime cfg = true ->
    withDefault 1 (b_maxViews b) <= 999 ->
    withDefault 1 (b_maxViews b) <= maxViewsLimit cfg ->
    strictlyFalse (orDefault (JBool false) (b_preventBurn b)) = true ->
    (b_showPassword b = JUndefined
     \/ exists s, b_showPassword b = JBool s) ->
    snd (passwordPostV1 cfg env c b w) = snd (passwordPostV2 cfg env c b w)
    /\ repliesAgree (showPasswordOf b)
         (fst (passwordPostV1 cfg env c b w))
         (fst (passwordPostV2 cfg env c b w)).
Proof.
  intros cfg env c b w Hen H999 Hlim Hpb Hsent.
  assert (Hshow : showPasswordSchema b = true).
  { unfold showPasswordSchema.
    destruct Hsent as [-> | [s ->]]; reflexivity. }
  apply strictlyFalse_inv in Hpb.
  assert (Hschema : generateBodySchema (maxViewsLimit cfg) b
                    = generateBodySchema 999 b).
  { unfold generateBodySchema. cbv zeta.
    apply Z.leb_le in H999, Hlim. rewrite H999, Hlim. reflexivity. }
  unfold passwordPostV1, passwordPostV2. rewrite Hschema, Hshow.
  rewrite andb_true_r.
  destruct (generateBodySchema 999 b) eqn:Hs; cbn [negb];
    [|split; reflexivity].
  cbv zeta.
  destruct (noCharacterSet _ _ _ _); [split; reflexivity|].
  destruct ((_ <? 4) || _); [split; reflexivity|].
  assert (Hin : inRange (Some (withDefault 1 (b_maxViews b))) 1
                  (maxViewsLimit cfg)
                = Some (withDefault 1 (b_maxViews b))).
  { unfold generateBodySchema in Hs. cbv zeta in Hs.
    repeat (apply andb_true_iff in Hs; destruct Hs as [Hs ?]).
    unfold inRange.
    assert (Hlo : (withDefault 1 (b_maxViews b) <? 1) = false)
      by (apply Z.ltb_ge; apply Z.leb_le; assumption).
    assert (Hhi : (withDefault 1 (b_maxViews b) >? maxViewsLimit cfg) = false)
      by (rewrite Z.gtb_ltb; apply Z.ltb_ge; assumption).
    rewrite Hlo, Hhi. reflexivity. }
  rewrite Hin, Hen, Hpb. cbn [negb andb].
  unfold finalPreventBurn. rewrite Hen.
  unfold tryCatch, bind, secretCreate, statisticUpsert, replyFailure,
    logError, ret.
  cbn [in_preventBurn preventBurnColumn in_maxViews].
  destruct (createFault (createEnv env)); [split; [reflexivity|]; cbn; auto|].
  destruct (negb (fitsInteger _)); [split; [reflexivity|]; cbn; auto|].
  destruct (hasId _ _); [split; [reflexivity|]; cbn; auto|].
  destruct (upsertFault env); [split; [reflexivity|]; cbn; auto|].
  split; [reflexivity|]. cbn [fst repliesAgree url secretId shownPassword
                               shownExpiresAt].
  split; [reflexivity|]. split; [reflexivity|].
  eexists; eexists. repeat split; reflexivity.
Qed.

End Revisions.

(** C10 as stated does not hold: called with the body [{}], the first
    revision returns the generated password and the second does not; on an
    instance whose [maxViewsLimit] is 100 the first revision accepts
    [{ "maxViews": 500 }], which the second rejects; and the first revision
    accepts [{ "showPassword": "yes" }], a property its schema does not
    name, which the schema of the second rejects. *)
Lemma password_revisions_differ :
  (exists b1 b2,
      fst (passwordPostV1 (H := sampleCollaborators) defaultConfig sampleEnv
             sampleConn emptyGenerateBody emptyWorld)
      = Returned (Reply200 b1)
      /\ fst (passwordPostV2 (H := sampleCollaborators) defaultConfig
                sampleEnv sampleConn emptyGenerateBody emptyWorld)
         = Returned (Reply200 b2)
      /\ shownPassword b1 = Some "Tr0ub4dor&3"
      /\ shownPassword b2 = None)
  /\ (exists b1,
         fst (passwordPostV1 (H := sampleCollaborators) defaultConfig
                sampleEnv sampleConn views500Body emptyWorld)
         = Returned (Reply200 b1))
  /\ fst (passwordPostV2 (H := sampleCollaborators) defaultConfig sampleEnv
            sampleConn views500Body emptyWorld)
     = Returned SchemaRejected
  /\ (exists b1,
         fst (passwordPostV1 (H := sampleCollaborators) defaultConfig
                sampleEnv sampleConn showYesBody emptyWorld)
         = Returned (Reply200 b1))
  /\ fst (passwordPostV2 (H := sampleCollaborators) defaultConfig sampleEnv
            sampleConn showYesBody emptyWorld)
     = Returned SchemaRejected.
Proof.
  split; [|split; [|split; [|split]]].
  - eexists; eexists. split; [vm_compute; reflexivity|].
    split; [vm_compute; reflexivity|]. split; reflexivity.
  - eexists. vm_compute. reflexivity.
  - vm_compute. reflexivity.
  - eexists. vm_compute. reflexivity.
  - vm_compute. reflexivity.
Qed.

Lemma password_revisions_agree_within_common_bounds_witness :
  snd (passwordPostV1 (H := sampleCollaborators) defaultConfig sampleEnv
         sampleConn emptyGenerateBody emptyWorld)
  = snd (passwordPostV2 (H := sampleCollaborators) defaultConfig sampleEnv
           sampleConn emptyGenerateBody emptyWorld).
Proof.
  refine (proj1 (password_revisions_agree_within_common_bounds
                   (H := sampleCollaborators) defaultConfig sampleEnv
                   sampleConn emptyGenerateBody emptyWorld eq_refl _ _
                   eq_refl (or_introl eq_refl))); cbn; lia.
Defined.

(* ===================================================================== *)
(** * Properties: the organisation e-mail gate                             *)
(* ===================================================================== *)

Lemma testPrefixCI_spec (p s : string) :
  JS.testPrefixCI p s = true
  <-> exists h rest,
        s = h ++ rest /\ lowerString h = p
        /\ JS.noLineTerminator rest = true.
Proof.
  revert s. induction p as [|c p IH]; intros s; cbn [JS.testPrefixCI].
  - split.
    + intros Hn. exists "", s. repeat split; assumption || reflexivity.
    + intros [h [rest [-> [Hl Hn]]]].
      destruct h; [assumption | discriminate].
  - destruct s as [|a s].
    + split; [discriminate|].
      intros [h [rest [He [Hl _]]]]. destruct h; discriminate.
    + rewrite andb_true_iff, IH, Ascii.eqb_eq. split.
      * intros [<- [h [rest [-> [<- Hn]]]]].
        exists (String a h), rest. repeat split; assumption || reflexivity.
      * intros [h [rest [He [Hl Hn]]]].
        destruct h as [|a' h]; [discriminate|].
        cbn in He, Hl. injection He as <- ->. injection Hl as Hc Hp.
        split; [assumption|]. exists h, rest.
        repeat split; assumption || reflexivity.
Qed.

(** [split] at commas and the comma-separated list. *)

Lemma split_nonempty (c : ascii) (s : string) : JS.split c s <> [].
Proof.
  destruct s as [|a s]; cbn [JS.split]; [discriminate|].
  destruct (Ascii.eqb a c); [discriminate|].
  destruct (JS.split c s); discriminate.
Qed.

Lemma split_pieces_plain (c : ascii) (s item : string) :
  In item (JS.split c s) -> hasChar c item = false.
Proof.
  revert item. induction s as [|a s IH]; intros item; cbn [JS.split].
  - intros [<-|[]]. reflexivity.
  - destruct (Ascii.eqb a c) eqn:Ha.
    + intros [<-|Hin]; [reflexivity | apply IH; assumption].
    + destruct (JS.split c s) as [|piece rest].
      * intros [<-|[]]. cbn [hasChar]. rewrite Ha. reflexivity.
      * intros [<-|Hin].
        -- cbn [hasChar]. rewrite Ha. apply IH. now left.
        -- apply IH. now right.
Qed.

Lemma join_split (s : string) : JS.join "," (JS.split "," s) = s.
Proof.
  induction s as [|a s IH]; [reflexivity|]. cbn [JS.split].
  pose proof (split_nonempty "," s) as Hne.
  destruct (Ascii.eqb a ",") eqn:Ha.
  - apply Ascii.eqb_eq in Ha. subst a.
    destruct (JS.split "," s) as [|p ps]; [contradiction|].
    change (JS.join "," ("" :: p :: ps))
      with ("" ++ "," ++ JS.join "," (p :: ps)).
    rewrite IH. reflexivity.
  - destruct (JS.split "," s) as [|p ps]; [contradiction|].
    destruct ps as [|q ps].
    + cbn [JS.join] in *. rewrite IH. reflexivity.
    + change (JS.join "," (String a p :: q :: ps))
        with (String a (p ++ "," ++ JS.join "," (q :: ps))).
      change (JS.join "," (p :: q :: ps))
        with (p ++ "," ++ JS.join "," (q :: ps)) in IH.
      rewrite IH. reflexivity.
Qed.

Lemma split_plain (c : ascii) (d : string) :
  hasChar c d = false -> JS.split c d = [d].
Proof.
  induction d as [|a d IH]; intros Hc; [reflexivity|].
  cbn [hasChar] in Hc. apply orb_false_iff in Hc. destruct Hc as [Ha Hd].
  cbn [JS.split]. rewrite Ha, (IH Hd). reflexivity.
Qed.

Lemma split_piece (c : ascii) (d rest : string) :
  hasChar c d = false ->
  JS.split c (d ++ String c rest) = d :: JS.split c rest.
Proof.
  induction d as [|a d IH]; intros Hc.
  - cbn [String.append JS.split]. rewrite Ascii.eqb_refl. reflexivity.
  - cbn [hasChar] in Hc. apply orb_false_iff in Hc. destruct Hc as [Ha Hd].
    cbn [String.append JS.split]. rewrite Ha, (IH Hd). reflexivity.
Qed.

Lemma split_join (ds : list string) :
  ds <> [] ->
  (forall d, In d ds -> hasChar "," d = false) ->
  JS.split "," (JS.join "," ds) = ds.
Proof.
  induction ds as [|d ds IH]; intros Hne Hall; [contradiction|].
  destruct ds as [|d' ds].
  - cbn [JS.join]. apply split_plain. apply Hall. now left.
  - change (JS.join "," (d :: d' :: ds))
      with (d ++ String "," (JS.join "," (d' :: ds))).
    rewrite split_piece by (apply Hall; now left).
    rewrite IH; [reflexivity | discriminate |].
    intros x Hx. apply Hall. now right.
Qed.

(** The items of a comma-separated text are what [split] returns. *)
Lemma commaSeparated_split (r : string) (items : list string) :
  commaSeparated r items <-> items = JS.split "," r.
Proof.
  unfold commaSeparated. split.
  - intros [Hne [Hplain <-]]. symmetry. apply split_join; assumption.
  - intros ->. split; [apply split_nonempty|].
    split; [intros item; apply split_pieces_plain | apply join_split].
Qed.

(** [trim] and the white space around a text. *)

Lemma trimStart_spec (s : string) :
  exists l,
    s = l ++ JS.trimStart s /\ allWhiteSpace l = true
    /\ startsClean (JS.trimStart s) = true.
Proof.
  induction s as [|a s [l [Hs [Hl Hc]]]].
  - exists "". repeat split.
  - cbn [JS.trimStart]. destruct (JS.isWhiteSpace a) eqn:Ha.
    + exists (String a l). cbn [String.append allWhiteSpace].
      rewrite <- Hs, Ha, Hl. repeat split. assumption.
    + exists "". cbn [String.append allWhiteSpace startsClean].
      rewrite Ha. repeat split.
Qed.

Lemma endsClean_cons (a : ascii) (d : string) :
  JS.nonEmpty d = true -> endsClean (String a d) = endsClean d.
Proof. destruct d; [discriminate | reflexivity]. Qed.

Lemma trimEnd_spec (s : string) :
  exists t,
    s = JS.trimEnd s ++ t /\ allWhiteSpace t = true
    /\ endsClean (JS.trimEnd s) = true
    /\ (startsClean s = true -> startsClean (JS.trimEnd s) = true).
Proof.
  induction s as [|a s [t [Hs [Ht [He _]]]]].
  - exists "". repeat split.
  - cbn [JS.trimEnd]. cbv zeta.
    destruct (JS.nonEmpty (JS.trimEnd s)) eqn:Hn; cbn [negb andb].
    + rewrite andb_false_r. exists t. cbn [String.append].
      rewrite <- Hs. split; [reflexivity|]. split; [assumption|].
      split; [rewrite endsClean_cons; assumption|].
      cbn [startsClean]. auto.
    + rewrite andb_true_r. destruct (JS.isWhiteSpace a) eqn:Ha.
      * exists (String a t). cbn [String.append allWhiteSpace].
        rewrite Ha, Ht.
        destruct (JS.trimEnd s); [|discriminate]. cbn in Hs. rewrite <- Hs.
        split; [reflexivity|]. split; [reflexivity|].
        split; [reflexivity|]. cbn [startsClean]. rewrite Ha. discriminate.
      * exists t. destruct (JS.trimEnd s); [|discriminate].
        cbn [String.append] in *.
        split; [f_equal; exact Hs|]. split; [assumption|].
        cbn [endsClean startsClean]. rewrite Ha. repeat split.
Qed.

Lemma trimStart_blank (l s : string) :
  allWhiteSpace l = true -> JS.trimStart (l ++ s) = JS.trimStart s.
Proof.
  induction l as [|a l IH]; intros Hl; [reflexivity|].
  cbn [allWhiteSpace] in Hl. apply andb_true_iff in Hl. destruct Hl as [Ha Hl].
  cbn [String.append JS.trimStart]. rewrite Ha. apply IH. assumption.
Qed.

Lemma trimStart_clean (s : string) :
  startsClean s = true -> JS.trimStart s = s.
Proof.
  destruct s as [|a s]; [reflexivity|]. cbn [startsClean JS.trimStart].
  intros Ha. apply negb_true_iff in Ha. rewrite Ha. reflexivity.
Qed.

Lemma trimEnd_blank (t : string) :
  allWhiteSpace t = true -> JS.trimEnd t = "".
Proof.
  induction t as [|a t IH]; intros Ht; [reflexivity|].
  cbn [allWhiteSpace] in Ht. apply andb_true_iff in Ht. destruct Ht as [Ha Ht].
  cbn [JS.trimEnd]. rewrite (IH Ht), Ha. reflexivity.
Qed.

Lemma trimEnd_clean (d t : string) :
  allWhiteSpace t = true -> endsClean d = true -> JS.trimEnd (d ++ t) = d.
Proof.
  intros Ht. induction d as [|a d IH]; intros Hd.
  - apply trimEnd_blank. assumption.
  - cbn [String.append JS.trimEnd]. cbv zeta.
    destruct d as [|b d].
    + cbn [String.append]. rewrite (trimEnd_blank t Ht).
      cbn [endsClean] in Hd. apply negb_true_iff in Hd. rewrite Hd.
      reflexivity.
    + rewrite IH by exact Hd. cbn [JS.nonEmpty negb]. rewrite andb_false_r.
      reflexivity.
Qed.

(** [trim] gives the text without the white space around it, and nothing
    else does. *)
Lemma trim_stripped (item d : string) :
  JS.trim item = d <-> stripped item d.
Proof.
  unfold JS.trim, stripped. split.
  - intros <-.
    destruct (trimStart_spec item) as [l [Hl [Hwl Hc]]].
    destruct (trimEnd_spec (JS.trimStart item)) as [t [Ht [Hwt [He Hs]]]].
    exists l, t. split; [rewrite <- Ht; exact Hl|].
    repeat split; auto.
  - intros [l [t [-> [Hl [Ht [Hs He]]]]]].
    rewrite (trimStart_blank l _ Hl).
    destruct d as [|a d].
    + cbn [String.append].
      assert (Hb : JS.trimStart t = "").
      { clear - Ht. induction t as [|a t IH]; [reflexivity|].
        cbn [allWhiteSpace] in Ht. apply andb_true_iff in Ht.
        destruct Ht as [Ha Ht]. cbn [JS.trimStart]. rewrite Ha. auto. }
      rewrite Hb. reflexivity.
    + rewrite trimStart_clean by exact Hs.
      apply trimEnd_clean; assumption.
Qed.

Section Gate.
Context `{Collaborators}.

Lemma existsb_domain (x : string) (l : list string) :
  existsb (fun domain => String.eqb (getEmailDomain domain) x) l = true
  <-> In x (map getEmailDomain l).
Proof.
  rewrite existsb_exists, in_map_iff. split.
  - intros [d [Hin He]]. apply String.eqb_eq in He. eauto.
  - intros [d [He Hin]]. exists d. split; [assumption|].
    apply String.eqb_eq. assumption.
Qed.

(** The verdict of the gate, as the code computes it. *)
Lemma gate_verdict (restrict : option string) (u : string)
  (bodyEmail : option string) :
  restrictOrganizationEmailHandler restrict u bodyEmail
  = Replied 403 errorMessage
  <-> exists r,
        restrict = Some r /\ r <> ""
        /\ authenticationRegexTest u = true
        /\ ~ In (getEmailDomain (withDefault "" bodyEmail))
               (map getEmailDomain (allowedDomains r)).
Proof.
  unfold restrictOrganizationEmailHandler.
  destruct restrict as [r|]; cbn [withDefault].
  - destruct r as [|a r]; cbn [JS.truthy JS.nonEmpty negb orb].
    + split; [discriminate|].
      intros [r' [[= <-] [Hne _]]]. now contradiction Hne.
    + destruct (authenticationRegexTest u) eqn:Hu; cbn [negb].
      * destruct (existsb _ _) eqn:Hex; cbn [negb].
        -- split; [discriminate|].
           intros [r' [[= <-] [_ [_ Hnot]]]].
           apply existsb_domain in Hex. contradiction.
        -- split; [|reflexivity].
           intros _. exists (String a r).
           split; [reflexivity|]. split; [discriminate|].
           split; [reflexivity|].
           intros Hin. apply existsb_domain in Hin. congruence.
      * split; [discriminate|].
        intros [r' [_ [_ [Hf _]]]]. discriminate.
  - cbn. split; [discriminate|]. intros [r' [Hr _]]. discriminate.
Qed.

(** When the entries of the setting are bare domains, which
    [getEmailDomain] leaves as they are, the domain of the e-mail is looked
    up among the entries themselves. *)
Lemma gate_verdict_bare_domains (r u : string) (bodyEmail : option string) :
  r <> "" ->
  (forall d, In d (allowedDomains r) -> getEmailDomain d = d) ->
  (restrictOrganizationEmailHandler (Some r) u bodyEmail
   = Replied 403 errorMessage
   <-> authenticationRegexTest u = true
       /\ ~ In (getEmailDomain (withDefault "" bodyEmail)) (allowedDomains r)).
Proof.
  intros Hne Hfix.
  assert (Hmap : map getEmailDomain (allowedDomains r) = allowedDomains r).
  { rewrite <- (map_id (allowedDomains r)) at 2.
    apply map_ext_in. exact Hfix. }
  rewrite gate_verdict. rewrite <- Hmap at 1. split.
  - intros [r' [[= <-] [_ [Hu Hnot]]]]. rewrite Hmap in Hnot.
    rewrite Hmap. split; assumption.
  - intros [Hu Hnot]. exists r. rewrite Hmap in Hnot. rewrite Hmap.
    repeat split; assumption.
Qed.

(** The entries the code reads from the setting are the entries of the
    comma-separated list. *)
Lemma allowedDomains_listed (r d : string) :
  In d (allowedDomains r) <-> listedEntry r d.
Proof.
  unfold allowedDomains, listedEntry. rewrite filter_In, in_map_iff. split.
  - intros [[item [Ht Hin]] Hn]. split; [intros ->; discriminate|].
    exists (JS.split "," r), item.
    split; [now apply commaSeparated_split|]. split; [assumption|].
    apply trim_stripped. assumption.
  - intros [Hne [items [item [Hsep [Hin Hst]]]]].
    apply commaSeparated_split in Hsep. subst items. split.
    + exists item. split; [now apply trim_stripped | assumption].
    + destruct d; [now contradiction Hne | reflexivity].
Qed.

Lemma allowedBy_In (r x : string) :
  allowedBy r x <-> In x (map getEmailDomain (allowedDomains r)).
Proof.
  unfold allowedBy. rewrite in_map_iff. split.
  - intros [d [Hl He]]. exists d. split; [assumption|].
    now apply allowedDomains_listed.
  - intros [d [He Hin]]. exists d. split; [|assumption].
    now apply allowedDomains_listed.
Qed.

(** C7.  The gate answers 403 exactly when the setting is a non-empty
    string, the URL matches the sign-up pattern (it starts, up to case, with
    [/api/authentication/signup]), and the domain of the e-mail of the
    request is not among the allowed domains: it is the domain of no entry
    of the comma-separated list, an entry being an item between commas
    without the white space around it, when something is left.  In every
    other case it lets the request through. *)
Theorem restrict_email_denies_iff :
  forall (restrict : option string) (u : string) (bodyEmail : option string),
    (restrictOrganizationEmailHandler restrict u bodyEmail
     = Replied 403 errorMessage
     <-> exists r,
           restrict = Some r /\ r <> ""
           /\ authenticationRegexTest u = true
           /\ ~ allowedBy r (getEmailDomain (withDefault "" bodyEmail)))
    /\ (restrictOrganizationEmailHandler restrict u bodyEmail = Continue
        \/ restrictOrganizationEmailHandler restrict u bodyEmail
           = Replied 403 errorMessage)
    /\ (authenticationRegexTest u = true
        <-> exists h rest,
              u = (h ++ rest)%string
              /\ lowerString h = "/api/authentication/signup"
              /\ JS.noLineTerminator rest = true).
Proof.
  intros restrict u bodyEmail.
  split; [|split; [|apply testPrefixCI_spec]].
  - rewrite gate_verdict. split.
    + intros [r [Hr [Hne [Hu Hnot]]]]. exists r.
      repeat (split; [assumption|]). rewrite allowedBy_In. assumption.
    + intros [r [Hr [Hne [Hu Hnot]]]]. exists r.
      repeat (split; [assumption|]). rewrite <- allowedBy_In. assumption.
  - unfold restrictOrganizationEmailHandler.
    destruct (_ || _); [now left|].
    destruct (negb _); [now right | now left].
Qed.

End Gate.

(** Two entries, the second after a blank: [corp.example] is allowed, a
    stranger's domain is not. *)
Example allowedBy_listed_entry :
  allowedBy (H := sampleCollaborators) "alice@example.org, corp.example"
    "corp.example"
  /\ ~ allowedBy (H := sampleCollaborators) "alice@example.org, corp.example"
        "elsewhere.example".
Proof.
  rewrite !(allowedBy_In (H := sampleCollaborators)). split.
  - vm_compute. auto.
  - vm_compute. intros [Hc | [Hc | []]]; discriminate Hc.
Qed.

(* ===================================================================== *)
(** * Properties: a failing sweep                                          *)
(* ===================================================================== *)

Lemma sameTables_refl (w : World) : sameTables w w.
Proof. split; reflexivity. Qed.

Lemma sameTables_addLog (w : World) (line : string) :
  sameTables (addLog w line) w.
Proof. split; reflexivity. Qed.

Lemma respects_ret {A} (a : A) : respects (ret a).
Proof. intros w1 w2 Hs. split; [reflexivity | exact Hs]. Qed.

Lemma respects_bind {A B} (m : M A) (k : A -> M B) :
  respects m -> (forall a, respects (k a)) -> respects (bind m k).
Proof.
  intros Hm Hk w1 w2 Hs. unfold bind.
  specialize (Hm w1 w2 Hs).
  destruct (m w1) as [o1 v1], (m w2) as [o2 v2]. cbn [fst snd] in Hm.
  destruct Hm as [-> Hv]. destruct o2 as [a|e].
  - apply Hk. assumption.
  - split; [reflexivity | assumption].
Qed.

Lemma respects_tryCatch {A} (m : M A) (h : Err -> M A) :
  respects m -> (forall e, respects (h e)) -> respects (tryCatch m h).
Proof.
  intros Hm Hh w1 w2 Hs. unfold tryCatch.
  specialize (Hm w1 w2 Hs).
  destruct (m w1) as [o1 v1], (m w2) as [o2 v2]. cbn [fst snd] in Hm.
  destruct Hm as [-> Hv]. destruct o2 as [a|e].
  - split; [reflexivity | assumption].
  - apply Hh. assumption.
Qed.

Lemma respects_logError (line : string) : respects (logError line).
Proof. intros w1 w2 Hs. split; [reflexivity | exact Hs]. Qed.

Lemma respects_replyFailure (what : string) (e : Err) :
  respects (replyFailure what e).
Proof.
  unfold replyFailure. apply respects_bind;
    [apply respects_logError | intros; apply respects_ret].
Qed.

Lemma respects_secretCreate (ce : CreateEnv) (d : SecretInput) :
  respects (secretCreate ce d).
Proof.
  intros w1 w2 [Hs Hc]. unfold secretCreate. rewrite Hs.
  destruct (createFault ce); [split; [reflexivity | split; assumption]|].
  destruct (preventBurnColumn _); [|split; [reflexivity | split; assumption]].
  destruct (negb _); [split; [reflexivity | split; assumption]|].
  destruct (hasId _ _); [split; [reflexivity | split; assumption]|].
  split; [reflexivity|]. split; cbn; [reflexivity | assumption].
Qed.

Lemma respects_statisticUpsert (f : option Err) :
  respects (statisticUpsert f).
Proof.
  intros w1 w2 [Hs Hc]. unfold statisticUpsert.
  destruct f; [split; [reflexivity | split; assumption]|].
  rewrite Hc. split; [reflexivity|]. split; cbn; [assumption | reflexivity].
Qed.

Lemma respects_deleteMany (f : option Err) (now : Z) :
  respects (secretDeleteManyExpired f now).
Proof.
  intros w1 w2 [Hs Hc]. unfold secretDeleteManyExpired.
  destruct f; [split; [reflexivity | split; assumption]|].
  rewrite Hs. split; [reflexivity|]. split; cbn; [reflexivity | assumption].
Qed.

Lemma respects_dbCleaner (te : TickEnv) : respects (dbCleaner te).
Proof.
  unfold dbCleaner. apply respects_tryCatch.
  - apply respects_bind; [apply respects_deleteMany | intros; apply respects_ret].
  - intros. apply respects_logError.
Qed.

Section Containment.
Context `{Collaborators}.

Ltac respects_step :=
  first
    [ apply respects_ret
    | apply respects_replyFailure
    | apply respects_secretCreate
    | apply respects_statisticUpsert
    | apply respects_tryCatch
    | apply respects_bind
    | match goal with
      | |- forall _, _ => intro
      | |- respects (if ?b then _ else _) => destruct b
      | |- respects (match ?x with Some _ => _ | None => _ end) => destruct x
      end ].

(** The routes do not read the log. *)
Lemma respects_handle (cfg : Config) (env : ReqEnv) (r : CreateReq) :
  respects (handle cfg env r).
Proof.
  destruct r; cbn [handle];
    unfold encryptPost, encryptGet, passwordPostV1, passwordGetV1,
      passwordPostV2, passwordGetV2;
    cbv zeta; repeat respects_step.
Qed.

(** C8.  A run of the sweeper whose store call throws returns normally,
    having written one line to the log and left every table as it was; no
    sequence of runs ever ends in an exception; the next run, and every
    request handled afterwards, gives the result and has the effect on the
    tables that it would have had without the failure; and the timer goes on
    to the runs that follow. *)
Theorem sweeper_failure_is_contained :
  forall (te : TickEnv) (e : Err) (w : World),
    tickFault te = Some e ->
    dbCleaner te w
    = (Returned tt,
       addLog w (message e ++ " Nothing to delete from the database"))
    /\ sameTables (snd (dbCleaner te w)) w
    /\ (forall t envs w0, fst (runTicks t envs w0) = Returned tt)
    /\ (forall te',
          fst (dbCleaner te' (snd (dbCleaner te w))) = fst (dbCleaner te' w)
          /\ sameTables (snd (dbCleaner te' (snd (dbCleaner te w))))
               (snd (dbCleaner te' w)))
    /\ (forall cfg env r,
          fst (handle cfg env r (snd (dbCleaner te w)))
          = fst (handle cfg env r w)
          /\ sameTables (snd (handle cfg env r (snd (dbCleaner te w))))
               (snd (handle cfg env r w)))
    /\ (forall rest,
          runTicks sweeperTimer (te :: rest) w
          = runTicks sweeperTimer rest (snd (dbCleaner te w))).
Proof.
  intros te e w Hf. rewrite (dbCleaner_fault te w e Hf). cbn [snd].
  split; [reflexivity|].
  split; [apply sameTables_addLog|].
  split; [intros; apply runTicks_returns|].
  split; [intros te'; apply respects_dbCleaner, sameTables_addLog|].
  split; [intros cfg env r; apply respects_handle, sameTables_addLog|].
  intros rest. cbn [runTicks]. unfold bind, fire. cbn [callback sweeperTimer].
  rewrite (dbCleaner_fault te w e Hf). reflexivity.
Qed.

End Containment.

Lemma sweeper_failure_is_contained_witness :
  dbCleaner (mkTickEnv 1000 (Some (mkErr "connection refused")))
    (mkWorld [sampleSecret "a" 5 true 1000] None [])
  = (Returned tt,
     mkWorld [sampleSecret "a" 5 true 1000] None
       ["connection refused Nothing to delete from the database"]).
Proof.
  exact (proj1 (sweeper_failure_is_contained (H := sampleCollaborators)
                  (mkTickEnv 1000 (Some (mkErr "connection refused")))
                  (mkErr "connection refused")
                  (mkWorld [sampleSecret "a" 5 true 1000] None [])
                  eq_refl)).
Defined.

(* ===================================================================== *)
(** * Properties: concurrent calls of consume                              *)
(* ===================================================================== *)

Module ViewConsumerProofs.
Import ViewConsumer.
Local Open Scope nat_scope.

Lemma find_hd {A} (p : A -> bool) (l : list A) :
  find p l = hd_error (filter p l).
Proof.
  induction l as [|a l IH]; [reflexivity|].
  cbn [find filter]. destruct (p a); [reflexivity | exact IH].
Qed.

Lemma getSecret_rows (i : string) (st : Store) :
  getSecret i st = hd_error (rowsOf i st).
Proof. apply find_hd. Qed.

Lemma existsb_rows (i : string) (st : Store) :
  existsb (hasKey i) st = match rowsOf i st with [] => false | _ => true end.
Proof.
  unfold rowsOf. induction st as [|a st IH]; [reflexivity|].
  cbn [existsb filter]. destruct (hasKey i a); [reflexivity | exact IH].
Qed.

Lemma hasKey_eq (i : string) (r r' : Row) :
  hasKey i r = true -> hasKey i r' = true -> rowId r = rowId r'.
Proof.
  unfold hasKey. intros H1 H2. apply String.eqb_eq in H1, H2. congruence.
Qed.

Lemma rows_unique (i : string) (st : Store) :
  oneRowPerKey st -> (List.length (rowsOf i st) <= 1)%nat.
Proof.
  unfold oneRowPerKey, rowsOf. induction st as [|a st IH]; intros Hnd; [cbn; lia|].
  cbn [map] in Hnd. inversion Hnd as [|x xs Hnot Hnd']; subst.
  cbn [filter]. destruct (hasKey i a) eqn:Ha; [|apply IH; assumption].
  assert (Hnil : filter (hasKey i) st = []).
  { destruct (filter (hasKey i) st) as [|b rest] eqn:Hf; [reflexivity|].
    exfalso. assert (Hb : In b (filter (hasKey i) st)) by (rewrite Hf; now left).
    apply filter_In in Hb. destruct Hb as [Hin Hk].
    apply Hnot. rewrite (hasKey_eq i a b Ha Hk). apply in_map. assumption. }
  rewrite Hnil. cbn. lia.
Qed.

Lemma rows_replace (i : string) (r r' : Row) (st : Store) :
  rowsOf i st = [r] -> hasKey i r' = true ->
  rowsOf i (replaceRow i r' st) = [r'].
Proof.
  unfold rowsOf. induction st as [|a st IH]; intros Hr Hk; [discriminate|].
  cbn [replaceRow filter] in *. destruct (hasKey i a) eqn:Ha.
  - injection Hr as -> Hrest. cbn [filter]. rewrite Hk, Hrest. reflexivity.
  - cbn [filter]. rewrite Ha. apply IH; assumption.
Qed.

Lemma rows_delete (i : string) (st : Store) :
  rowsOf i (filter (fun r => negb (hasKey i r)) st) = [].
Proof.
  unfold rowsOf. induction st as [|a st IH]; [reflexivity|].
  cbn [filter]. destruct (hasKey i a) eqn:Ha; cbn [negb]; [exact IH|].
  cbn [filter]. rewrite Ha. exact IH.
Qed.

Lemma filter_comm {A} (p q : A -> bool) (l : list A) :
  filter p (filter q l) = filter q (filter p l).
Proof.
  induction l as [|a l IH]; [reflexivity|].
  cbn [filter]. destruct (p a) eqn:Hp, (q a) eqn:Hq; cbn [filter];
    rewrite ?Hp, ?Hq, IH; reflexivity.
Qed.

Lemma filter_andb {A} (p q : A -> bool) (l : list A) :
  filter (fun x => p x && q x) l = filter q (filter p l).
Proof.
  induction l as [|a l IH]; [reflexivity|].
  cbn [filter]. destruct (p a); cbn [andb filter];
    [destruct (q a); rewrite IH; reflexivity | exact IH].
Qed.

Lemma rows_sweep (i : string) (now : Z) (st : Store) :
  rowsOf i (filter (fun r => negb (isExpired now r)) st)
  = filter (fun r => negb (isExpired now r)) (rowsOf i st).
Proof. unfold rowsOf. apply filter_comm. Qed.

Lemma setNth_length {A} (t : nat) (x : A) (l : list A) :
  List.length (setNth t x l) = List.length l.
Proof.
  revert t. induction l as [|a l IH]; intros [|t]; cbn; auto.
Qed.

Lemma nth_error_setNth_same {A} (t : nat) (x c : A) (l : list A) :
  nth_error l t = Some c -> nth_error (setNth t x l) t = Some x.
Proof.
  revert t. induction l as [|a l IH]; intros [|t]; cbn; try discriminate; auto.
Qed.

Lemma nth_error_setNth_other {A} (t t' : nat) (x : A) (l : list A) :
  t <> t' -> nth_error (setNth t' x l) t = nth_error l t.
Proof.
  revert t t'. induction l as [|a l IH]; intros [|t] [|t'] Hne; cbn;
    try reflexivity; try congruence.
  apply IH. congruence.
Qed.

Lemma count_setNth (p : Caller -> bool) (t : nat) (c c' : Caller)
  (l : list Caller) :
  nth_error l t = Some c ->
  count p (setNth t c' l) + b2n (p c) = count p l + b2n (p c').
Proof.
  unfold count. revert t. induction l as [|a l IH]; intros [|t] Hn; cbn in Hn;
    try discriminate.
  - injection Hn as ->. cbn [setNth filter].
    destruct (p c), (p c'); cbn [List.length b2n]; lia.
  - cbn [setNth filter]. specialize (IH t Hn).
    destruct (p a); cbn [List.length]; lia.
Qed.

Lemma count_repeat_Ready (p : Caller -> bool) (k : nat) :
  p Ready = false -> count p (repeat Ready k) = 0.
Proof.
  intros Hp. unfold count. induction k as [|k IH]; [reflexivity|].
  cbn [repeat filter]. rewrite Hp. exact IH.
Qed.

Lemma count_in_pos (p : Caller -> bool) (t : nat) (c : Caller)
  (l : list Caller) :
  nth_error l t = Some c -> p c = true -> 1 <= count p l.
Proof.
  unfold count. revert t. induction l as [|a l IH]; intros [|t] Hn Hp;
    cbn in Hn; try discriminate.
  - injection Hn as ->. cbn [filter]. rewrite Hp. cbn. lia.
  - cbn [filter]. specialize (IH t Hn Hp). destruct (p a); cbn; lia.
Qed.

Section Invariant.
Variables (i : string) (n : nat) (pb : bool) (expiry : Z).

Lemma Inv_act (a : Action) (s : System) :
  Inv i n pb expiry s -> Inv i n pb expiry (act i a s).
Proof.
  intros HI. destruct a as [t | now]; cbn [act].
  - destruct (nth_error (callers s) t) as [c|] eqn:Hn; [|exact HI].
    destruct c as [| p | o].
    + (* the conditional update *)
      cbn [stepCaller]. unfold atomicConsumeView. rewrite getSecret_rows.
      unfold Inv in HI.
      destruct (rowsOf i (store s)) as [|r [|r2 rest]] eqn:Hrows;
        [| |contradiction]; cbn [hd_error].
      * (* no row *)
        unfold Inv. cbn [store callers burned swept]. rewrite Hrows.
        unfold successes in *. cbn [callers].
        pose proof (count_setNth gotPayload t Ready
                      (Finished (Deny DenyNotFound)) _ Hn) as Hg.
        pose proof (count_setNth isBurning t Ready
                      (Finished (Deny DenyNotFound)) _ Hn) as Hb.
        cbn [gotPayload isBurning b2n] in Hg, Hb.
        rewrite ?Nat.add_0_r in *. rewrite Hg, Hb. exact HI.
      * destruct HI as [Hpb [Hexp [Hbu [Hsw [Hsum [Hburn Hden]]]]]].
        destruct (Nat.ltb 0 (remainingViews r)) eqn:Hpos.
        -- (* decrement *)
           apply Nat.ltb_lt in Hpos.
           assert (Hk : hasKey i (decremented r) = true).
           { assert (Hin : In r (rowsOf i (store s)))
               by (rewrite Hrows; now left).
             apply filter_In in Hin. exact (proj2 Hin). }
           pose proof (rows_replace i r (decremented r) (store s) Hrows Hk)
             as Hrows'.
           assert (Hb0 : count isBurning (callers s) = 0).
           { rewrite Hburn.
             destruct (Nat.eqb (remainingViews r) 0) eqn:Hz;
               [apply Nat.eqb_eq in Hz; lia | reflexivity]. }
           cbn [remainingViews decremented preventBurn ciphertext].
           rewrite Hpb.
           destruct (Nat.eqb (Nat.pred (remainingViews r)) 0 && negb pb)
             eqn:Hlast; unfold Inv; cbn [store callers burned swept];
             rewrite Hrows'; cbn [decremented preventBurn expiresAt
                                    remainingViews];
             unfold successes in *; cbn [callers].
           ++ pose proof (count_setNth gotPayload t Ready
                            (Burning (ciphertext r)) _ Hn) as Hg.
              pose proof (count_setNth isBurning t Ready
                            (Burning (ciphertext r)) _ Hn) as Hb.
              pose proof (count_setNth isDenied t Ready
                            (Burning (ciphertext r)) _ Hn) as Hd.
              cbn [gotPayload isBurning isDenied b2n] in Hg, Hb, Hd.
              rewrite Hlast. cbn [b2n].
              repeat split; try assumption; try lia.
           ++ pose proof (count_setNth gotPayload t Ready
                            (Finished (Payload (ciphertext r))) _ Hn) as Hg.
              pose proof (count_setNth isBurning t Ready
                            (Finished (Payload (ciphertext r))) _ Hn) as Hb.
              pose proof (count_setNth isDenied t Ready
                            (Finished (Payload (ciphertext r))) _ Hn) as Hd.
              cbn [gotPayload isBurning isDenied b2n] in Hg, Hb, Hd.
              rewrite Hlast. cbn [b2n].
              repeat split; try assumption; try lia.
        -- (* exhausted *)
           apply Nat.ltb_ge in Hpos.
           unfold Inv. cbn [store callers burned swept]. rewrite Hrows.
           unfold successes in *. cbn [callers].
           pose proof (count_setNth gotPayload t Ready
                         (Finished (Deny DenyExhausted)) _ Hn) as Hg.
           pose proof (count_setNth isBurning t Ready
                         (Finished (Deny DenyExhausted)) _ Hn) as Hb.
           cbn [gotPayload isBurning b2n] in Hg, Hb.
           repeat split; try assumption; try lia.
    + (* the conditional delete *)
      cbn [stepCaller deleteIfExists].
      rewrite existsb_rows.
      pose proof (count_setNth gotPayload t (Burning p)
                    (Finished (Payload p)) _ Hn) as Hg.
      pose proof (count_setNth isBurning t (Burning p)
                    (Finished (Payload p)) _ Hn) as Hb.
      pose proof (count_in_pos isBurning t (Burning p) _ Hn eq_refl) as Hone.
      cbn [gotPayload isBurning b2n] in Hg, Hb.
      unfold Inv in *. cbn [store callers burned swept].
      rewrite rows_delete. unfold successes in *. cbn [callers].
      destruct (rowsOf i (store s)) as [|r [|r2 rest]] eqn:Hrows;
        [| |contradiction].
      * destruct HI as [Hsum [Hle [Hb1 Hsw]]].
        repeat split; try lia.
        all: intros Hz; assert (Hz' : swept s = 0) by lia;
          destruct (Hsw Hz') as [_ [_ Hb0]]; lia.
      * destruct HI as [Hpb [Hexp [Hbu [Hsw [Hsum [Hburn Hden]]]]]].
        destruct (Nat.eqb (remainingViews r) 0 && negb pb) eqn:Hlast;
          cbn [b2n] in Hburn; [|lia].
        apply andb_true_iff in Hlast. destruct Hlast as [Hz Hnpb].
        apply Nat.eqb_eq in Hz. apply negb_true_iff in Hnpb.
        repeat split; try lia; assumption.
    + (* already returned *)
      cbn [stepCaller]. unfold Inv in *. cbn [store callers burned swept].
      assert (Hsame : setNth t (Finished o) (callers s) = callers s).
      { clear -Hn. revert t Hn. induction (callers s) as [|a l IH];
          intros [|t] Hn; cbn in *; try discriminate.
        - injection Hn as ->. reflexivity.
        - f_equal. apply IH. assumption. }
      unfold successes in *. cbn [callers]. rewrite Hsame, !Nat.add_0_r.
      exact HI.
  - (* the sweeper *)
    cbn [deleteExpiredBatch]. unfold Inv in *.
    cbn [store callers burned swept]. rewrite rows_sweep.
    rewrite filter_andb. fold (rowsOf i (store s)).
    unfold successes in *. cbn [callers].
    destruct (rowsOf i (store s)) as [|r [|r2 rest]] eqn:Hrows;
      [| |contradiction].
    + cbn [filter List.length]. rewrite Nat.add_0_r. exact HI.
    + destruct HI as [Hpb [Hexp [Hbu [Hsw [Hsum [Hburn Hden]]]]]].
      cbn [filter]. destruct (isExpired now r); cbn [negb List.length].
      * repeat split; try lia.
        rewrite Hburn. destruct (_ && _); cbn; lia.
      * rewrite Nat.add_0_r. repeat split; assumption.
Qed.

Lemma Inv_run (sched : list Action) (s : System) :
  Inv i n pb expiry s -> Inv i n pb expiry (run i sched s).
Proof.
  revert s. induction sched as [|a rest IH]; intros s HI; [exact HI|].
  cbn [run]. apply IH, Inv_act, HI.
Qed.


(** Sweeps that come before the expiry of the row delete nothing. *)
Lemma quiet_act (a : Action) (s : System) :
  Inv i n pb expiry s -> beforeExpiry expiry a = true ->
  swept s = 0 -> swept (act i a s) = 0.
Proof.
  intros HI Hq Hz. destruct a as [t | now]; cbn [act].
  - destruct (nth_error (callers s) t) as [c|]; [|exact Hz].
    destruct (stepCaller i c (store s)) as [[c' st'] dl]. exact Hz.
  - cbn [deleteExpiredBatch swept]. rewrite filter_andb.
    fold (rowsOf i (store s)). unfold Inv in HI.
    destruct (rowsOf i (store s)) as [|r [|r2 rest]]; [| |contradiction].
    + cbn. lia.
    + destruct HI as [_ [Hexp _]]. cbn [filter beforeExpiry] in *.
      unfold isExpired. rewrite Hexp.
      apply Z.ltb_lt in Hq. apply Z.leb_gt in Hq. rewrite Hq. cbn. lia.
Qed.

Lemma quiet_run (sched : list Action) (s : System) :
  Inv i n pb expiry s -> forallb (beforeExpiry expiry) sched = true ->
  swept s = 0 -> swept (run i sched s) = 0.
Proof.
  revert s. induction sched as [|a rest IH]; intros s HI Hq Hz; [exact Hz|].
  cbn [run forallb] in *. apply andb_true_iff in Hq. destruct Hq as [Ha Hr].
  apply IH; [apply Inv_act; assumption | assumption |].
  apply quiet_act; assumption.
Qed.

End Invariant.

Lemma act_length (i : string) (a : Action) (s : System) :
  List.length (callers (act i a s)) = List.length (callers s).
Proof.
  destruct a as [t | now]; cbn [act].
  - destruct (nth_error (callers s) t) as [c|]; [|reflexivity].
    destruct (stepCaller i c (store s)) as [[c' st'] dl]. cbn [callers].
    apply setNth_length.
  - reflexivity.
Qed.

Lemma run_length (i : string) (sched : list Action) (s : System) :
  List.length (callers (run i sched s)) = List.length (callers s).
Proof.
  revert s. induction sched as [|a rest IH]; intros s; [reflexivity|].
  cbn [run]. rewrite IH. apply act_length.
Qed.

Lemma run_app (i : string) (s1 s2 : list Action) (s : System) :
  run i (s1 ++ s2) s = run i s2 (run i s1 s).
Proof.
  revert s. induction s1 as [|a rest IH]; intros s; [reflexivity|].
  cbn [app run]. apply IH.
Qed.

(** Counting among callers that have all returned. *)
Lemma finished_counts (l : list Caller) :
  forallb isFinished l = true ->
  count isBurning l = 0
  /\ count gotPayload l = count returnedPayload l
  /\ count returnedPayload l + count isDenied l = List.length l.
Proof.
  unfold count. induction l as [|c l IH]; intros Hall; [cbn; auto|].
  cbn [forallb] in Hall. apply andb_true_iff in Hall.
  destruct Hall as [Hc Hl]. destruct (IH Hl) as [H1 [H2 H3]].
  destruct c as [| p | [p | why]]; try discriminate; cbn; lia.
Qed.

Lemma Inv_start (i : string) (st : Store) (row : Row) (k : nat) :
  oneRowPerKey st -> getSecret i st = Some row ->
  1 <= remainingViews row ->
  Inv i (remainingViews row) (preventBurn row) (expiresAt row) (start st k).
Proof.
  intros Hk Hget Hpos. unfold Inv, start. cbn [store callers burned swept].
  pose proof (rows_unique i st Hk) as Hlen.
  rewrite getSecret_rows in Hget.
  destruct (rowsOf i st) as [|r [|r2 rest]]; cbn in Hget, Hlen;
    [discriminate | | lia].
  injection Hget as ->. unfold successes. cbn [callers].
  rewrite !count_repeat_Ready by reflexivity.
  repeat split; try reflexivity.
  destruct (Nat.eqb (remainingViews row) 0) eqn:Hz;
    [apply Nat.eqb_eq in Hz; lia | reflexivity].
Qed.

(** Every turn moves a caller one point on, up to its return. *)
Lemma act_rank (i : string) (a : Action) (s : System) (t : nat) (c : Caller) :
  nth_error (callers s) t = Some c ->
  exists c', nth_error (callers (act i a s)) t = Some c'
             /\ Nat.min 2 (rank c + turns t [a]) <= rank c'.
Proof.
  intros Hn. destruct a as [t' | now]; cbn [act turns].
  - destruct (nth_error (callers s) t') as [c0|] eqn:Hn'.
    + destruct (stepCaller i c0 (store s)) as [[c1 st'] dl] eqn:Hstep.
      cbn [callers]. destruct (Nat.eqb t' t) eqn:Ht.
      * apply Nat.eqb_eq in Ht. subst t'. rewrite Hn in Hn'.
        injection Hn' as <-.
        exists c1. split; [eapply nth_error_setNth_same; eassumption|].
        destruct c as [| p | o]; cbn [stepCaller] in Hstep.
        -- destruct (atomicConsumeView i (store s)) as [[r | |] st1];
             [destruct (_ && _)| |]; injection Hstep as <- _ _; cbn; lia.
        -- injection Hstep as <- _ _. cbn; lia.
        -- injection Hstep as <- _ _. cbn; lia.
      * apply Nat.eqb_neq in Ht. exists c.
        split; [rewrite nth_error_setNth_other by congruence; assumption|].
        cbn [b2n]. lia.
    + exists c. split; [assumption|]. destruct (Nat.eqb t' t) eqn:Ht.
      * apply Nat.eqb_eq in Ht. subst t'. congruence.
      * cbn [b2n]. lia.
  - exists c. split; [assumption|]. lia.
Qed.

Lemma run_rank (i : string) (sched : list Action) (s : System) (t : nat)
  (c : Caller) :
  nth_error (callers s) t = Some c ->
  exists c', nth_error (callers (run i sched s)) t = Some c'
             /\ Nat.min 2 (rank c + turns t sched) <= rank c'.
Proof.
  revert s c. induction sched as [|a rest IH]; intros s c Hn.
  - exists c. split; [assumption|]. cbn [turns]. lia.
  - cbn [run]. destruct (act_rank i a s t c Hn) as [c1 [Hn1 Hr1]].
    destruct (IH (act i a s) c1 Hn1) as [c2 [Hn2 Hr2]].
    exists c2. split; [assumption|].
    assert (Ht : turns t (a :: rest) = turns t [a] + turns t rest).
    { destruct a; cbn [turns]; lia. }
    rewrite Ht. lia.
Qed.

Lemma turns_app (t : nat) (s1 s2 : list Action) :
  turns t (s1 ++ s2) = turns t s1 + turns t s2.
Proof.
  induction s1 as [|a rest IH]; [reflexivity|].
  destruct a; cbn [app turns]; lia.
Qed.

Lemma turns_round (t a k : nat) :
  a <= t < a + k -> turns t (map Run (seq a k)) = 1.
Proof.
  revert a. induction k as [|k IH]; intros a Hr; [lia|].
  cbn [seq map turns]. destruct (Nat.eqb a t) eqn:Hat.
  - apply Nat.eqb_eq in Hat. subst a. cbn [b2n].
    assert (Hz : turns t (map Run (seq (S t) k)) = 0).
    { clear. generalize (Nat.lt_succ_diag_r t). generalize (S t) as a.
      induction k as [|k IH]; intros a Hlt; [reflexivity|].
      cbn [seq map turns].
      destruct (Nat.eqb a t) eqn:E; [apply Nat.eqb_eq in E; lia|].
      cbn [b2n]. apply IH. lia. }
    lia.
  - apply Nat.eqb_neq in Hat. cbn [b2n]. rewrite IH by lia. lia.
Qed.

(** The interleaving [twoRounds] brings every caller to its return. *)
Lemma twoRounds_finishes (i : string) (st : Store) (k : nat) :
  allFinished (run i (twoRounds k) (start st k)) = true.
Proof.
  unfold allFinished. apply forallb_forall. intros c Hin.
  apply In_nth_error in Hin. destruct Hin as [t Ht].
  assert (Hlt : t < k).
  { assert (Hl : t < List.length (callers (run i (twoRounds k) (start st k))))
      by (apply nth_error_Some; congruence).
    rewrite run_length in Hl. cbn [start callers] in Hl.
    rewrite repeat_length in Hl. exact Hl. }
  assert (H0 : nth_error (callers (start st k)) t = Some Ready).
  { cbn [start callers]. rewrite nth_error_repeat by assumption. reflexivity. }
  destruct (run_rank i (twoRounds k) _ t Ready H0) as [c' [Hn' Hr]].
  rewrite Ht in Hn'. injection Hn' as <-.
  unfold twoRounds in Hr. rewrite turns_app, !turns_round in Hr by lia.
  destruct c; cbn in Hr; [lia | lia | reflexivity].
Qed.

Lemma twoRounds_quiet (expiry : Z) (k : nat) :
  forallb (beforeExpiry expiry) (twoRounds k) = true.
Proof.
  unfold twoRounds. rewrite forallb_app.
  assert (H : forallb (beforeExpiry expiry) (map Run (seq 0 k)) = true).
  { apply forallb_forall. intros a Ha. apply in_map_iff in Ha.
    destruct Ha as [t [<- _]]. reflexivity. }
  rewrite H. reflexivity.
Qed.

(** C1.  [k] calls of [consume] on the key of a secret with [n] views,
    interleaved in any way with each other and with runs of the expiry
    sweeper.  At every point at most [n] calls have been handed the payload
    and the row has been physically deleted at most once.  When no sweep
    finds the row expired and all calls have returned, exactly [min n k]
    returned the payload, and the row was deleted by a caller exactly once
    if the budget was spent and [preventBurn] is not set, and not at all
    otherwise.  A sweep at or after the expiry leaves the row deleted
    exactly once in all.  And there are interleavings in which all calls
    return. *)
Theorem consume_at_most_maxViews :
  forall (st : Store) (i : string) (row : Row) (k : nat)
         (sched : list Action),
    oneRowPerKey st ->
    getSecret i st = Some row ->
    remainingViews row = maxViews row ->
    1 <= maxViews row ->
    let n := maxViews row in
    let final := run i sched (start st k) in
    successes final <= n
    /\ deletions final <= 1
    /\ (forallb (beforeExpiry (expiresAt row)) sched = true ->
        allFinished final = true ->
        count returnedPayload (callers final) = Nat.min n k
        /\ count isDenied (callers final) = k - n
        /\ swept final = 0
        /\ burned final = b2n (Nat.leb n k && negb (preventBurn row)))
    /\ (forall now,
          (expiresAt row <= now)%Z ->
          deletions (act i (Tick now) final) = 1
          /\ getSecret i (store (act i (Tick now) final)) = None)
    /\ forallb (beforeExpiry (expiresAt row)) (twoRounds k) = true
    /\ allFinished (run i (twoRounds k) (start st k)) = true.
Proof.
  intros st i row k sched Hk Hget Hfull Hpos n final.
  assert (HI0 : Inv i n (preventBurn row) (expiresAt row) (start st k)).
  { unfold n. rewrite <- Hfull. apply Inv_start; [assumption|assumption|lia]. }
  pose proof (Inv_run i n _ _ sched _ HI0) as HI. fold final in HI.
  assert (Hlen : List.length (callers final) = k).
  { unfold final. rewrite run_length. cbn [start callers].
    apply repeat_length. }
  split; [|split; [|split; [|split; [|split]]]].
  - unfold Inv in HI.
    destruct (rowsOf i (store final)) as [|r [|r2 rest]]; [| |contradiction].
    + tauto.
    + destruct HI as [_ [_ [_ [_ [Hsum _]]]]]. lia.
  - unfold deletions. unfold Inv in HI.
    destruct (rowsOf i (store final)) as [|r [|r2 rest]]; [| |contradiction].
    + destruct HI as [Hone _]. lia.
    + destruct HI as [_ [_ [Hb [Hs _]]]]. lia.
  - intros Hq Hfin.
    assert (Hsw : swept final = 0).
    { unfold final. eapply quiet_run; [exact HI0 | exact Hq | reflexivity]. }
    destruct (finished_counts _ Hfin) as [Hb0 [Hgp Htot]].
    rewrite Hlen in Htot. unfold Inv, successes in HI. rewrite Hgp in HI.
    destruct (rowsOf i (store final)) as [|r [|r2 rest]]; [| |contradiction].
    + destruct HI as [Hone [_ [_ Himp]]].
      destruct (Himp Hsw) as [Hn [Hpb _]].
      assert (Hle : Nat.leb n k = true) by (apply Nat.leb_le; lia).
      rewrite Hle, Hpb. cbn [negb andb b2n]. repeat split; lia.
    + destruct HI as [Hpb [_ [Hbu [_ [Hsum [Hburn Hden]]]]]].
      rewrite Hb0 in Hburn.
      destruct (Nat.eqb (remainingViews r) 0) eqn:Hz.
      * apply Nat.eqb_eq in Hz.
        destruct (preventBurn row); cbn in Hburn; [|discriminate].
        rewrite andb_false_r. cbn [b2n]. repeat split; lia.
      * apply Nat.eqb_neq in Hz.
        assert (Hd : count isDenied (callers final) = 0) by (apply Hden; lia).
        assert (Hle : Nat.leb n k = false) by (apply Nat.leb_gt; lia).
        rewrite Hle. cbn [andb b2n]. repeat split; lia.
  - intros now Hexp. unfold deletions. cbn [act deleteExpiredBatch store
                                            burned swept].
    rewrite getSecret_rows, rows_sweep, filter_andb.
    fold (rowsOf i (store final)). unfold Inv in HI.
    destruct (rowsOf i (store final)) as [|r [|r2 rest]]; [| |contradiction].
    + destruct HI as [Hone _]. cbn. split; [lia | reflexivity].
    + destruct HI as [_ [He [Hb [Hs _]]]]. cbn [filter].
      unfold isExpired. rewrite He. apply Z.leb_le in Hexp. rewrite Hexp.
      cbn. split; [lia | reflexivity].
  - apply twoRounds_quiet.
  - apply twoRounds_finishes.
Qed.

End ViewConsumerProofs.

Lemma consume_at_most_maxViews_witness :
  let final := ViewConsumer.run "s1" (ViewConsumer.twoRounds 10)
                 (ViewConsumer.start [sampleRow] 10) in
  ViewConsumer.count ViewConsumer.returnedPayload (ViewConsumer.callers final)
  = Nat.min 3 10
  /\ ViewConsumer.count ViewConsumer.isDenied (ViewConsumer.callers final)
     = (10 - 3)%nat
  /\ ViewConsumer.swept final = 0%nat
  /\ ViewConsumer.burned final = 1%nat.
Proof.
  cbv zeta.
  refine (proj1 (proj2 (proj2
            (ViewConsumerProofs.consume_at_most_maxViews [sampleRow] "s1"
               sampleRow 10 (ViewConsumer.twoRounds 10) _ eq_refl eq_refl _)))
            _ _).
  - repeat constructor. intros [].
  - cbn. lia.
  - reflexivity.
  - vm_compute. reflexivity.
Defined.

(* ===================================================================== *)
(** * Further properties: the shape of a route                             *)
(* ===================================================================== *)

Section RouteShape.
Context `{Collaborators}.

Lemma accepts_withConn (cfg : Config) (c : Conn) (r : CreateReq) (ttl mv : Z) :
  accepts cfg (withConn c r) ttl mv <-> accepts cfg r ttl mv.
Proof. destruct r; reflexivity. Qed.

Ltac fixed400 :=
  left; eexists; split; cycle 1; [intros; reflexivity | reflexivity].

Ltac andb_facts H :=
  repeat match type of H with
         | (_ && _)%bool = true =>
             let H1 := fresh "Hc" in
             apply andb_true_iff in H; destruct H as [H H1]
         end.

Lemma encryptPost_shape (cfg : Config) (c0 : Conn) (b : EncryptBody) :
  routeShape cfg (ToEncryptPost c0 b).
Proof.
  unfold routeShape. cbn [withConn handle]. unfold encryptPost.
  destruct (encryptBodySchema cfg b) eqn:Hs; cbn [negb]; [|fixed400].
  assert (Hfacts := Hs). unfold encryptBodySchema in Hfacts.
  destruct (e_password b) as [p|] eqn:Hp; [|discriminate].
  andb_facts Hfacts. cbn [withDefault].
  destruct (blankPassword p); [fixed400|].
  destruct (inRange (Some (withDefault 1 (e_maxViews b))) 1 (maxViewsLimit cfg))
    as [mv|] eqn:Hmv; [|fixed400].
  apply inRange_Some in Hmv. destruct Hmv as [Hmv Hr]. injection Hmv as Hmv.
  destruct (negb (enableBurnAfterTime cfg)
            && strictlyFalse (JBool (withDefault false (e_preventBurn b))))
    eqn:Hburn; [fixed400|].
  right. exists (withDefault 86400 (e_ttl b)), mv, msgEncryptFailed.
  split.
  - unfold accepts. cbn [requestedTtl requestedMaxViews viewsBound
                          consultsBurnPolicy asksToBurn].
    split; [reflexivity|]. split; [now apply includesZ_In|].
    split; [now rewrite Hmv|]. split; [assumption|].
    intros _ He. rewrite He in Hburn. cbn in Hburn.
    destruct (withDefault false (e_preventBurn b)); [reflexivity|discriminate].
  - intros c env w. cbv zeta. unfold storeAndReply, inputOf, successBody,
      shareableUrl.
    cbn [titleOf plaintextOf connOf burnInput showsPlaintext].
    rewrite Hp, (expiryOfBodyTtl_pos _ _ Hc3). reflexivity.
Qed.

Lemma encryptGet_shape (cfg : Config) (c0 : Conn) (q : EncryptQuery) :
  routeShape cfg (ToEncryptGet c0 q).
Proof.
  unfold routeShape. cbn [withConn handle]. unfold encryptGet.
  destruct (encryptQuerySchema q) eqn:Hs; cbn [negb]; [|fixed400].
  destruct (blankPassword (withDefault "" (eq_password q))); [fixed400|].
  destruct (JS.parseInt (withDefault "86400" (eq_ttl q))) as [ttlNum|] eqn:Httl;
    [|fixed400].
  destruct (includesZ VALID_TTL ttlNum) eqn:Hin; cbn [negb]; [|fixed400].
  destruct (inRange (JS.parseInt (withDefault "1" (eq_maxViews q))) 1
              (maxViewsLimit cfg)) as [mv|] eqn:Hmv; [|fixed400].
  apply inRange_Some in Hmv. destruct Hmv as [Hmv Hr].
  destruct (negb (enableBurnAfterTime cfg)
            && negb (isTrue "false" (eq_preventBurn q))) eqn:Hburn;
    [fixed400|].
  right. exists ttlNum, mv, msgEncryptFailed. split.
  - unfold accepts. cbn [requestedTtl requestedMaxViews viewsBound
                          consultsBurnPolicy asksToBurn].
    split; [assumption|]. split; [now apply includesZ_In|].
    split; [assumption|]. split; [assumption|].
    intros _ He. rewrite He in Hburn. exact Hburn.
  - intros c env w. reflexivity.
Qed.

Lemma passwordPostV1_shape (cfg : Config) (c0 : Conn) (b : GenerateBody) :
  routeShape cfg (ToPasswordPostV1 c0 b).
Proof.
  unfold routeShape. cbn [withConn handle]. unfold passwordPostV1.
  destruct (generateBodySchema 999 b) eqn:Hs; cbn [negb]; [|fixed400].
  assert (Hfacts := Hs). unfold generateBodySchema in Hfacts.
  cbv zeta in Hfacts. andb_facts Hfacts. cbv zeta.
  destruct (noCharacterSet _ _ _ _); [fixed400|].
  destruct ((_ <? 4) || _); [fixed400|].
  right. exists (withDefault 86400 (b_ttl b)), (withDefault 1 (b_maxViews b)),
    msgGenerateFailed.
  split.
  - unfold accepts. cbn [requestedTtl requestedMaxViews viewsBound
                          consultsBurnPolicy asksToBurn].
    split; [reflexivity|]. split; [now apply includesZ_In|].
    split; [reflexivity|]. split; [lia|].
    intros Hc'. discriminate.
  - intros c env w. unfold storeAndReply, inputOf, successBody, shareableUrl.
    cbn [titleOf plaintextOf connOf burnInput showsPlaintext].
    rewrite (expiryOfBodyTtl_pos _ _ Hc3). reflexivity.
Qed.

Lemma passwordPostV2_shape (cfg : Config) (c0 : Conn) (b : GenerateBody) :
  routeShape cfg (ToPasswordPostV2 c0 b).
Proof.
  unfold routeShape. cbn [withConn handle]. unfold passwordPostV2.
  destruct (generateBodySchema (maxViewsLimit cfg) b) eqn:Hs;
    cbn [negb andb]; [|fixed400].
  destruct (showPasswordSchema b); cbn [negb]; [|fixed400].
  assert (Hfacts := Hs). unfold generateBodySchema in Hfacts.
  cbv zeta in Hfacts. andb_facts Hfacts. cbv zeta.
  destruct (noCharacterSet _ _ _ _); [fixed400|].
  destruct ((_ <? 4) || _); [fixed400|].
  destruct (inRange (Some (withDefault 1 (b_maxViews b))) 1 (maxViewsLimit cfg))
    as [mv|] eqn:Hmv; [|fixed400].
  apply inRange_Some in Hmv. destruct Hmv as [Hmv Hr]. injection Hmv as Hmv.
  destruct (negb (enableBurnAfterTime cfg)
            && strictlyFalse (orDefault (JBool false) (b_preventBurn b)))
    eqn:Hburn; [fixed400|].
  right. exists (withDefault 86400 (b_ttl b)), mv, msgGenerateFailed.
  split.
  - unfold accepts. cbn [requestedTtl requestedMaxViews viewsBound
                          consultsBurnPolicy asksToBurn].
    split; [reflexivity|]. split; [now apply includesZ_In|].
    split; [now rewrite Hmv|]. split; [assumption|].
    intros _ He. rewrite He in Hburn. exact Hburn.
  - intros c env w. unfold storeAndReply, inputOf, successBody, shareableUrl.
    cbn [titleOf plaintextOf connOf burnInput showsPlaintext].
    rewrite (expiryOfBodyTtl_pos _ _ Hc3). reflexivity.
Qed.

Lemma passwordGetV1_shape (cfg : Config) (c0 : Conn) (q : GenerateQuery) :
  routeShape cfg (ToPasswordGetV1 c0 q).
Proof.
  unfold routeShape. cbn [withConn handle]. unfold passwordGetV1.
  destruct (generateQuerySchemaV1 q) eqn:Hs; cbn [negb]; [|fixed400].
  destruct (inRange (JS.parseInt (withDefault "16" (q_length q))) 4 128)
    as [lengthNum|] eqn:Hlen; [|fixed400].
  apply inRange_Some in Hlen. destruct Hlen as [Hlen _].
  destruct (JS.parseInt (withDefault "86400" (q_ttl q))) as [ttlNum|] eqn:Httl;
    [|fixed400].
  destruct (includesZ VALID_TTL ttlNum) eqn:Hin; cbn [negb]; [|fixed400].
  destruct (inRange (JS.parseInt (withDefault "1" (q_maxViews q))) 1 999)
    as [mv|] eqn:Hmv; [|fixed400].
  apply inRange_Some in Hmv. destruct Hmv as [Hmv Hr].
  cbv zeta.
  destruct (noCharacterSet _ _ _ _); [fixed400|].
  right. exists ttlNum, mv, msgGenerateFailed. split.
  - unfold accepts. cbn [requestedTtl requestedMaxViews viewsBound
                          consultsBurnPolicy asksToBurn].
    split; [assumption|]. split; [now apply includesZ_In|].
    split; [assumption|]. split; [assumption|].
    intros Hc'. discriminate.
  - intros c env w. unfold storeAndReply, inputOf, successBody, shareableUrl.
    cbn [titleOf plaintextOf connOf burnInput showsPlaintext].
    unfold genOptionsOfQuery. rewrite Hlen. reflexivity.
Qed.

Lemma passwordGetV2_shape (cfg : Config) (c0 : Conn) (q : GenerateQuery) :
  routeShape cfg (ToPasswordGetV2 c0 q).
Proof.
  unfold routeShape. cbn [withConn handle]. unfold passwordGetV2.
  destruct (generateQuerySchemaV2 q) eqn:Hs; cbn [negb]; [|fixed400].
  destruct (inRange (JS.parseInt (withDefault "16" (q_length q))) 4 128)
    as [lengthNum|] eqn:Hlen; [|fixed400].
  apply inRange_Some in Hlen. destruct Hlen as [Hlen _].
  destruct (JS.parseInt (withDefault "86400" (q_ttl q))) as [ttlNum|] eqn:Httl;
    [|fixed400].
  destruct (includesZ VALID_TTL ttlNum) eqn:Hin; cbn [negb]; [|fixed400].
  destruct (inRange (JS.parseInt (withDefault "1" (q_maxViews q))) 1
              (maxViewsLimit cfg)) as [mv|] eqn:Hmv; [|fixed400].
  apply inRange_Some in Hmv. destruct Hmv as [Hmv Hr].
  cbv zeta.
  destruct (negb (enableBurnAfterTime cfg)
            && negb (isTrue "false" (q_preventBurn q))) eqn:Hburn;
    [fixed400|].
  destruct (noCharacterSet _ _ _ _); [fixed400|].
  right. exists ttlNum, mv, msgGenerateFailed. split.
  - unfold accepts. cbn [requestedTtl requestedMaxViews viewsBound
                          consultsBurnPolicy asksToBurn].
    split; [assumption|]. split; [now apply includesZ_In|].
    split; [assumption|]. split; [assumption|].
    intros _ He. rewrite He in Hburn. exact Hburn.
  - intros c env w. unfold storeAndReply, inputOf, successBody, shareableUrl.
    cbn [titleOf plaintextOf connOf burnInput showsPlaintext].
    unfold genOptionsOfQuery. rewrite Hlen. reflexivity.
Qed.

Lemma handle_shape (cfg : Config) (r : CreateReq) : routeShape cfg r.
Proof.
  destruct r.
  - apply encryptPost_shape.
  - apply encryptGet_shape.
  - apply passwordPostV1_shape.
  - apply passwordGetV1_shape.
  - apply passwordPostV2_shape.
  - apply passwordGetV2_shape.
Qed.

Lemma withConn_own (r : CreateReq) : withConn (connOf r) r = r.
Proof. destruct r; reflexivity. Qed.


End RouteShape.

(* ===================================================================== *)
(** * Further properties of the creation routes                         *)
(* ===================================================================== *)

Section RouteProperties.
Context `{Collaborators}.

(** The block that stores and replies, by the outcome of each store call. *)
Lemma storeAndReply_eval (ce : CreateEnv) (f : option Err) (inp : SecretInput)
  (mk : Secret -> SuccessBody) (what : string) (w : World) :
  storeAndReply ce f inp mk what w
  = let failure := fun e : Err =>
        (Returned (Reply500 what (message e)), addLog w (message e)) in
    match createFault ce with
    | Some e => failure e
    | None =>
        match preventBurnColumn (in_preventBurn inp) with
        | None => failure (mkErr "Invalid value provided. Expected Boolean.")
        | Some b =>
            if negb (fitsInteger (in_maxViews inp))
            then failure (mkErr "Unable to fit integer value into an INT4")
            else if hasId (newId ce) (secrets w)
            then failure
                   (mkErr "Unique constraint failed on the fields: (`id`)")
            else
              match f with
              | Some e =>
                  (Returned (Reply500 what (message e)),
                   addLog (inserted w (rowOf ce inp b)) (message e))
              | None =>
                  (Returned (Reply200 (mk (rowOf ce inp b))),
                   setStatistic (inserted w (rowOf ce inp b))
                     (bumped (secrets_created w)))
              end
        end
    end.
Proof.
  unfold storeAndReply, tryCatch, bind, secretCreate, statisticUpsert,
    replyFailure, logError, ret. cbv zeta.
  destruct (createFault ce); [reflexivity|].
  destruct (preventBurnColumn _); [|reflexivity].
  destruct (negb _); [reflexivity|].
  destruct (hasId _ _); [reflexivity|].
  destruct f; reflexivity.
Qed.

(** X1.  Every creation route returns a reply, and the reply tells what the
    call did to the statistic and to the log: the counter [secrets_created]
    is bumped exactly when the status is 200; a line is logged exactly when
    the reply is a 500, and it is the message the reply carries; a reply with
    status 400 leaves the world as it was. *)
Theorem reply_accounts_for_counter_and_log :
  forall (cfg : Config) (env : ReqEnv) (r : CreateReq) (w : World),
  exists reply w',
    handle cfg env r w = (Returned reply, w')
    /\ secrets_created w'
       = (if status reply =? 200 then bumped (secrets_created w)
          else secrets_created w)
    /\ logged w'
       = match reply with
         | Reply500 _ m => (logged w ++ [m])%list
         | _ => logged w
         end
    /\ (status reply = 400 -> w' = w).
Proof.
  intros cfg env r w.
  destruct (handle_cases cfg env r w)
    as [[reply0 [E0 Hs0]] | [ttl [mv [Hacc [[what [e E0]] | [[Hid [what [e E0]]] | [Hid E0]]]]]]];
    rewrite E0; eexists; eexists; (split; [reflexivity|]).
  - rewrite Hs0. cbn. destruct reply0; try discriminate; auto.
  - cbn. split; [reflexivity|]. split; [reflexivity|]. discriminate.
  - cbn. split; [reflexivity|]. split; [reflexivity|]. discriminate.
  - cbn. split; [reflexivity|]. split; [reflexivity|]. discriminate.
Qed.

(** X2.  When the key drawn for the new row is already taken, no route
    stores anything: the reply has status 400 or 500, and the table and the
    counter are as before. *)
Theorem key_collision_stores_nothing :
  forall (cfg : Config) (env : ReqEnv) (r : CreateReq) (w : World),
    hasId (newId (createEnv env)) (secrets w) = true ->
    exists reply w',
      handle cfg env r w = (Returned reply, w')
      /\ (status reply = 400 \/ status reply = 500)
      /\ secrets w' = secrets w
      /\ secrets_created w' = secrets_created w.
Proof.
  intros cfg env r w Hdup.
  destruct (handle_cases cfg env r w)
    as [[reply0 [E0 Hs0]] | [ttl [mv [Hacc [[what [e E0]] | [[Hid [what [e E0]]] | [Hid E0]]]]]]];
    try congruence; rewrite E0; eexists; eexists; (split; [reflexivity|]).
  - split; [now left|]. split; reflexivity.
  - split; [now right|]. split; reflexivity.
Qed.

Lemma inputOf_withUpsertFault (cfg : Config) (f : option Err) (env : ReqEnv)
  (r : CreateReq) (ttl mv : Z) :
  inputOf cfg (withUpsertFault f env) r ttl mv = inputOf cfg env r ttl mv.
Proof. destruct r; reflexivity. Qed.

Lemma inputOf_withCreateFault (cfg : Config) (f : option Err) (env : ReqEnv)
  (r : CreateReq) (ttl mv : Z) :
  inputOf cfg (withCreateFault f env) r ttl mv = inputOf cfg env r ttl mv.
Proof. destruct r; reflexivity. Qed.

(** X3.  The insert and the statistic are not one transaction.  When the
    upsert of the statistic throws in a request that otherwise succeeds, the
    client gets a 500 with the message of the error, yet the secret is
    stored, the same row as in the successful run; the counter is not
    bumped and the message is logged. *)
Theorem failed_statistic_orphans_the_secret :
  forall (cfg : Config) (env : ReqEnv) (r : CreateReq) (w w1 : World)
         (body : SuccessBody) (e : Err),
    upsertFault env = None ->
    handle cfg env r w = (Returned (Reply200 body), w1) ->
    exists what w2,
      handle cfg (withUpsertFault (Some e) env) r w
      = (Returned (Reply500 what (message e)), w2)
      /\ secrets w2 = secrets w1
      /\ List.length (secrets w1) = S (List.length (secrets w))
      /\ secrets_created w2 = secrets_created w
      /\ logged w2 = (logged w ++ [message e])%list.
Proof.
  intros cfg env r w w1 body e Hup E.
  rewrite <- (withConn_own r) in E |- *.
  destruct (handle_shape cfg r) as [[reply [Hst Hall]] | [ttl [mv [what [Hacc Hall]]]]].
  - rewrite Hall in E. injection E as Hr _. rewrite Hr in Hst. discriminate.
  - rewrite Hall in E. rewrite Hall.
    rewrite storeAndReply_eval in E |- *. cbv zeta in E |- *.
    rewrite inputOf_withUpsertFault. cbn [createEnv upsertFault withUpsertFault].
    rewrite Hup in E.
    destruct (createFault (createEnv env)); [discriminate|].
    destruct (preventBurnColumn _); [|discriminate].
    destruct (negb _); [discriminate|].
    destruct (hasId _ _); [discriminate|].
    injection E as _ <-. exists what. eexists. split; [reflexivity|].
    cbn [secrets addLog inserted setSecrets setStatistic secrets_created logged].
    repeat split. rewrite length_app. cbn. lia.
Qed.

(** X4.  When [prisma.secret.create] throws, no route stores or counts
    anything: the reply is a 400 of the checks, with the world untouched,
    or a 500 that hands the message of the store's error to the client and
    to the log. *)
Theorem failed_insert_stores_nothing_and_returns_the_error :
  forall (cfg : Config) (env : ReqEnv) (r : CreateReq) (w : World) (e : Err),
    createFault (createEnv env) = Some e ->
    exists reply w',
      handle cfg env r w = (Returned reply, w')
      /\ secrets w' = secrets w
      /\ secrets_created w' = secrets_created w
      /\ ((status reply = 400 /\ w' = w)
          \/ exists what,
               reply = Reply500 what (message e)
               /\ logged w' = (logged w ++ [message e])%list).
Proof.
  intros cfg env r w e Hf.
  rewrite <- (withConn_own r).
  destruct (handle_shape cfg r) as [[reply [Hst Hall]] | [ttl [mv [what [Hacc Hall]]]]];
    rewrite Hall.
  - exists reply, w. repeat split. left. split; [assumption | reflexivity].
  - rewrite storeAndReply_eval. cbv zeta. rewrite Hf.
    eexists; eexists. split; [reflexivity|]. repeat split.
    right. exists what. split; reflexivity.
Qed.


(* ---------------- URL and headers ---------------- *)

Lemma baseUrl_configured (cfg : Config) (c : Conn) :
  hostConfigured cfg = true ->
  baseUrl cfg c
  = (if JS.startsWith "http" (host cfg) then host cfg
     else "https://" ++ host cfg).
Proof.
  unfold hostConfigured, baseUrl. intros Hc.
  repeat (apply andb_true_iff in Hc; destruct Hc as [Hc ?]).
  rewrite Hc.
  repeat match goal with
         | Hn : negb ?b = true |- _ =>
             apply negb_true_iff in Hn; rewrite Hn
         end.
  reflexivity.
Qed.

Lemma baseUrl_placeholder (cfg : Config) (c : Conn) (p h : string) :
  hostConfigured cfg = false ->
  forwardedProto c = Some p -> p <> "" ->
  hostHeader c = Some h -> h <> "" ->
  baseUrl cfg c = p ++ "://" ++ h.
Proof.
  unfold hostConfigured, baseUrl. intros Hc Hp Hpne Hh Hhne.
  assert (Hg : negb (JS.truthy (host cfg))
               || String.eqb (host cfg) "localhost"
               || String.eqb (host cfg) "!changeme!"
               || JS.includes "changeme" (host cfg) = true).
  { destruct (JS.truthy (host cfg)), (String.eqb (host cfg) "localhost"),
      (String.eqb (host cfg) "!changeme!"), (JS.includes "changeme" (host cfg));
      cbn in *; congruence. }
  rewrite Hg, Hp, Hh. cbv zeta. unfold JS.orElse, JS.orElseOpt.
  destruct p; [congruence|]. destruct h; [congruence|]. reflexivity.
Qed.

Lemma inputOf_conn (cfg : Config) (env : ReqEnv) (r : CreateReq)
  (c1 c2 : Conn) (ttl mv : Z) :
  userId c1 = userId c2 ->
  inputOf cfg env (withConn c1 r) ttl mv
  = inputOf cfg env (withConn c2 r) ttl mv.
Proof.
  intros Hu. destruct r; unfold inputOf; cbn [withConn connOf titleOf
    plaintextOf burnInput]; rewrite Hu; reflexivity.
Qed.

Lemma successBody_conn (cfg : Config) (env : ReqEnv) (r : CreateReq)
  (c1 c2 : Conn) :
  baseUrl cfg c1 = baseUrl cfg c2 ->
  successBody cfg env (withConn c1 r) = successBody cfg env (withConn c2 r).
Proof.
  intros Hb. destruct r; unfold successBody;
    cbn [withConn connOf showsPlaintext plaintextOf]; rewrite Hb; reflexivity.
Qed.

(** X5.  With a real host configured, what a route replies and does is
    independent of the headers of the connection: two connections of the
    same user get the same reply and leave the same world. *)
Theorem configured_host_ignores_request_headers :
  forall (cfg : Config) (env : ReqEnv) (r : CreateReq) (c1 c2 : Conn)
         (w : World),
    hostConfigured cfg = true ->
    userId c1 = userId c2 ->
    handle cfg env (withConn c1 r) w = handle cfg env (withConn c2 r) w.
Proof.
  intros cfg env r c1 c2 w Hc Hu.
  destruct (handle_shape cfg r) as [[reply [Hst Hall]] | [ttl [mv [what [Hacc Hall]]]]];
    rewrite !Hall; [reflexivity|].
  rewrite (inputOf_conn cfg env r c1 c2 ttl mv Hu).
  rewrite (successBody_conn cfg env r c1 c2); [reflexivity|].
  rewrite !baseUrl_configured by assumption. reflexivity.
Qed.

Lemma append_assoc (a b c : string) : (a ++ b) ++ c = a ++ (b ++ c).
Proof.
  induction a as [|x a IH]; [reflexivity|]. cbn. rewrite IH. reflexivity.
Qed.

Lemma connOf_withConn (c : Conn) (r : CreateReq) : connOf (withConn c r) = c.
Proof. destruct r; reflexivity. Qed.

(** X6.  With the host unset or a placeholder, the link of a successful
    reply is made of the request's own headers: [X-Forwarded-Proto] gives
    the scheme and [Host] the authority, whatever they say. *)
Theorem placeholder_host_takes_link_from_headers :
  forall (cfg : Config) (env : ReqEnv) (r : CreateReq) (c : Conn)
         (w w' : World) (body : SuccessBody) (p h : string),
    hostConfigured cfg = false ->
    forwardedProto c = Some p -> p <> "" ->
    hostHeader c = Some h -> h <> "" ->
    handle cfg env (withConn c r) w = (Returned (Reply200 body), w') ->
    url body
    = p ++ "://" ++ h ++ "/secret/" ++ secretId body ++ "#"
      ++ base64 (generateKey env).
Proof.
  intros cfg env r c w w' body p h Hc Hp Hpne Hh Hhne E.
  destruct (handle_200 cfg env _ w w' _ E eq_refl)
    as [ttl [mv [_ [_ [_ Hrep]]]]].
  injection Hrep as ->. unfold successBody. cbn [url secretId].
  rewrite connOf_withConn.
  rewrite (baseUrl_placeholder cfg c p h Hc Hp Hpne Hh Hhne).
  rewrite !append_assoc. reflexivity.
Qed.

(* ---------------- blank passwords ---------------- *)

Lemma trimEnd_nonEmpty (s : string) :
  JS.nonEmpty (JS.trimEnd s) = negb (allWhiteSpace s).
Proof.
  induction s as [|a s IH]; [reflexivity|].
  cbn [JS.trimEnd allWhiteSpace]. cbv zeta. rewrite IH, negb_involutive.
  destruct (JS.isWhiteSpace a && allWhiteSpace s); reflexivity.
Qed.

Lemma trimStart_allWhiteSpace (s : string) :
  allWhiteSpace (JS.trimStart s) = allWhiteSpace s.
Proof.
  induction s as [|a s IH]; [reflexivity|].
  cbn [JS.trimStart]. destruct (JS.isWhiteSpace a) eqn:Ha.
  - rewrite IH. cbn [allWhiteSpace]. rewrite Ha. reflexivity.
  - reflexivity.
Qed.

Lemma blankPassword_spec (p : string) : blankPassword p = allWhiteSpace p.
Proof.
  unfold blankPassword, JS.trim.
  rewrite trimEnd_nonEmpty, trimStart_allWhiteSpace, negb_involutive.
  destruct p; reflexivity.
Qed.

Lemma trimEndUnits_nil (p : CodeUnits) :
  match trimEndUnits p with [] => true | _ :: _ => false end
  = forallb isWhiteSpaceUnit p.
Proof.
  induction p as [|c p IH]; [reflexivity|].
  cbn [trimEndUnits forallb]. cbv zeta. rewrite IH.
  destruct (isWhiteSpaceUnit c && forallb isWhiteSpaceUnit p); reflexivity.
Qed.

Lemma trimStartUnits_blank (p : CodeUnits) :
  forallb isWhiteSpaceUnit (trimStartUnits p) = forallb isWhiteSpaceUnit p.
Proof.
  induction p as [|c p IH]; [reflexivity|].
  cbn [trimStartUnits]. destruct (isWhiteSpaceUnit c) eqn:Hc.
  - rewrite IH. cbn [forallb]. rewrite Hc. reflexivity.
  - reflexivity.
Qed.

Lemma blankUnits_spec (p : CodeUnits) :
  blankUnits p = forallb isWhiteSpaceUnit p.
Proof.
  unfold blankUnits, trimUnits.
  rewrite <- trimStartUnits_blank, <- trimEndUnits_nil.
  destruct p as [|c p]; [reflexivity|]. cbn [orb].
  destruct (trimEndUnits (trimStartUnits (c :: p))); reflexivity.
Qed.

Lemma isWhiteSpaceUnit_ascii (a : ascii) :
  isWhiteSpaceUnit (Z.of_nat (nat_of_ascii a)) = JS.isWhiteSpace a.
Proof.
  destruct a as [[|] [|] [|] [|] [|] [|] [|] [|]]; vm_compute; reflexivity.
Qed.

Lemma allWhiteSpace_units (s : string) :
  forallb isWhiteSpaceUnit (unitsOf s) = allWhiteSpace s.
Proof.
  unfold unitsOf. induction s as [|a s IH]; [reflexivity|].
  cbn [list_ascii_of_string map forallb allWhiteSpace].
  rewrite isWhiteSpaceUnit_ascii, IH. reflexivity.
Qed.

(** X7.  The password check of [POST] and [GET /api/encrypt], on a
    password given by its UTF-16 code units, holds exactly when every code
    unit is white space or a line terminator of ECMAScript, U+3000, U+FEFF
    and U+2028 included (the empty password among them); on the strings of
    the model the handlers apply this very check; and a password it holds
    for is turned down: status 400, nothing stored, counted or logged, and
    once the schema is passed the message is the one asking for a
    password. *)
Theorem blank_password_is_rejected :
  forall (cfg : Config) (env : ReqEnv) (c : Conn) (w : World),
    (forall p : CodeUnits,
        blankUnits p = true <-> forallb isWhiteSpaceUnit p = true)
    /\ (forall s, blankPassword s = blankUnits (unitsOf s))
    /\ (forall b,
           forallb isWhiteSpaceUnit (unitsOf (withDefault "" (e_password b)))
           = true ->
           exists reply,
             encryptPost cfg env c b w = (Returned reply, w)
             /\ status reply = 400
             /\ (encryptBodySchema cfg b = true ->
                 reply = Reply400 msgPasswordRequired))
    /\ (forall q,
           forallb isWhiteSpaceUnit (unitsOf (withDefault "" (eq_password q)))
           = true ->
           exists reply,
             encryptGet cfg env c q w = (Returned reply, w)
             /\ status reply = 400
             /\ (encryptQuerySchema q = true ->
                 reply = Reply400 msgPasswordRequired)).
Proof.
  intros cfg env c w.
  split; [intros p; rewrite blankUnits_spec; reflexivity|].
  split; [intros s; rewrite blankUnits_spec, allWhiteSpace_units;
          apply blankPassword_spec|].
  split.
  - intros b Hb. rewrite allWhiteSpace_units in Hb. unfold encryptPost.
    destruct (encryptBodySchema cfg b); cbn [negb].
    + cbv zeta. rewrite blankPassword_spec, Hb.
      eexists. split; [reflexivity|]. split; reflexivity.
    + eexists. split; [reflexivity|]. split; [reflexivity | discriminate].
  - intros q Hq. rewrite allWhiteSpace_units in Hq. unfold encryptGet.
    destruct (encryptQuerySchema q); cbn [negb].
    + cbv zeta. rewrite blankPassword_spec, Hq.
      eexists. split; [reflexivity|]. split; reflexivity.
    + eexists. split; [reflexivity|]. split; [reflexivity | discriminate].
Qed.

(* ---------------- view budget on the routes that read the limit -------- *)

(** X8.  The four routes that read [secret.maxViewsLimit] (both routes of
    [encryptSecret], the second revision of [/api/password/generate])
    answer 400 and touch nothing when [maxViews] is not a number between 1
    and the limit, and the row they store has the requested [maxViews],
    within these bounds. *)
Theorem policy_routes_enforce_maxViewsLimit :
  forall (cfg : Config) (env : ReqEnv) (r : CreateReq) (w : World),
    consultsBurnPolicy r = true ->
    exists reply w',
      handle cfg env r w = (Returned reply, w')
      /\ ((forall mv, requestedMaxViews r = Some mv ->
                      ~ (1 <= mv <= maxViewsLimit cfg)) ->
          status reply = 400 /\ w' = w)
      /\ (forall s, In s (secrets w') -> ~ In s (secrets w) ->
                    requestedMaxViews r = Some (maxViews s)
                    /\ 1 <= maxViews s <= maxViewsLimit cfg).
Proof.
  intros cfg env r w Hpol.
  assert (Hb : viewsBound cfg r = maxViewsLimit cfg)
    by (destruct r; try discriminate; reflexivity).
  destruct (handle_cases cfg env r w)
    as [[reply0 [E0 Hs0]] | [ttl [mv [Hacc [[what [e E0]] | [[Hid [what [e E0]]] | [Hid E0]]]]]]];
    rewrite E0; eexists; eexists; (split; [reflexivity|]);
    try (destruct Hacc as [_ [_ [Hmv [Hr _]]]]; rewrite Hb in Hr).
  - split; [intros _; split; [assumption | reflexivity]|].
    intros s Hs Hn. contradiction.
  - split; [intros Hbad; exfalso; exact (Hbad mv Hmv Hr)|].
    intros s Hs Hn. contradiction.
  - split; [intros Hbad; exfalso; exact (Hbad mv Hmv Hr)|].
    intros s Hs Hn. cbn [secrets addLog inserted setSecrets] in Hs.
    apply in_app_or in Hs. destruct Hs as [Hs|[<-|[]]]; [contradiction|].
    split; assumption.
  - split; [intros Hbad; exfalso; exact (Hbad mv Hmv Hr)|].
    intros s Hs Hn. cbn [secrets setStatistic inserted setSecrets] in Hs.
    apply in_app_or in Hs. destruct Hs as [Hs|[<-|[]]]; [contradiction|].
    split; assumption.
Qed.


(* ---------------- reachable worlds ---------------- *)

Lemma reachable_keysUnique (cfg : Config) (w : World) :
  reachable cfg w -> keysUnique w.
Proof.
  induction 1 as [|o w Hr IH]; [constructor|].
  apply exec_keysUnique. assumption.
Qed.

Lemma viewsBound_le (cfg : Config) (r : CreateReq) :
  viewsBound cfg r <= Z.max 999 (maxViewsLimit cfg).
Proof. destruct r; cbn [viewsBound]; lia. Qed.

Lemma exec_secret_origin (cfg : Config) (o : Op) (w : World) (s : Secret) :
  In s (secrets (exec cfg o w)) ->
  In s (secrets w)
  \/ exists env r ttl mv,
       o = Create env r /\ accepts cfg r ttl mv
       /\ s = storedRow cfg env r ttl mv.
Proof.
  destruct o as [env r | te]; cbn [exec]; intros Hin.
  - destruct (handle_secrets cfg env r w) as [E | [ttl [mv [Hacc [_ E]]]]];
      rewrite E in Hin; [now left|].
    apply in_app_or in Hin. destruct Hin as [Hin|[<-|[]]]; [now left|].
    right. exists env, r, ttl, mv. split; [reflexivity|].
    split; [assumption | reflexivity].
  - left. destruct (dbCleaner_secrets te w) as [E | E]; rewrite E in Hin;
      [assumption|]. apply in_kept in Hin. tauto.
Qed.

Lemma exec_counter (cfg : Config) (o : Op) (w : World) :
  secrets_created (exec cfg o w) = secrets_created w
  \/ secrets_created (exec cfg o w) = bumped (secrets_created w).
Proof.
  destruct o as [env r | te]; cbn [exec].
  - destruct (handle_cases cfg env r w)
      as [[reply0 [E0 Hs0]] | [ttl [mv [Hacc [[what [e E0]] | [[Hid [what [e E0]]] | [Hid E0]]]]]]];
      rewrite E0; cbn; auto.
  - destruct (tickFault te) as [e|] eqn:Hf.
    + rewrite (dbCleaner_fault te w e Hf). now left.
    + rewrite (dbCleaner_ok te w Hf). now left.
Qed.

(** X9.  Whatever sequence of creations and sweeps the process runs from
    empty tables, the keys of the stored secrets are distinct, every stored
    secret has the shape a route gives it (no password, no address
    restriction, not public, a view budget of at least 1 and at most the
    larger of 999 and the configured limit), and the counter, once set, is
    at least 1. *)
Theorem reachable_worlds_are_well_formed :
  forall (cfg : Config) (w : World),
    reachable cfg w ->
    keysUnique w
    /\ (forall s, In s (secrets w) -> madeByRoute cfg s)
    /\ (forall n, secrets_created w = Some n -> 1 <= n).
Proof.
  intros cfg w Hr. split; [apply (reachable_keysUnique cfg); assumption|].
  induction Hr as [|o w Hr [IHs IHc]].
  - split; [intros s []|discriminate].
  - split.
    + intros s Hin.
      destruct (exec_secret_origin cfg o w s Hin)
        as [Hold | [env [r [ttl [mv [_ [Hacc ->]]]]]]]; [auto|].
      destruct Hacc as [_ [_ [_ [Hb _]]]].
      pose proof (viewsBound_le cfg r).
      unfold madeByRoute. cbn [password allowed_ip isPublic ipAddress maxViews
                                storedRow].
      repeat split; lia.
    + intros n Hn. destruct (exec_counter cfg o w) as [E | E];
        rewrite E in Hn; [auto|].
      unfold bumped in Hn. injection Hn as <-.
      destruct (secrets_created w) as [m|] eqn:Hm; [|lia].
      specialize (IHc m eq_refl). lia.
Qed.

(* ---------------- life of a stored secret ---------------- *)

Lemma exec_keeps_unexpired (cfg : Config) (o : Op) (w : World) (s : Secret) :
  In s (secrets w) ->
  (forall te, o = Sweep te -> tickFault te = None ->
              tickNow te < expiresAt s) ->
  In s (secrets (exec cfg o w)).
Proof.
  intros Hin Hq. destruct o as [env r | te]; cbn [exec].
  - destruct (handle_secrets cfg env r w) as [E | [ttl [mv [_ [_ E]]]]];
      rewrite E; [assumption|]. apply in_or_app. now left.
  - destruct (tickFault te) as [e|] eqn:Hf.
    + rewrite (dbCleaner_fault te w e Hf). assumption.
    + rewrite (dbCleaner_ok te w Hf). cbn [snd secrets setSecrets].
      apply in_kept. split; [assumption|]. apply Hq; [reflexivity|assumption].
Qed.

(** X10.  A stored secret outlives every creation, every failed sweep and
    every sweep whose clock is before its expiry, and the first successful
    sweep at or after its expiry removes it. *)
Theorem secret_lives_until_swept_after_expiry :
  forall (cfg : Config) (ops : list Op) (w : World) (s : Secret),
    In s (secrets w) ->
    (forall te, In (Sweep te) ops -> tickFault te = None ->
                tickNow te < expiresAt s) ->
    In s (secrets (execAll cfg ops w))
    /\ forall te,
         tickFault te = None -> expiresAt s <= tickNow te ->
         ~ In s (secrets (exec cfg (Sweep te) (execAll cfg ops w))).
Proof.
  intros cfg ops w s Hin Hq. split.
  - revert w Hin. induction ops as [|o rest IH]; intros w Hin; [assumption|].
    unfold execAll. cbn [fold_left]. apply IH.
    + intros te Hte. apply Hq. now right.
    + apply exec_keeps_unexpired; [assumption|].
      intros te ->. apply Hq. now left.
  - intros te Hf Hexp Hs. cbn [exec] in Hs.
    rewrite (dbCleaner_ok te _ Hf) in Hs. cbn [snd secrets setSecrets] in Hs.
    apply in_kept in Hs. lia.
Qed.

(* ---------------- GET and POST of encryptSecret ---------------- *)

Lemma parseInt_digits (o : option string) (d : string) :
  isDigitsText o = true -> JS.matchesDigits d = true ->
  exists n, JS.parseInt (withDefault d o) = Some n.
Proof.
  intros Ho Hd.
  assert (Hm : JS.matchesDigits (withDefault d o) = true)
    by (destruct o; assumption).
  unfold JS.matchesDigits in Hm.
  destruct (withDefault d o) as [|a s]; [discriminate|].
  cbn [JS.nonEmpty JS.allDigits andb] in Hm.
  apply andb_true_iff in Hm. destruct Hm as [Ha _].
  unfold JS.parseInt. rewrite Ha. eauto.
Qed.

(** X12.  [GET /api/encrypt] is [POST /api/encrypt] on the parsed query:
    for a query the schema admits, with a title of at most 255 characters
    and lifetimes of at least one second allowed, both end in the same
    world with the same status, and with the same reply unless it is a
    400 (whose text may differ). *)
Theorem encrypt_get_is_post_of_the_parsed_query :
  forall (cfg : Config) (env : ReqEnv) (c : Conn) (q : EncryptQuery)
         (w : World),
    encryptQuerySchema q = true ->
    lengthLe 255 (eq_title q) = true ->
    (forall t, In t VALID_TTL -> 1 <= t) ->
    exists rg rp w',
      encryptGet cfg env c q w = (Returned rg, w')
      /\ encryptPost cfg env c (bodyOfQuery q) w = (Returned rp, w')
      /\ status rg = status rp
      /\ (status rg <> 400 -> rg = rp).
Proof.
  intros cfg env c q w Hq Ht Hpos.
  unfold encryptGet, encryptPost. rewrite Hq. cbn [negb].
  unfold encryptQuerySchema in Hq.
  destruct (eq_password q) as [p|] eqn:Hp; [|discriminate].
  apply andb_true_iff in Hq. destruct Hq as [Hq Hpb].
  apply andb_true_iff in Hq. destruct Hq as [Httl Hmv].
  destruct (parseInt_digits (eq_ttl q) "86400" Httl eq_refl) as [t Et].
  destruct (parseInt_digits (eq_maxViews q) "1" Hmv eq_refl) as [m Em].
  unfold encryptBodySchema, bodyOfQuery.
  cbn [e_password e_ttl e_maxViews e_preventBurn e_title withDefault].
  rewrite Hp, Et, Em, Ht. cbn [withDefault]. cbv zeta.
  destruct (blankPassword p) eqn:Hblank.
  { destruct (_ && _); eexists _, _, _; repeat split;
      intros Hc; now contradiction Hc. }
  assert (Hlen : Nat.leb 1 (String.length p) = true).
  { destruct p; [discriminate Hblank | reflexivity]. }
  rewrite Hlen. cbn [andb].
  destruct (includesZ VALID_TTL t) eqn:Hin; cbn [negb andb].
  2:{ rewrite andb_false_r. cbn [andb negb].
      eexists _, _, _; repeat split; intros Hc; now contradiction Hc. }
  pose proof (Hpos t (proj1 (includesZ_In _ _) Hin)) as Ht1.
  assert (E1 : (1 <=? t) = true) by (apply Z.leb_le; lia).
  rewrite E1. cbn [andb].
  unfold inRange.
  destruct (Z.ltb_spec m 1) as [Hlo|Hlo]; cbn [orb].
  { assert (E2 : (1 <=? m) = false) by (apply Z.leb_gt; lia).
    rewrite E2. cbn [andb negb].
    eexists _, _, _; repeat split; intros Hc; now contradiction Hc. }
  assert (E2 : (1 <=? m) = true) by (apply Z.leb_le; lia).
  rewrite E2. cbn [andb].
  destruct (Z.leb_spec m (maxViewsLimit cfg)) as [Hhi|Hhi].
  2:{ assert (E3 : (m >? maxViewsLimit cfg) = true)
        by (apply Z.gtb_lt; lia).
      rewrite E3. cbn [negb].
      eexists _, _, _; repeat split; intros Hc; now contradiction Hc. }
  assert (E3 : (m >? maxViewsLimit cfg) = false).
  { rewrite Z.gtb_ltb. apply Z.ltb_ge. lia. }
  rewrite E3. cbn [negb].
  unfold strictlyFalse.
  replace (match JBool (isTrue "false" (eq_preventBurn q)) with
           | JBool false => true | _ => false end)
    with (negb (isTrue "false" (eq_preventBurn q)))
    by (destruct (isTrue "false" (eq_preventBurn q)); reflexivity).
  destruct (negb (enableBurnAfterTime cfg)
            && negb (isTrue "false" (eq_preventBurn q))).
  { eexists _, _, _; repeat split; intros Hc; now contradiction Hc. }
  assert (Ex : expiryOfBodyTtl (dateNow env) t = dateNow env + t * 1000).
  { unfold expiryOfBodyTtl.
    destruct (Z.eqb_spec t 0); [lia | reflexivity]. }
  rewrite Ex.
  cbn [andb negb].
  destruct (tryCatch _ _ w) as [[r|e] w'] eqn:Erun.
  - exists r, r, w'.
    split; [reflexivity|]. split; [reflexivity|]. split; reflexivity.
  - exfalso. revert Erun. unfold tryCatch, bind, replyFailure, bind.
    destruct (secretCreate _ _ w) as [[s|e1] w1]; cbn.
    + destruct (statisticUpsert _ w1) as [[u|e2] w2]; cbn; discriminate.
    + discriminate.
Qed.

(* ---------------- GET and POST of password ---------------- *)

Ltac both400 :=
  eexists _, _, _;
  (split; [reflexivity|]); (split; [reflexivity|]);
  (split; [reflexivity|]); intros Hc; now contradiction Hc.

Lemma tryCatch_replyFailure_returns (m : M Reply) (what : string)
  (w : World) :
  exists r w', tryCatch m (replyFailure what) w = (Returned r, w').
Proof.
  unfold tryCatch, replyFailure, bind, logError, ret.
  destruct (m w) as [[r|e] w']; eauto.
Qed.

Lemma passwordGetV1_is_post (cfg : Config) (env : ReqEnv) (c : Conn)
  (q : GenerateQuery) (w : World) :
  generateQuerySchemaV1 q = true ->
  (forall t, In t VALID_TTL -> 1 <= t) ->
  exists rg rp w',
    passwordGetV1 cfg env c q w = (Returned rg, w')
    /\ passwordPostV1 cfg env c (generateBodyOfQuery q) w
       = (Returned rp, w')
    /\ status rg = status rp
    /\ (status rg <> 400 -> rg = rp).
Proof.
  intros Hq Hpos.
  unfold passwordGetV1, passwordPostV1. rewrite Hq. cbn [negb].
  unfold generateQuerySchemaV1 in Hq.
  repeat (apply andb_true_iff in Hq; destruct Hq as [Hq ?]).
  destruct (parseInt_digits (q_length q) "16" ltac:(assumption) eq_refl)
    as [len El].
  destruct (parseInt_digits (q_ttl q) "86400" ltac:(assumption) eq_refl)
    as [t Et].
  destruct (parseInt_digits (q_maxViews q) "1" ltac:(assumption) eq_refl)
    as [m Em].
  unfold generateBodySchema, generateBodyOfQuery.
  cbn [b_length b_numbers b_symbols b_uppercase b_lowercase
       b_excludeSimilarCharacters b_strict b_ttl b_maxViews b_preventBurn
       b_title b_showPassword withDefault lengthLe orDefault].
  rewrite El, Et, Em. cbn [withDefault]. cbv zeta.
  rewrite andb_true_r.
  unfold inRange.
  destruct (Z.ltb_spec len 4) as [Hl4|Hl4]; cbn [orb].
  { assert (E : (4 <=? len) = false) by (apply Z.leb_gt; lia).
    rewrite E. cbn [andb negb]. both400. }
  assert (E4 : (4 <=? len) = true) by (apply Z.leb_le; lia).
  rewrite E4. cbn [andb].
  destruct (Z.leb_spec len 128) as [Hl128|Hl128].
  2:{ assert (E : (len >? 128) = true) by (apply Z.gtb_lt; lia).
      rewrite E. cbn [andb negb]. both400. }
  assert (E128 : (len >? 128) = false)
    by (rewrite Z.gtb_ltb; apply Z.ltb_ge; lia).
  rewrite E128. cbn [andb].
  destruct (includesZ VALID_TTL t) eqn:Hin; cbn [negb andb].
  2:{ rewrite andb_false_r. cbn [andb negb]. both400. }
  pose proof (Hpos t (proj1 (includesZ_In _ _) Hin)) as Ht1.
  assert (E1 : (1 <=? t) = true) by (apply Z.leb_le; lia).
  rewrite E1. cbn [andb].
  destruct (Z.ltb_spec m 1) as [Hlo|Hlo]; cbn [orb].
  { assert (E2 : (1 <=? m) = false) by (apply Z.leb_gt; lia).
    rewrite E2. cbn [andb negb]. both400. }
  assert (E2 : (1 <=? m) = true) by (apply Z.leb_le; lia).
  rewrite E2. cbn [andb].
  destruct (Z.leb_spec m 999) as [Hhi|Hhi].
  2:{ assert (E3 : (m >? 999) = true) by (apply Z.gtb_lt; lia).
      rewrite E3. cbn [negb]. both400. }
  assert (E3 : (m >? 999) = false)
    by (rewrite Z.gtb_ltb; apply Z.ltb_ge; lia).
  rewrite E3. cbn [negb orb].
  destruct (noCharacterSet _ _ _ _); [both400|].
  assert (Ex : expiryOfBodyTtl (dateNow env) t = dateNow env + t * 1000).
  { unfold expiryOfBodyTtl.
    destruct (Z.eqb_spec t 0); [lia | reflexivity]. }
  rewrite Ex. cbn [encryptTitle].
  match goal with
  | |- context [tryCatch ?m (replyFailure ?what) w] =>
      destruct (tryCatch_replyFailure_returns m what w) as [r [w' Erun]];
      rewrite Erun
  end.
  exists r, r, w'.
  split; [reflexivity|]. split; [reflexivity|]. split; reflexivity.
Qed.

Lemma passwordGetV2_is_post (cfg : Config) (env : ReqEnv) (c : Conn)
  (q : GenerateQuery) (w : World) :
  generateQuerySchemaV2 q = true ->
  (forall t, In t VALID_TTL -> 1 <= t) ->
  exists rg rp w',
    passwordGetV2 cfg env c q w = (Returned rg, w')
    /\ passwordPostV2 cfg env c (generateBodyOfQuery q) w
       = (Returned rp, w')
    /\ status rg = status rp
    /\ (status rg <> 400 -> rg = rp).
Proof.
  intros Hq Hpos.
  unfold passwordGetV2, passwordPostV2. rewrite Hq. cbn [negb].
  unfold generateQuerySchemaV2, generateQuerySchemaV1 in Hq.
  repeat (apply andb_true_iff in Hq; destruct Hq as [Hq ?]).
  destruct (parseInt_digits (q_length q) "16" ltac:(assumption) eq_refl)
    as [len El].
  destruct (parseInt_digits (q_ttl q) "86400" ltac:(assumption) eq_refl)
    as [t Et].
  destruct (parseInt_digits (q_maxViews q) "1" ltac:(assumption) eq_refl)
    as [m Em].
  unfold generateBodySchema, showPasswordSchema, showPasswordOf,
    generateBodyOfQuery.
  cbn [b_length b_numbers b_symbols b_uppercase b_lowercase
       b_excludeSimilarCharacters b_strict b_ttl b_maxViews b_preventBurn
       b_title b_showPassword withDefault lengthLe orDefault coerceBoolean].
  rewrite El, Et, Em. cbn [withDefault]. cbv zeta.
  rewrite !andb_true_r.
  unfold inRange.
  destruct (Z.ltb_spec len 4) as [Hl4|Hl4]; cbn [orb].
  { assert (E : (4 <=? len) = false) by (apply Z.leb_gt; lia).
    rewrite E. cbn [andb negb]. both400. }
  assert (E4 : (4 <=? len) = true) by (apply Z.leb_le; lia).
  rewrite E4. cbn [andb].
  destruct (Z.leb_spec len 128) as [Hl128|Hl128].
  2:{ assert (E : (len >? 128) = true) by (apply Z.gtb_lt; lia).
      rewrite E. cbn [andb negb]. both400. }
  assert (E128 : (len >? 128) = false)
    by (rewrite Z.gtb_ltb; apply Z.ltb_ge; lia).
  rewrite E128. cbn [andb].
  destruct (includesZ VALID_TTL t) eqn:Hin; cbn [negb andb].
  2:{ rewrite andb_false_r. cbn [andb negb]. both400. }
  pose proof (Hpos t (proj1 (includesZ_In _ _) Hin)) as Ht1.
  assert (E1 : (1 <=? t) = true) by (apply Z.leb_le; lia).
  rewrite E1. cbn [andb].
  destruct (Z.ltb_spec m 1) as [Hlo|Hlo]; cbn [orb].
  { assert (E2 : (1 <=? m) = false) by (apply Z.leb_gt; lia).
    rewrite E2. cbn [andb negb]. both400. }
  assert (E2 : (1 <=? m) = true) by (apply Z.leb_le; lia).
  rewrite E2. cbn [andb].
  destruct (Z.leb_spec m (maxViewsLimit cfg)) as [Hhi|Hhi].
  2:{ assert (E3 : (m >? maxViewsLimit cfg) = true)
        by (apply Z.gtb_lt; lia).
      rewrite E3. cbn [negb]. both400. }
  assert (E3 : (m >? maxViewsLimit cfg) = false)
    by (rewrite Z.gtb_ltb; apply Z.ltb_ge; lia).
  rewrite E3. cbn [negb].
  cbn [orb].
  unfold strictlyFalse.
  replace (match JBool (isTrue "false" (q_preventBurn q)) with
           | JBool false => true | _ => false end)
    with (negb (isTrue "false" (q_preventBurn q)))
    by (destruct (isTrue "false" (q_preventBurn q)); reflexivity).
  destruct (noCharacterSet _ _ _ _).
  { destruct (negb (enableBurnAfterTime cfg) && _); both400. }
  destruct (negb (enableBurnAfterTime cfg)
            && negb (isTrue "false" (q_preventBurn q))).
  { both400. }
  assert (Ex : expiryOfBodyTtl (dateNow env) t = dateNow env + t * 1000).
  { unfold expiryOfBodyTtl.
    destruct (Z.eqb_spec t 0); [lia | reflexivity]. }
  rewrite Ex. cbn [encryptTitle].
  match goal with
  | |- context [tryCatch ?m (replyFailure ?what) w] =>
      destruct (tryCatch_replyFailure_returns m what w) as [r [w' Erun]];
      rewrite Erun
  end.
  exists r, r, w'.
  split; [reflexivity|]. split; [reflexivity|]. split; reflexivity.
Qed.

(** X21.  In both revisions [GET /api/password/generate] is
    [POST /api/password/generate] on the parsed query: for a query the
    schema admits, with lifetimes of at least one second allowed, both end
    in the same world with the same status, and with the same reply unless
    it is a 400 (whose text may differ). *)
Theorem password_get_is_post_of_the_parsed_query :
  forall (cfg : Config) (env : ReqEnv) (c : Conn) (q : GenerateQuery)
         (w : World),
    (forall t, In t VALID_TTL -> 1 <= t) ->
    (generateQuerySchemaV1 q = true ->
     exists rg rp w',
       passwordGetV1 cfg env c q w = (Returned rg, w')
       /\ passwordPostV1 cfg env c (generateBodyOfQuery q) w
          = (Returned rp, w')
       /\ status rg = status rp
       /\ (status rg <> 400 -> rg = rp))
    /\ (generateQuerySchemaV2 q = true ->
        exists rg rp w',
          passwordGetV2 cfg env c q w = (Returned rg, w')
          /\ passwordPostV2 cfg env c (generateBodyOfQuery q) w
             = (Returned rp, w')
          /\ status rg = status rp
          /\ (status rg <> 400 -> rg = rp)).
Proof.
  intros cfg env c q w Hpos. split; intros Hq.
  - apply passwordGetV1_is_post; assumption.
  - apply passwordGetV2_is_post; assumption.
Qed.

End RouteProperties.

Lemma key_collision_stores_nothing_witness :
  exists reply w',
    handle (H := sampleCollaborators) defaultConfig sampleEnv
      (ToEncryptPost sampleConn hunterBody)
      (mkWorld [sampleSecret "s1" 1 false 5000] None [])
    = (Returned reply, w')
    /\ (status reply = 400 \/ status reply = 500)
    /\ secrets w' = [sampleSecret "s1" 1 false 5000]
    /\ secrets_created w' = None.
Proof.
  exact (key_collision_stores_nothing (H := sampleCollaborators)
           defaultConfig sampleEnv (ToEncryptPost sampleConn hunterBody)
           (mkWorld [sampleSecret "s1" 1 false 5000] None []) eq_refl).
Defined.

Lemma failed_statistic_orphans_the_secret_witness :
  exists what w2,
    handle (H := sampleCollaborators) defaultConfig
      (withUpsertFault (Some storeDown) sampleEnv)
      (ToEncryptPost sampleConn hunterBody) emptyWorld
    = (Returned (Reply500 what "Can't reach database server"), w2)
    /\ List.length (secrets w2) = 1%nat
    /\ secrets_created w2 = None.
Proof.
  destruct (failed_statistic_orphans_the_secret (H := sampleCollaborators)
              defaultConfig sampleEnv (ToEncryptPost sampleConn hunterBody)
              emptyWorld
              (snd (handle (H := sampleCollaborators) defaultConfig sampleEnv
                      (ToEncryptPost sampleConn hunterBody) emptyWorld))
              (successBody (H := sampleCollaborators) defaultConfig
                 sampleEnv (ToEncryptPost sampleConn hunterBody)
                 (storedRow (H := sampleCollaborators) defaultConfig
                    sampleEnv (ToEncryptPost sampleConn hunterBody)
                    86400 1))
              storeDown eq_refl eq_refl)
    as [what [w2 [E [Hs [Hl [Hc _]]]]]].
  exists what, w2. split; [exact E|]. split; [|exact Hc].
  rewrite Hs. exact Hl.
Defined.

Lemma failed_insert_stores_nothing_and_returns_the_error_witness :
  exists reply w',
    handle (H := sampleCollaborators) defaultConfig
      (withCreateFault (Some storeDown) sampleEnv)
      (ToEncryptPost sampleConn hunterBody) emptyWorld
    = (Returned reply, w')
    /\ secrets w' = []
    /\ secrets_created w' = None.
Proof.
  destruct (failed_insert_stores_nothing_and_returns_the_error
              (H := sampleCollaborators) defaultConfig
              (withCreateFault (Some storeDown) sampleEnv)
              (ToEncryptPost sampleConn hunterBody) emptyWorld storeDown
              eq_refl)
    as [reply [w' [E [Hs [Hc _]]]]].
  exists reply, w'. split; [exact E|]. split; [exact Hs | exact Hc].
Defined.

Lemma configured_host_ignores_request_headers_witness :
  handle (H := sampleCollaborators) hostedConfig sampleEnv
    (ToEncryptPost sampleConn hunterBody) emptyWorld
  = handle (H := sampleCollaborators) hostedConfig sampleEnv
      (ToEncryptPost forwardedConn hunterBody) emptyWorld.
Proof.
  exact (configured_host_ignores_request_headers (H := sampleCollaborators)
           hostedConfig sampleEnv (ToEncryptPost sampleConn hunterBody)
           sampleConn forwardedConn emptyWorld eq_refl eq_refl).
Defined.

Lemma placeholder_host_takes_link_from_headers_witness :
  url (successBody (H := sampleCollaborators) defaultConfig sampleEnv
         (ToEncryptPost forwardedConn hunterBody)
         (storedRow (H := sampleCollaborators) defaultConfig sampleEnv
            (ToEncryptPost forwardedConn hunterBody) 86400 1))
  = "https://mirror.example/secret/s1#b64(k3y)".
Proof.
  refine (placeholder_host_takes_link_from_headers
            (H := sampleCollaborators) defaultConfig sampleEnv
            (ToEncryptPost sampleConn hunterBody) forwardedConn emptyWorld
            (snd (handle (H := sampleCollaborators) defaultConfig sampleEnv
                    (ToEncryptPost forwardedConn hunterBody) emptyWorld))
            _ "https" "mirror.example" eq_refl eq_refl _ eq_refl _ eq_refl);
    discriminate.
Defined.

Lemma policy_routes_enforce_maxViewsLimit_witness :
  exists reply w',
    handle (H := sampleCollaborators) defaultConfig sampleEnv
      (ToPasswordPostV2 sampleConn views500Body) emptyWorld
    = (Returned reply, w')
    /\ status reply = 400 /\ w' = emptyWorld.
Proof.
  destruct (policy_routes_enforce_maxViewsLimit (H := sampleCollaborators)
              defaultConfig sampleEnv
              (ToPasswordPostV2 sampleConn views500Body) emptyWorld eq_refl)
    as [reply [w' [E [Hbad _]]]].
  exists reply, w'. split; [exact E|]. apply Hbad.
  intros mv Hmv. injection Hmv as <-. cbn. lia.
Defined.

Lemma reachable_worlds_are_well_formed_witness :
  keysUnique
    (exec (H := sampleCollaborators) defaultConfig
       (Create sampleEnv (ToEncryptPost sampleConn hunterBody)) emptyWorld)
  /\ secrets_created
       (exec (H := sampleCollaborators) defaultConfig
          (Create sampleEnv (ToEncryptPost sampleConn hunterBody))
          emptyWorld)
     = Some 1.
Proof.
  split; [|reflexivity].
  exact (proj1 (reachable_worlds_are_well_formed (H := sampleCollaborators)
                  defaultConfig _
                  (reach_exec defaultConfig
                     (Create sampleEnv (ToEncryptPost sampleConn hunterBody))
                     emptyWorld (reach_empty defaultConfig)))).
Defined.

Lemma secret_lives_until_swept_after_expiry_witness :
  In (sampleSecret "a" 1 false 2000)
    (secrets
       (execAll (H := sampleCollaborators) defaultConfig
          [Create sampleEnv (ToEncryptPost sampleConn hunterBody);
           Sweep (mkTickEnv 1000 None);
           Sweep (mkTickEnv 3000 (Some storeDown))]
          (mkWorld [sampleSecret "a" 1 false 2000] None []))).
Proof.
  refine (proj1 (secret_lives_until_swept_after_expiry
                   (H := sampleCollaborators) defaultConfig
                   [Create sampleEnv (ToEncryptPost sampleConn hunterBody);
                    Sweep (mkTickEnv 1000 None);
                    Sweep (mkTickEnv 3000 (Some storeDown))]
                   (mkWorld [sampleSecret "a" 1 false 2000] None [])
                   (sampleSecret "a" 1 false 2000) (or_introl eq_refl) _)).
  intros te [Hte | [Hte | [Hte | []]]] Hf; [discriminate | |].
  - injection Hte as <-. cbn. lia.
  - injection Hte as <-. discriminate Hf.
Defined.

Lemma encrypt_get_is_post_of_the_parsed_query_witness :
  exists rg rp w',
    encryptGet (H := sampleCollaborators) defaultConfig sampleEnv sampleConn
      fullQuery emptyWorld = (Returned rg, w')
    /\ encryptPost (H := sampleCollaborators) defaultConfig sampleEnv
         sampleConn (bodyOfQuery fullQuery) emptyWorld = (Returned rp, w')
    /\ status rg = status rp
    /\ (status rg <> 400 -> rg = rp).
Proof.
  refine (encrypt_get_is_post_of_the_parsed_query (H := sampleCollaborators)
            defaultConfig sampleEnv sampleConn fullQuery emptyWorld
            eq_refl eq_refl _).
  intros t Ht. cbn in Ht.
  repeat (destruct Ht as [<- | Ht]; [lia|]). contradiction.
Defined.

Lemma password_get_is_post_of_the_parsed_query_witness :
  exists rg rp w',
    passwordGetV2 (H := sampleCollaborators) defaultConfig sampleEnv
      sampleConn fullGenerateQuery emptyWorld = (Returned rg, w')
    /\ passwordPostV2 (H := sampleCollaborators) defaultConfig sampleEnv
         sampleConn (generateBodyOfQuery fullGenerateQuery) emptyWorld
       = (Returned rp, w')
    /\ status rg = status rp
    /\ (status rg <> 400 -> rg = rp).
Proof.
  refine (proj2 (password_get_is_post_of_the_parsed_query
                   (H := sampleCollaborators) defaultConfig sampleEnv
                   sampleConn fullGenerateQuery emptyWorld _) eq_refl).
  intros t Ht. cbn in Ht.
  repeat (destruct Ht as [<- | Ht]; [lia|]). contradiction.
Defined.

(* ===================================================================== *)
(** * Further properties of the sweeper                                 *)
(* ===================================================================== *)

(* ---------------- runs of the sweeper ---------------- *)

Lemma kept_kept (t1 t2 : Z) (l : list Secret) :
  kept t2 (kept t1 l) = kept (Z.max t1 t2) l.
Proof.
  unfold kept, expired. induction l as [|a l IH]; [reflexivity|].
  cbn [filter].
  destruct (Z.leb_spec (expiresAt a) t1),
    (Z.leb_spec (expiresAt a) (Z.max t1 t2)); cbn [negb filter]; try lia.
  - exact IH.
  - destruct (Z.leb_spec (expiresAt a) t2); [|lia]. cbn [negb]. exact IH.
  - destruct (Z.leb_spec (expiresAt a) t2); [lia|]. cbn [negb].
    rewrite IH. reflexivity.
Qed.

Lemma latest_max (a c : Z) (cs : list Z) :
  latest (Z.max a c) cs = Z.max a (latest c cs).
Proof.
  unfold latest. revert c. induction cs as [|x cs IH]; intros c; [reflexivity|].
  cbn [fold_left]. rewrite <- IH. f_equal. lia.
Qed.

(** X11.  Any number of runs of the sweeper amount to one: the table is
    what a single run at the latest clock among the successful runs would
    leave (untouched when none succeeds), the counter is never touched, and
    each failed run adds one line to the log. *)
Theorem sweeper_runs_compose :
  forall (envs : list TickEnv) (w : World),
    let w' := snd (runTicks sweeperTimer envs w) in
    secrets w'
    = match successfulClocks envs with
      | [] => secrets w
      | c :: cs => kept (latest c cs) (secrets w)
      end
    /\ secrets_created w' = secrets_created w
    /\ List.length (logged w')
       = (List.length (logged w) + List.length (failedRuns envs))%nat.
Proof.
  cbv zeta. induction envs as [|te rest IH]; intros w.
  - cbn. repeat split. lia.
  - cbn [runTicks]. unfold bind, fire. cbn [callback sweeperTimer].
    destruct (tickFault te) as [e|] eqn:Hf.
    + rewrite (dbCleaner_fault te w e Hf).
      destruct (IH (addLog w (message e ++ " Nothing to delete from the database")))
        as [Hs [Hc Hl]].
      cbn [successfulClocks failedRuns filter]. rewrite Hf.
      fold (failedRuns rest).
      rewrite Hs, Hc, Hl. cbn [secrets addLog secrets_created logged].
      repeat split. rewrite length_app. cbn [List.length]. lia.
    + rewrite (dbCleaner_ok te w Hf).
      destruct (IH (setSecrets w (kept (tickNow te) (secrets w))))
        as [Hs [Hc Hl]].
      cbn [successfulClocks failedRuns filter]. rewrite Hf.
      fold (failedRuns rest).
      rewrite Hs, Hc, Hl. cbn [secrets setSecrets secrets_created logged].
      repeat split.
      destruct (successfulClocks rest) as [|c cs]; [reflexivity|].
      rewrite kept_kept. unfold latest at 2. cbn [fold_left].
      fold (latest (Z.max (tickNow te) c) cs). rewrite latest_max.
      reflexivity.
Qed.

(* ===================================================================== *)
(** * Properties of the bootstrap                                       *)
(* ===================================================================== *)

Module BootstrapProofs.
Import Bootstrap.

Lemma updateAdminSettings_get (o : SettingsObject) (c : Cache) (k : string) :
  cacheGet k (updateAdminSettings o c)
  = match lastValue k o with
    | Some v => Some v
    | None => cacheGet k c
    end.
Proof.
  revert c. induction o as [|[k' v] rest IH]; intros c; [reflexivity|].
  unfold updateAdminSettings in *. cbn [fold_left fst snd lastValue].
  rewrite IH. destruct (lastValue k rest); [reflexivity|].
  unfold cacheGet, cacheSet. destruct (String.eqb k k'); reflexivity.
Qed.

(** X13.  After [updateAdminSettings(settings)] a key of [settings] reads
    as its value there and every other key as before; applying the same
    object twice is as applying it once, and the empty object changes
    nothing. *)
Theorem updateAdminSettings_sets_the_given_keys_only :
  forall (o : SettingsObject) (c : Cache) (k : string),
    cacheGet k (updateAdminSettings o c)
    = match lastValue k o with
      | Some v => Some v
      | None => cacheGet k c
      end
    /\ cacheGet k (updateAdminSettings o (updateAdminSettings o c))
       = cacheGet k (updateAdminSettings o c)
    /\ cacheGet k (updateAdminSettings [] c) = cacheGet k c.
Proof.
  intros o c k. split; [apply updateAdminSettings_get|]. split; [|reflexivity].
  rewrite !updateAdminSettings_get. destruct (lastValue k o); reflexivity.
Qed.

Lemma find_replaceFirst (row : Settings) (l : list Settings) (old : Settings) :
  find isAdminRow l = Some old -> isAdminRow row = true ->
  find isAdminRow (replaceFirst isAdminRow row l) = Some row.
Proof.
  induction l as [|x l IH]; intros Hf Hr; [discriminate|].
  cbn [find replaceFirst] in *. destruct (isAdminRow x) eqn:Hx.
  - cbn [find]. rewrite Hr. reflexivity.
  - cbn [find]. rewrite Hx. apply IH; assumption.
Qed.

Lemma others_replaceFirst (row : Settings) (l : list Settings) :
  isAdminRow row = true ->
  filter (fun s => negb (isAdminRow s)) (replaceFirst isAdminRow row l)
  = filter (fun s => negb (isAdminRow s)) l.
Proof.
  intros Hr. induction l as [|x l IH]; [reflexivity|].
  cbn [replaceFirst]. destruct (isAdminRow x) eqn:Hx.
  - cbn [filter]. rewrite Hr, Hx. reflexivity.
  - cbn [filter]. rewrite Hx. cbn [negb]. rewrite IH. reflexivity.
Qed.

Lemma find_snoc_none (l : list Settings) (row : Settings) :
  find isAdminRow l = None -> isAdminRow row = true ->
  find isAdminRow (l ++ [row]) = Some row.
Proof.
  induction l as [|x l IH]; intros Hf Hr.
  - cbn. rewrite Hr. reflexivity.
  - cbn [find app] in *. destruct (isAdminRow x); [discriminate|].
    apply IH; assumption.
Qed.

Section WithGate.
Context `{Collaborators}.

(** X14.  When the upsert succeeds, [createAdminSettings] makes the
    configuration win over whatever was stored: the row [admin_settings]
    holds the six configured values, with the normalised domain list, the
    other rows and the users are untouched, and the cache answers the six
    keys with the configured values. *)
Theorem createAdminSettings_overwrites_stored_settings :
  forall (ic : InstanceConfig) (env : Env) (st : State),
    upsertFault env = None ->
    exists st',
      createAdminSettings ic env st = (Returned tt, st')
      /\ find isAdminRow (settingsTable st') = Some (configuredSettings ic)
      /\ filter (fun s => negb (isAdminRow s)) (settingsTable st')
         = filter (fun s => negb (isAdminRow s)) (settingsTable st)
      /\ users st' = users st /\ process st' = process st
      /\ cacheGet "disable_users" (adminSettings st')
         = Some (SBool (disableUsers ic))
      /\ cacheGet "disable_user_account_creation" (adminSettings st')
         = Some (SBool (disableUserAccountCreation ic))
      /\ cacheGet "read_only" (adminSettings st') = Some (SBool (readOnly ic))
      /\ cacheGet "disable_file_upload" (adminSettings st')
         = Some (SBool (disableFileUpload ic))
      /\ cacheGet "hide_allowed_ip_input" (adminSettings st')
         = Some (SBool (disableIpRestriction ic))
      /\ cacheGet "restrict_organization_email" (adminSettings st')
         = Some (SText (restrictEmailDomains ic)).
Proof.
  intros ic env st Hf.
  unfold createAdminSettings, bindB, settingsUpsert. rewrite Hf.
  destruct (find isAdminRow (settingsTable st)) as [old|] eqn:Hfind.
  - assert (Hid : settings_id old = "admin_settings").
    { apply find_some in Hfind. destruct Hfind as [_ Hk].
      apply String.eqb_eq in Hk. exact Hk. }
    rewrite Hid. fold (configuredSettings ic).
    eexists. split; [reflexivity|].
    cbn [settingsTable users process adminSettings].
    split; [apply (find_replaceFirst _ _ old); [assumption|reflexivity]|].
    split; [apply others_replaceFirst; reflexivity|].
    repeat split.
  - eexists. split; [reflexivity|].
    cbn [settingsTable users process adminSettings].
    split; [apply find_snoc_none; [assumption|reflexivity]|].
    split.
    { rewrite filter_app. cbn. rewrite app_nil_r. reflexivity. }
    repeat split.
Qed.

Lemma createAdminSettings_frame (ic : InstanceConfig) (env : Env)
  (st : State) :
  users (snd (createAdminSettings ic env st)) = users st
  /\ process (snd (createAdminSettings ic env st)) = process st.
Proof.
  unfold createAdminSettings, bindB, settingsUpsert.
  destruct (upsertFault env); [split; reflexivity|].
  destruct (find isAdminRow (settingsTable st)); split; reflexivity.
Qed.

Lemma createRootUser_frame (acct : RootAccount) (env : Env) (st : State) :
  settingsTable (snd (createRootUser acct env st)) = settingsTable st
  /\ adminSettings (snd (createRootUser acct env st)) = adminSettings st
  /\ process (snd (createRootUser acct env st)) = process st.
Proof.
  unfold createRootUser, bindB, userFindFirst, userCreate, retB.
  destruct (findFault env); [repeat split|].
  destruct (find _ (users st)); [repeat split|].
  destruct (createFault env); [repeat split|].
  repeat (destruct (existsb _ (users st)); [repeat split|]).
  repeat split.
Qed.

(** X15.  After a run of [createRootUser] that returns, a user with the
    configured name and e-mail exists; the run added at most one user, an
    admin with the hashed password; and any later run for the same name
    and e-mail whose lookup succeeds changes nothing, whatever the
    configured password then is. *)
Theorem createRootUser_creates_once :
  forall (acct : RootAccount) (env : Env) (st st1 : State),
    createRootUser acct env st = (Returned tt, st1) ->
    (exists u,
       In u (users st1) /\ u_username u = account_user acct
       /\ u_email u = account_email acct)
    /\ (users st1 = users st
        \/ users st1
           = (users st
              ++ [mkUser (newUserId env) (account_user acct)
                    (account_email acct) (hash env (account_password acct))
                    "admin" true (userNow env)])%list)
    /\ (forall (acct' : RootAccount) (env' : Env),
          account_user acct' = account_user acct ->
          account_email acct' = account_email acct ->
          findFault env' = None ->
          createRootUser acct' env' st1 = (Returned tt, st1)).
Proof.
  intros acct env st st1 Hrun.
  assert (Hfound : exists u,
             find (fun u => String.eqb (u_username u) (account_user acct)
                            && String.eqb (u_email u) (account_email acct))
               (users st1) = Some u
             /\ (users st1 = users st
                 \/ users st1
                    = (users st
                       ++ [mkUser (newUserId env) (account_user acct)
                             (account_email acct)
                             (hash env (account_password acct))
                             "admin" true (userNow env)])%list)).
  { unfold createRootUser, bindB, userFindFirst, userCreate, retB in Hrun.
    destruct (findFault env); [discriminate|].
    destruct (find _ (users st)) as [u|] eqn:Hfind.
    - injection Hrun as <-. exists u. split; [assumption | now left].
    - destruct (createFault env); [discriminate|].
      repeat (destruct (existsb _ (users st)); [discriminate|]).
      injection Hrun as <-. cbn [users].
      eexists. split; [|right; reflexivity].
      clear - Hfind. induction (users st) as [|x l IH].
      + cbn. rewrite !String.eqb_refl. reflexivity.
      + cbn [find app] in *.
        destruct (String.eqb (u_username x) (account_user acct)
                  && String.eqb (u_email x) (account_email acct));
          [discriminate|].
        apply IH. assumption. }
  destruct Hfound as [u [Hfind Hshape]].
  split; [|split; [assumption|]].
  - exists u. pose proof (find_some _ _ Hfind) as [Hin Hb].
    apply andb_true_iff in Hb. destruct Hb as [Hn He].
    apply String.eqb_eq in Hn. apply String.eqb_eq in He.
    repeat split; assumption.
  - intros acct' env' Hu He Hf.
    unfold createRootUser, bindB, userFindFirst, retB.
    rewrite Hf, Hu, He, Hfind. reflexivity.
Qed.

Lemma find_unique_username (l : list User) (u : User) (n e : string) :
  NoDup (map u_username l) -> In u l -> u_username u = n -> u_email u <> e ->
  find (fun x => String.eqb (u_username x) n && String.eqb (u_email x) e) l
  = None.
Proof.
  intros Hnd Hin Hn He.
  destruct (find _ l) as [x|] eqn:Hfind; [|reflexivity].
  apply find_some in Hfind. destruct Hfind as [Hx Hb].
  apply andb_true_iff in Hb. destruct Hb as [Hxn Hxe].
  apply String.eqb_eq in Hxn. apply String.eqb_eq in Hxe.
  assert (x = u).
  { clear - Hnd Hin Hx Hxn Hn. revert Hnd Hin Hx.
    induction l as [|y l IH]; intros Hnd Hin Hx; [contradiction|].
    cbn [map] in Hnd. inversion Hnd as [|? ? Hnot Hnd']; subst.
    destruct Hin as [->|Hin], Hx as [->|Hx].
    - reflexivity.
    - exfalso. apply Hnot. rewrite <- Hxn.
      apply in_map. assumption.
    - exfalso. apply Hnot. rewrite Hxn.
      apply (in_map u_username) in Hin. assumption.
    - apply IH; assumption. }
  subst x. contradiction.
Qed.

(** X17.  When the configured root user name is held by a user with
    another e-mail, [createRootUser] runs into the unique index, and the
    process starts without a sweeper: [main] returns no timer, creates no
    user and logs the failure. *)
Theorem taken_root_username_leaves_no_sweeper :
  forall (ic : InstanceConfig) (acct : RootAccount) (env : Env) (st : State)
         (u : User),
    upsertFault env = None ->
    findFault env = None ->
    NoDup (map u_username (users st)) ->
    In u (users st) ->
    u_username u = account_user acct ->
    u_email u <> account_email acct ->
    exists st' e,
      Bootstrap.main ic acct env st = (Returned [], st')
      /\ users st' = users st
      /\ logged (process st')
         = (logged (process st)
            ++ [("Failed to initialize application: " ++ message e)%string])%list.
Proof.
  intros ic acct env st u Hup Hff Hnd Hin Hn He.
  destruct (createAdminSettings_overwrites_stored_settings ic env st Hup)
    as [st1 [Hrun [_ [_ [Hus [Hpr _]]]]]].
  assert (Hex : existsb (fun x => String.eqb (u_username x) (account_user acct))
                  (users st1) = true).
  { apply existsb_exists. exists u. rewrite Hus. split; [assumption|].
    apply String.eqb_eq. assumption. }
  pose proof (find_unique_username (users st1) u (account_user acct)
                (account_email acct)) as Hfind.
  rewrite Hus in Hfind at 1 2. specialize (Hfind Hnd Hin Hn He).
  unfold Bootstrap.main, tryCatchB, bindB. rewrite Hrun.
  unfold createRootUser, bindB, userFindFirst, userCreate, retB.
  rewrite Hff, Hfind.
  destruct (createFault env) as [e0|].
  - eexists _, e0. split; [reflexivity|]. cbn [users process logged addLog].
    rewrite Hus, Hpr. split; reflexivity.
  - rewrite Hex. clear Hex.
    destruct (existsb _ (users st1)).
    + eexists _, _. split; [reflexivity|]. cbn [users process logged addLog].
      rewrite Hus, Hpr. split; reflexivity.
    + eexists _, _. split; [reflexivity|]. cbn [users process logged addLog].
      rewrite Hus, Hpr. split; reflexivity.
Qed.

Lemma plainDomain_facts (d : string) :
  plainDomain d = true ->
  JS.nonEmpty d = true /\ hasChar "," d = false /\ JS.trim d = d.
Proof.
  unfold plainDomain. intros Hp.
  apply andb_true_iff in Hp. destruct Hp as [Hp Ht].
  apply andb_true_iff in Hp. destruct Hp as [Hn Hc].
  apply negb_true_iff in Hc. apply String.eqb_eq in Ht.
  repeat split; assumption.
Qed.

Lemma allowedDomains_join (ds : list string) :
  ds <> [] -> forallb plainDomain ds = true ->
  allowedDomains (JS.join "," ds) = ds /\ JS.join "," ds <> "".
Proof.
  intros Hne Hall. rewrite forallb_forall in Hall. split.
  - unfold allowedDomains. rewrite split_join; [|assumption|].
    + clear Hne. induction ds as [|d ds IH]; [reflexivity|].
      destruct (plainDomain_facts d) as [Hn [_ Ht]]; [apply Hall; now left|].
      cbn [map filter]. rewrite Ht, Hn. f_equal.
      apply IH. intros x Hx. apply Hall. now right.
    + intros d Hd. apply (plainDomain_facts d). apply Hall. assumption.
  - destruct ds as [|d ds]; [contradiction|].
    destruct (plainDomain_facts d) as [Hn _]; [apply Hall; now left|].
    destruct d as [|a d]; [discriminate|].
    destruct ds; cbn; discriminate.
Qed.

Lemma restrictEmailDomains_join (ic : InstanceConfig) :
  restrictEmailDomains ic = JS.join "," (configuredDomains ic).
Proof.
  unfold restrictEmailDomains, configuredDomains, allowedDomains.
  destruct (restrictOrganizationEmail ic) as [s|]; [|reflexivity].
  destruct (JS.truthy s); reflexivity.
Qed.

(** X18.  Bootstrap and gate together: after [createAdminSettings], the
    gate denies a request exactly when it is a sign-up, the configuration
    names at least one domain, and the domain of the e-mail is none of the
    configured ones, provided [getEmailDomain] maps the configured entries
    to plain domains and leaves a plain domain as it is. *)
Theorem gate_after_bootstrap_admits_the_configured_domains :
  forall (ic : InstanceConfig) (env : Env) (st : State) (u : string)
         (bodyEmail : option string),
    upsertFault env = None ->
    forallb plainDomain (configuredDomains ic) = true ->
    (forall d, In d (configuredDomains ic) -> getEmailDomain d = d) ->
    exists st',
      createAdminSettings ic env st = (Returned tt, st')
      /\ (restrictOrganizationEmailHandler
            (restrictSetting (adminSettings st')) u bodyEmail
          = Replied 403 errorMessage
          <-> authenticationRegexTest u = true
              /\ configuredDomains ic <> []
              /\ ~ In (getEmailDomain (withDefault "" bodyEmail))
                     (configuredDomains ic)).
Proof.
  intros ic env st u bodyEmail Hup Hplain Hfix.
  destruct (createAdminSettings_overwrites_stored_settings ic env st Hup)
    as [st' [Hrun [_ [_ [_ [_ [_ [_ [_ [_ [_ Hget]]]]]]]]]]].
  exists st'. split; [assumption|].
  unfold restrictSetting. rewrite Hget, restrictEmailDomains_join.
  destruct (configuredDomains ic) as [|d ds] eqn:Hds.
  - cbn. split; [discriminate|]. intros [_ [Hc _]]. now contradiction Hc.
  - destruct (allowedDomains_join (d :: ds)) as [Hround Hne];
      [discriminate | assumption |].
    rewrite gate_verdict_bare_domains; [|assumption|].
    + rewrite Hround. split.
      * intros [Hu Hn]. split; [assumption|]. split; [discriminate|assumption].
      * intros [Hu [_ Hn]]. split; assumption.
    + rewrite Hround. assumption.
Qed.

(** X19.  A restriction that is not empty but names no entry (commas and
    white space only): configured at start, it is normalised to the empty
    text and the gate lets every sign-up through; put into the cache as it
    is with [updateAdminSettings], it makes the gate deny every
    sign-up. *)
Theorem entryless_restriction_opens_at_bootstrap_but_locks_when_set :
  forall (ic : InstanceConfig) (env : Env) (st : State) (s u : string)
         (bodyEmail : option string),
    upsertFault env = None ->
    restrictOrganizationEmail ic = Some s ->
    s <> "" ->
    allowedDomains s = [] ->
    authenticationRegexTest u = true ->
    (exists st',
       createAdminSettings ic env st = (Returned tt, st')
       /\ restrictSetting (adminSettings st') = Some ""
       /\ restrictOrganizationEmailHandler
            (restrictSetting (adminSettings st')) u bodyEmail = Continue)
    /\ restrictOrganizationEmailHandler
         (restrictSetting
            (updateAdminSettings
               [("restrict_organization_email", SText s)] (adminSettings st)))
         u bodyEmail
       = Replied 403 errorMessage.
Proof.
  intros ic env st s u bodyEmail Hup Hs Hne Hnone Hu. split.
  - destruct (createAdminSettings_overwrites_stored_settings ic env st Hup)
      as [st' [Hrun [_ [_ [_ [_ [_ [_ [_ [_ [_ Hget]]]]]]]]]]].
    exists st'. split; [assumption|].
    unfold restrictSetting. rewrite Hget, restrictEmailDomains_join.
    unfold configuredDomains. rewrite Hs, Hnone.
    destruct (JS.truthy s); split; reflexivity.
  - apply gate_verdict. exists s.
    split; [reflexivity|]. split; [assumption|]. split; [assumption|].
    rewrite Hnone. intros [].
Qed.

End WithGate.
End BootstrapProofs.

Section BootstrapMain.
Context `{Collaborators}.

(** X16.  [main] never throws.  It registers the sweeper, every 20
    seconds and nothing else, exactly when [createAdminSettings] and
    [createRootUser] both return, and then logs nothing; otherwise no timer
    is registered and the error of the step that threw is logged.  On the
    process state it is the [main] that takes the errors of the two steps
    as given. *)
Theorem bootstrap_starts_sweeper_iff_both_steps_succeed :
  forall (ic : Bootstrap.InstanceConfig) (acct : Bootstrap.RootAccount)
         (env : Bootstrap.Env) (st : Bootstrap.State),
    let settled := Bootstrap.createAdminSettings ic env st in
    let rooted := Bootstrap.createRootUser acct env (snd settled) in
    exists timers st',
      Bootstrap.main ic acct env st = (Returned timers, st')
      /\ (timers = [sweeperTimer]
          <-> fst settled = Returned tt /\ fst rooted = Returned tt)
      /\ (timers = [sweeperTimer] \/ timers = [])
      /\ (timers = [sweeperTimer] ->
          Bootstrap.process st' = Bootstrap.process st)
      /\ (timers = [] ->
          exists e,
            (fst settled = Threw e
             \/ fst settled = Returned tt /\ fst rooted = Threw e)
            /\ Bootstrap.process st'
               = addLog (Bootstrap.process st)
                   ("Failed to initialize application: " ++ message e))
      /\ main (Bootstrap.thrownBy (fst settled))
           (match fst settled with
            | Returned _ => Bootstrap.thrownBy (fst rooted)
            | Threw _ => None
            end) (Bootstrap.process st)
         = (Returned timers, Bootstrap.process st').
Proof.
  intros ic acct env st settled rooted.
  pose proof (BootstrapProofs.createAdminSettings_frame ic env st) as [_ Hp1].
  pose proof (BootstrapProofs.createRootUser_frame acct env (snd settled)) as [_ [_ Hp2]].
  fold settled in Hp1. fold rooted in Hp2.
  unfold Bootstrap.main, Bootstrap.tryCatchB, Bootstrap.bindB, main,
    tryCatch, bind, throw, ret, logError, Bootstrap.consoleError,
    Bootstrap.retB.
  fold settled.
  destruct settled as [[[]|e1] st1] eqn:Hs;
    cbn [fst snd Bootstrap.thrownBy] in *.
  - fold rooted.
    destruct rooted as [[[]|e2] st2] eqn:Hr;
      cbn [fst snd Bootstrap.thrownBy] in *.
    + exists [sweeperTimer], st2. split; [reflexivity|].
      split; [split; [intros _; split; reflexivity | reflexivity]|].
      split; [now left|]. split; [intros _; congruence|].
      split; [discriminate|]. rewrite Hp2, Hp1. reflexivity.
    + eexists [], _. split; [reflexivity|]. cbn [Bootstrap.process].
      split; [split; [discriminate | intros [_ Hc]; discriminate]|].
      split; [now right|]. split; [discriminate|].
      split.
      * intros _. exists e2. split; [right; split; reflexivity|].
        rewrite Hp2, Hp1. reflexivity.
      * rewrite Hp2, Hp1. reflexivity.
  - eexists [], _. split; [reflexivity|]. cbn [Bootstrap.process].
    split; [split; [discriminate | intros [Hc _]; discriminate]|].
    split; [now right|]. split; [discriminate|].
    split.
    + intros _. exists e1. split; [left; reflexivity|].
      rewrite Hp1. reflexivity.
    + rewrite Hp1. reflexivity.
Qed.

End BootstrapMain.

Lemma createAdminSettings_overwrites_stored_settings_witness :
  exists st',
    Bootstrap.createAdminSettings (H := sampleCollaborators)
      Bootstrap.sampleInstance Bootstrap.sampleBootEnv Bootstrap.emptyState
    = (Returned tt, st')
    /\ Bootstrap.cacheGet "disable_user_account_creation"
         (Bootstrap.adminSettings st')
       = Some (Bootstrap.SBool true)
    /\ Bootstrap.cacheGet "restrict_organization_email"
         (Bootstrap.adminSettings st')
       = Some (Bootstrap.SText "example.org,corp.example").
Proof.
  destruct (BootstrapProofs.createAdminSettings_overwrites_stored_settings
              (H := sampleCollaborators) Bootstrap.sampleInstance
              Bootstrap.sampleBootEnv Bootstrap.emptyState eq_refl)
    as [st' [E [_ [_ [_ [_ [_ [Hc [_ [_ [_ Hr]]]]]]]]]]].
  exists st'. split; [exact E|]. split; [exact Hc | exact Hr].
Defined.

Lemma createRootUser_creates_once_witness :
  Bootstrap.createRootUser
    (Bootstrap.mkRootAccount "root" "root@example.org" "another")
    Bootstrap.sampleBootEnv
    (snd (Bootstrap.createRootUser Bootstrap.sampleAccount
            Bootstrap.sampleBootEnv Bootstrap.emptyState))
  = (Returned tt,
     snd (Bootstrap.createRootUser Bootstrap.sampleAccount
            Bootstrap.sampleBootEnv Bootstrap.emptyState)).
Proof.
  exact (proj2 (proj2
    (BootstrapProofs.createRootUser_creates_once Bootstrap.sampleAccount
       Bootstrap.sampleBootEnv Bootstrap.emptyState
       (snd (Bootstrap.createRootUser Bootstrap.sampleAccount
               Bootstrap.sampleBootEnv Bootstrap.emptyState))
       eq_refl))
    (Bootstrap.mkRootAccount "root" "root@example.org" "another")
    Bootstrap.sampleBootEnv eq_refl eq_refl eq_refl).
Defined.

Lemma taken_root_username_leaves_no_sweeper_witness :
  exists st' e,
    Bootstrap.main (H := sampleCollaborators) Bootstrap.sampleInstance
      Bootstrap.sampleAccount Bootstrap.sampleBootEnv Bootstrap.takenState
    = (Returned [], st')
    /\ Bootstrap.users st' = [Bootstrap.takenUser]
    /\ logged (Bootstrap.process st')
       = [("Failed to initialize application: " ++ message e)%string].
Proof.
  refine (BootstrapProofs.taken_root_username_leaves_no_sweeper
            (H := sampleCollaborators) Bootstrap.sampleInstance
            Bootstrap.sampleAccount Bootstrap.sampleBootEnv
            Bootstrap.takenState Bootstrap.takenUser eq_refl eq_refl _
            (or_introl eq_refl) eq_refl _).
  - constructor; [intros [] | constructor].
  - discriminate.
Defined.

Lemma gate_after_bootstrap_admits_the_configured_domains_witness :
  exists st',
    Bootstrap.createAdminSettings (H := sampleCollaborators)
      Bootstrap.sampleInstance Bootstrap.sampleBootEnv Bootstrap.emptyState
    = (Returned tt, st')
    /\ restrictOrganizationEmailHandler (H := sampleCollaborators)
         (Bootstrap.restrictSetting (Bootstrap.adminSettings st'))
         "/api/authentication/signup" (Some "mallory@elsewhere.example")
       = Replied 403 errorMessage.
Proof.
  destruct (BootstrapProofs.gate_after_bootstrap_admits_the_configured_domains
              (H := sampleCollaborators) Bootstrap.sampleInstance
              Bootstrap.sampleBootEnv Bootstrap.emptyState
              "/api/authentication/signup" (Some "mallory@elsewhere.example")
              eq_refl eq_refl)
    as [st' [E Hiff]].
  - intros d Hd. cbn in Hd. destruct Hd as [<- | [<- | []]]; reflexivity.
  - exists st'. split; [exact E|]. apply Hiff.
    split; [reflexivity|]. split; [discriminate|].
    cbn. intros [Hc | [Hc | []]]; discriminate Hc.
Defined.

Lemma entryless_restriction_opens_at_bootstrap_but_locks_when_set_witness :
  restrictOrganizationEmailHandler (H := sampleCollaborators)
    (Bootstrap.restrictSetting
       (Bootstrap.updateAdminSettings
          [("restrict_organization_email", Bootstrap.SText " , ")]
          Bootstrap.emptyCache))
    "/api/authentication/signup" (Some "alice@example.org")
  = Replied 403 errorMessage.
Proof.
  refine (proj2
    (BootstrapProofs.entryless_restriction_opens_at_bootstrap_but_locks_when_set
       (H := sampleCollaborators) Bootstrap.blankInstance
       Bootstrap.sampleBootEnv Bootstrap.emptyState " , "
       "/api/authentication/signup" (Some "alice@example.org")
       eq_refl eq_refl _ eq_refl eq_refl)).
  discriminate.
Defined.

(* ===================================================================== *)
(** * Properties of formatDateToSydney                                  *)
(* ===================================================================== *)

Module SydneyProofs.
Import Sydney.

Lemma two_digits_checked :
  forallb
    (fun k =>
       match padStart2 (JS.numToString k) with
       | String a (String b EmptyString) =>
           JS.isDigit a && JS.isDigit b
           && Z.eqb (JS.parseDigits 0 (String a (String b EmptyString))) k
       | _ => false
       end)
    (map Z.of_nat (seq 0 100)) = true.
Proof. vm_compute. reflexivity. Qed.

Lemma two_digits (k : Z) :
  0 <= k < 100 ->
  exists a b,
    padStart2 (JS.numToString k) = String a (String b EmptyString)
    /\ JS.isDigit a = true /\ JS.isDigit b = true
    /\ JS.parseDigits 0 (String a (String b EmptyString)) = k.
Proof.
  intros Hk. pose proof two_digits_checked as Hall.
  rewrite forallb_forall in Hall.
  assert (Hin : In k (map Z.of_nat (seq 0 100))).
  { apply in_map_iff. exists (Z.to_nat k). split; [lia|].
    apply in_seq. lia. }
  specialize (Hall k Hin).
  destruct (padStart2 (JS.numToString k)) as [|a [|b [|? ?]]];
    try discriminate.
  apply andb_true_iff in Hall. destruct Hall as [Hd He].
  apply andb_true_iff in Hd. destruct Hd as [Ha Hb].
  apply Z.eqb_eq in He. exists a, b. repeat split; assumption.
Qed.

Lemma offsetString_reads_back (m : Z) :
  -6000 < m < 6000 -> readOffset (offsetString m) = Some m.
Proof.
  intros Hm. unfold offsetString. cbv zeta.
  assert (Hh : 0 <= Z.abs m / 60 < 100).
  { split; [apply Z.div_pos; lia|].
    apply Z.div_lt_upper_bound; lia. }
  assert (Hn : 0 <= Z.abs m mod 60 < 100).
  { pose proof (Z.mod_pos_bound (Z.abs m) 60 ltac:(lia)). lia. }
  destruct (two_digits _ Hh) as [h1 [h2 [Eh [Hh1 [Hh2 Ph]]]]].
  destruct (two_digits _ Hn) as [n1 [n2 [En [Hn1 [Hn2 Pn]]]]].
  rewrite Eh, En.
  pose proof (Z.div_mod (Z.abs m) 60 ltac:(lia)) as Hdm.
  destruct (Z.leb_spec 0 m) as [Hpos|Hneg].
  - cbn [String.append readOffset]. rewrite Hh1, Hh2, Hn1, Hn2.
    cbn [Ascii.eqb Bool.eqb andb]. rewrite Ph, Pn. f_equal. lia.
  - cbn [String.append readOffset]. rewrite Hh1, Hh2, Hn1, Hn2.
    cbn [Ascii.eqb Bool.eqb andb]. rewrite Ph, Pn. f_equal. lia.
Qed.

Lemma substring_skip (a b : string) (k n : nat) :
  substring (String.length a + k) n (a ++ b) = substring k n b.
Proof. induction a as [|c a IH]; [reflexivity|]. cbn. exact IH. Qed.

Lemma substring_whole (s : string) : substring 0 (String.length s) s = s.
Proof. induction s as [|c s IH]; [reflexivity|]. cbn. now rewrite IH. Qed.

Lemma offsetString_length (m : Z) :
  -6000 < m < 6000 -> String.length (offsetString m) = 6%nat.
Proof.
  intros Hm. pose proof (offsetString_reads_back m Hm) as Hr.
  unfold readOffset in Hr.
  destruct (offsetString m) as [|c0 [|c1 [|c2 [|c3 [|c4 [|c5 [|c6 s]]]]]]];
    try discriminate.
  reflexivity.
Qed.

Lemma offsetMinutesOf_nearest (x : Z) :
  -30000 <= x - 60000 * offsetMinutesOf x < 30000.
Proof.
  unfold offsetMinutesOf.
  pose proof (Z.div_mod (x + 30000) 60000 ltac:(lia)).
  pose proof (Z.mod_pos_bound (x + 30000) 60000 ltac:(lia)).
  lia.
Qed.

(** X20.  With a four-digit year and two-digit parts from [Intl], and an
    offset of less than a hundred hours, [formatDateToSydney] returns 25
    characters: the parts in ISO order, then an offset [+hh:mm] or [-hh:mm]
    that reads back as the difference of the two wall clocks rounded to the
    nearest minute. *)
Theorem sydney_stamp_ends_in_the_rounded_offset :
  forall (v : IntlView),
    String.length (year v) = 4%nat ->
    String.length (month v) = 2%nat ->
    String.length (day v) = 2%nat ->
    String.length (hour v) = 2%nat ->
    String.length (minute v) = 2%nat ->
    String.length (second v) = 2%nat ->
    -6000 < offsetMinutesOf (sydneyTime v - utcTime v) < 6000 ->
    String.length (formatDateToSydneyWith v) = 25%nat
    /\ substring 0 19 (formatDateToSydneyWith v)
       = year v ++ "-" ++ month v ++ "-" ++ day v ++ "T" ++ hour v ++ ":"
         ++ minute v ++ ":" ++ second v
    /\ readOffset (substring 19 6 (formatDateToSydneyWith v))
       = Some (offsetMinutesOf (sydneyTime v - utcTime v))
    /\ -30000
       <= (sydneyTime v - utcTime v)
          - 60000 * offsetMinutesOf (sydneyTime v - utcTime v)
       < 30000.
Proof.
  intros v Hy Hmo Hd Hh Hmi Hs Hoff.
  pose proof (offsetString_length _ Hoff) as Hlen.
  pose proof (offsetString_reads_back _ Hoff) as Hread.
  unfold formatDateToSydneyWith.
  set (off := offsetString (offsetMinutesOf (sydneyTime v - utcTime v))) in *.
  destruct (year v) as [|y1 [|y2 [|y3 [|y4 [|? ?]]]]]; try discriminate.
  destruct (month v) as [|m1 [|m2 [|? ?]]]; try discriminate.
  destruct (day v) as [|d1 [|d2 [|? ?]]]; try discriminate.
  destruct (hour v) as [|h1 [|h2 [|? ?]]]; try discriminate.
  destruct (minute v) as [|n1 [|n2 [|? ?]]]; try discriminate.
  destruct (second v) as [|s1 [|s2 [|? ?]]]; try discriminate.
  cbn [String.append String.length substring].
  split; [rewrite Hlen; reflexivity|].
  split.
  { destruct off; reflexivity. }
  split; [|apply offsetMinutesOf_nearest].
  rewrite <- Hlen, substring_whole. exact Hread.
Qed.

End SydneyProofs.

Lemma sydney_stamp_ends_in_the_rounded_offset_witness :
  String.length (Sydney.formatDateToSydneyWith Sydney.sampleView) = 25%nat
  /\ substring 0 19 (Sydney.formatDateToSydneyWith Sydney.sampleView)
     = "2026-11-03T09:30:00"
  /\ Sydney.readOffset
       (substring 19 6 (Sydney.formatDateToSydneyWith Sydney.sampleView))
     = Some 660
  /\ -30000 <= 39600000 - 60000 * 660 < 30000.
Proof.
  apply (SydneyProofs.sydney_stamp_ends_in_the_rounded_offset
           Sydney.sampleView);
    try reflexivity.
  vm_compute. split; reflexivity.
Defined.
